(** * Tracker stores: event-sourced persistence of conversations

    A shallow embedding of [tracker_store.py]: the [TrackerStore] base class,
    the in-memory and SQL backends, the fail-safe wrapper, the sessions and
    the constructor of the SQL store and the factory of stores, together
    with the properties of the persistence layer that follow from the code.

    Objects are records, methods are computations in a small state-and-error
    monad over the object and the outside world (message broker, warnings,
    error log, wall clock).  Python dictionaries used as maps are [gmap]s;
    JSON objects keep their key order and are association lists. *)

From Stdlib Require Import ZArith Sorting.Sorted.
From stdpp Require Import base strings gmap list sorting.

Open Scope string_scope.
Open Scope list_scope.

(** ** JSON values and Python dictionaries with string keys *)

#[warnings="-register-all"]
Inductive json : Type :=
| JNull
| JNum (n : Z)
| JStr (s : string)
| JArr (items : list json)
| JObj (members : list (string * json)).

Abbreviation Dict := (list (string * json)).

(** [d.get(key)] *)
Fixpoint dict_get (key : string) (d : Dict) : option json :=
  match d with
  | [] => None
  | (k, v) :: rest => if String.eqb k key then Some v else dict_get key rest
  end.

(** [d[key] = value]: an existing key keeps its position, a new key goes last. *)
Fixpoint dict_set (key : string) (value : json) (d : Dict) : Dict :=
  match d with
  | [] => [(key, value)]
  | (k, v) :: rest =>
      if String.eqb k key then (k, value) :: rest
      else (k, v) :: dict_set key value rest
  end.

(** [d.update(other)] *)
Definition dict_update (d other : Dict) : Dict :=
  foldl (fun acc kv => dict_set kv.1 kv.2 acc) d other.

(** [j.get(key, {})] on a JSON object; the events of this model only ever
    hold objects where the code chains [.get]. *)
Definition get_or_empty (key : string) (d : Dict) : Dict :=
  match dict_get key d with
  | Some (JObj members) => members
  | _ => []
  end.

Definition as_text (v : option json) : option string :=
  match v with
  | Some (JStr s) => Some s
  | _ => None
  end.

(** Modelled from the spec: the [json] module of the standard library, which
    serialises "losslessly to/from a structured textual form".  A [str]
    holding a JSON document is represented by the value it spells:
    [json.dumps] builds it and [json.loads] reads it back. *)
Record Text : Type := json_dumps { json_value : json }.

(** ** Exceptions *)

Inductive PyError : Type :=
| NotImplementedError
| UnicodeDecodeError
| ValueError (msg : string)
| TypeError (msg : string)
| AttributeError (msg : string)
| ConnectionException (msg : string)
| RuntimeError (msg : string)
| SystemExit.

(** [except Exception] catches everything but the exits of the interpreter. *)
Definition is_Exception (e : PyError) : bool :=
  match e with
  | SystemExit => false
  | _ => true
  end.

Definition is_UnicodeDecodeError (e : PyError) : bool :=
  match e with
  | UnicodeDecodeError => true
  | _ => false
  end.

(** ** The outside world *)

Definition EventBroker := string.
Definition Callback := string.

Record World : Type := mkWorld {
  (** bodies handed to [EventBroker.publish], oldest first *)
  published : list (EventBroker * Dict);
  (** messages of [raise_deprecation_warning], oldest first *)
  warnings : list string;
  (** messages of [logger.error], oldest first *)
  error_log : list string;
  (** invocations of user callbacks with their argument, oldest first *)
  callback_calls : list (Callback * PyError);
  (** the wall clock: the reading returned by the n-th look at it *)
  wall_clock : nat -> Z;
  clock_reads : nat
}.

Definition publish (broker : EventBroker) (body : Dict) (w : World) : World :=
  mkWorld (published w ++ [(broker, body)]) (warnings w) (error_log w)
          (callback_calls w) (wall_clock w) (clock_reads w).

Definition warn (msg : string) (w : World) : World :=
  mkWorld (published w) (warnings w ++ [msg]) (error_log w)
          (callback_calls w) (wall_clock w) (clock_reads w).

Definition log_error (msg : string) (w : World) : World :=
  mkWorld (published w) (warnings w) (error_log w ++ [msg])
          (callback_calls w) (wall_clock w) (clock_reads w).

Definition call_back (cb : Callback) (e : PyError) (w : World) : World :=
  mkWorld (published w) (warnings w) (error_log w)
          (callback_calls w ++ [(cb, e)]) (wall_clock w) (clock_reads w).

Definition tick (w : World) : World :=
  mkWorld (published w) (warnings w) (error_log w)
          (callback_calls w) (wall_clock w) (S (clock_reads w)).

(** ** Computations: a method of an object of state [S] *)

Inductive outcome (A : Type) : Type :=
| Returns (a : A)
| Raises (e : PyError).
Arguments Returns {A} a.
Arguments Raises {A} e.

Definition M (S A : Type) : Type := S -> World -> outcome A * S * World.

Definition ret {S A} (a : A) : M S A := fun s w => (Returns a, s, w).

Definition raise {S A} (e : PyError) : M S A := fun s w => (Raises e, s, w).

Definition bind {S A B} (m : M S A) (f : A -> M S B) : M S B :=
  fun s w =>
    match m s w with
    | (Returns a, s', w') => f a s' w'
    | (Raises e, s', w') => (Raises e, s', w')
    end.

Notation "x <- m ;; k" := (bind m (fun x => k))
  (at level 100, m at next level, right associativity).
Notation "m ;;; k" := (bind m (fun _ => k))
  (at level 100, right associativity).

(** [try: m  except <class> as e: handler e] *)
Definition try_except {S A} (m : M S A) (caught : PyError -> bool)
    (handler : PyError -> M S A) : M S A :=
  fun s w =>
    match m s w with
    | (Raises e, s', w') =>
        if caught e then handler e s' w' else (Raises e, s', w')
    | r => r
    end.

Definition get_self {S} : M S S := fun s w => (Returns s, s, w).
Definition gets {S A} (f : S -> A) : M S A := fun s w => (Returns (f s), s, w).
Definition modify {S} (f : S -> S) : M S unit := fun s w => (Returns tt, f s, w).
Definition effect {S} (f : World -> World) : M S unit :=
  fun s w => (Returns tt, s, f w).
Definition lift_outcome {S A} (o : outcome A) : M S A := fun s w => (o, s, w).

(** [time.time()] and [datetime.now(timezone.utc)] both look at the wall clock. *)
Definition now {S} : M S Z :=
  fun s w => (Returns (wall_clock w (clock_reads w)), s, tick w).

(** [for x in xs: body x] *)
Fixpoint for_each {S A} (xs : list A) (body : A -> M S unit) : M S unit :=
  match xs with
  | [] => ret tt
  | x :: rest => body x ;;; for_each rest body
  end.

(** ** Events

    Modelled from the spec: the event classes of [rasa.shared.core.events],
    which the file imports.  An event is "an opaque, structurally-typed
    record with a required type discriminator and timestamp; may carry a
    nested intent name and/or action name; serializes losslessly to/from a
    structured textual form".  The timestamp of an event is the reading of
    the clock at its creation, an integer here. *)

Module Event.
Record t : Type := mk {
  type_name : string;
  timestamp : Z;
  name : option string;
  intent_name : option string
}.

#[global] Instance eq_dec : EqDecision t.
Proof. solve_decision. Defined.

Definition as_dict (e : t) : Dict :=
  [("event", JStr (type_name e)); ("timestamp", JNum (timestamp e))]
  ++ match name e with
     | Some n => [("name", JStr n)]
     | None => []
     end
  ++ match intent_name e with
     | Some i => [("parse_data", JObj [("intent", JObj [("name", JStr i)])])]
     | None => []
     end.

Definition from_parameters (j : json) : option t :=
  match j with
  | JObj d =>
      match dict_get "event" d, dict_get "timestamp" d with
      | Some (JStr ty), Some (JNum ts) =>
          Some (mk ty ts
                   (as_text (dict_get "name" d))
                   (as_text (dict_get "name"
                      (get_or_empty "intent" (get_or_empty "parse_data" d)))))
      | _, _ => None
      end
  | _ => None
  end.
End Event.

Abbreviation Event := Event.t.

Definition ACTION_LISTEN_NAME : string := "action_listen".
Definition INTENT_NAME_KEY : string := "name".

Definition ActionExecuted (action_name : string) (ts : Z) : Event :=
  Event.mk "action" ts (Some action_name) None.

Definition UserUttered (intent : option string) (ts : Z) : Event :=
  Event.mk "user" ts None intent.

Module SessionStarted.
Definition type_name : string := "session_started".
Definition new (ts : Z) : Event := Event.mk type_name ts None None.
End SessionStarted.

(** ** Dialogues

    Modelled from the spec: [Dialogue] of [rasa.shared.core.conversation], the
    conversation id with the event log, and its structured form. *)

Module Dialogue.
Record t : Type := mk {
  name : string;
  events : list Event
}.

Definition as_dict (d : t) : Dict :=
  [("events", JArr (JObj <$> (Event.as_dict <$> events d)));
   ("name", JStr (name d))].

Definition from_parameters (j : json) : outcome t :=
  match j with
  | JObj d =>
      match dict_get "name" d, dict_get "events" d with
      | Some (JStr n), Some (JArr evts) =>
          Returns (mk n (omap Event.from_parameters evts))
      | _, _ => Raises (ValueError "not a dialogue")
      end
  | _ => Raises (TypeError "not a dialogue")
  end.
End Dialogue.

Abbreviation Dialogue := Dialogue.t.

(** Modelled from the spec: the two stored representations, "the current
    textual event-log format" and "one legacy binary format".  A store holds
    for a conversation a JSON text, or, from older versions, the bytes of a
    pickled dialogue; a binary pickle is no UTF-8 text, so that [json.loads]
    raises [UnicodeDecodeError] on it, and [pickle.loads] gives the dialogue
    back. *)
Inductive Serialised : Type :=
| Str (text : Text)
| PickleBytes (pickled : Dialogue).

Definition json_loads (s : Serialised) : outcome json :=
  match s with
  | Str text => Returns (json_value text)
  | PickleBytes _ => Raises UnicodeDecodeError
  end.

Definition pickle_loads (s : Serialised) : outcome Dialogue :=
  match s with
  | PickleBytes d => Returns d
  | Str _ => Raises (TypeError "a bytes-like object is required")
  end.

(** ** Domains and trackers

    Modelled from the spec: [Domain] and [DialogueStateTracker] of
    [rasa.shared.core], which the file imports.  A tracker is "derived,
    in-memory state reconstructed by replaying an Event Log": it is taken
    with its conversation id, the slots and the history limit it was made
    with, and the events it has replayed or was updated with, all of them;
    what else a tracker derives from its events plays no part here. *)

Definition Slot := string.

Record Domain : Type := mkDomain { slots : list Slot }.

Module DialogueStateTracker.
Record t : Type := mk {
  sender_id : string;
  slots : option (list Slot);
  max_event_history : option nat;
  events : list Event
}.

(** [DialogueStateTracker(sender_id, slots, max_event_history=...)] *)
Definition new (sender_id : string) (slots : option (list Slot))
    (max_event_history : option nat) : t :=
  mk sender_id slots max_event_history [].

(** [tracker.update(event)] *)
Definition update (event : Event) (tr : t) : t :=
  mk (sender_id tr) (slots tr) (max_event_history tr) (events tr ++ [event]).

Definition as_dialogue (tr : t) : Dialogue :=
  Dialogue.mk (sender_id tr) (events tr).

(** [tracker.recreate_from_dialogue(dialogue)]: replay the dialogue's events. *)
Definition recreate_from_dialogue (d : Dialogue) (tr : t) : t :=
  mk (sender_id tr) (slots tr) (max_event_history tr) (Dialogue.events d).

(** [DialogueStateTracker.from_dict(sender_id, events_as_dict, slots)] *)
Definition from_dict (sender_id : string) (events_as_dict : list json)
    (slots : list Slot) : t :=
  mk sender_id (Some slots) None (omap Event.from_parameters events_as_dict).
End DialogueStateTracker.

Abbreviation Tracker := DialogueStateTracker.t.

(** ** class TrackerStore *)

(** The attributes set by [TrackerStore.__init__]. *)
Record Attrs : Type := mkAttrs {
  domain : option Domain;
  event_broker : option EventBroker;
  max_event_history : option nat;
  retrieve_events_from_previous_conversation_sessions : option bool
}.

Definition with_max_event_history (meh : option nat) (a : Attrs) : Attrs :=
  mkAttrs (domain a) (event_broker a) meh
          (retrieve_events_from_previous_conversation_sessions a).

Definition with_domain (d : option Domain) (a : Attrs) : Attrs :=
  mkAttrs d (event_broker a) (max_event_history a)
          (retrieve_events_from_previous_conversation_sessions a).

(** [TrackerStore.__init__(domain, event_broker, **kwargs)]; the deprecated
    keyword argument is the only one the class looks at. *)
Definition TrackerStore_init (domain : option Domain)
    (event_broker : option EventBroker) (kwarg : option bool) : World -> Attrs * World :=
  fun w =>
    match kwarg with
    | Some flag =>
        (mkAttrs domain event_broker None (Some flag),
         warn "retrieve_events_from_previous_conversation_sessions is deprecated" w)
    | None => (mkAttrs domain event_broker None None, w)
    end.

(** Access to the attributes of an object that is a [TrackerStore]. *)
Class HasAttrs (S : Type) : Type := {
  get_domain : S -> option Domain;
  set_domain : option Domain -> S -> S;
  get_event_broker : S -> option EventBroker;
  get_max_event_history : S -> option nat;
  set_max_event_history : option nat -> S -> S
}.

(** The methods a backend overrides; the base class raises in [save],
    [retrieve] and [keys], and forwards [retrieve_full_tracker] to [retrieve]. *)
Class TrackerStore (S : Type) `{HasAttrs S} : Type := {
  save : Tracker -> M S unit;
  retrieve : string -> M S (option Tracker);
  retrieve_full_tracker : string -> M S (option Tracker);
  keys : M S (list string)
}.

Section BaseClass.
Context {S : Type} `{HasAttrs S}.

Definition init_tracker (sender_id : string) : M S Tracker :=
  self <- get_self ;;
  ret (DialogueStateTracker.new sender_id
         (slots <$> get_domain self)
         (get_max_event_history self)).

Definition serialise_tracker (tracker : Tracker) : Text :=
  let dialogue := DialogueStateTracker.as_dialogue tracker in
  json_dumps (JObj (Dialogue.as_dict dialogue)).

Definition _deserialize_dialogue_from_pickle (sender_id : string)
    (serialised_tracker : Serialised) : M S Dialogue :=
  effect (warn ("Found pickled tracker for conversation ID '" +:+ sender_id +:+ "'.")) ;;;
  lift_outcome (pickle_loads serialised_tracker).

Definition deserialise_tracker (sender_id : string)
    (serialised_tracker : Serialised) : M S (option Tracker) :=
  tracker <- init_tracker sender_id ;;
  dialogue <- try_except
                (parameters <- lift_outcome (json_loads serialised_tracker) ;;
                 lift_outcome (Dialogue.from_parameters parameters))
                is_UnicodeDecodeError
                (fun _ => _deserialize_dialogue_from_pickle sender_id serialised_tracker) ;;
  ret (Some (DialogueStateTracker.recreate_from_dialogue dialogue tracker)).

(** The two methods below call [self.retrieve], which is the backend's:
    they take it as an argument. *)
Variable self_retrieve : string -> M S (option Tracker).

Definition number_of_existing_events (sender_id : string) : M S nat :=
  old_tracker <- self_retrieve sender_id ;;
  ret (match old_tracker with
       | Some tr => length (DialogueStateTracker.events tr)
       | None => 0%nat
       end).

(** The body published for one event. *)
Definition body_of (sender_id : string) (event : Event) : Dict :=
  dict_update [("sender_id", JStr sender_id)] (Event.as_dict event).

Definition stream_events (tracker : Tracker) : M S unit :=
  offset <- number_of_existing_events (DialogueStateTracker.sender_id tracker) ;;
  let events := DialogueStateTracker.events tracker in
  for_each (drop offset events)
    (fun event =>
       self <- get_self ;;
       match get_event_broker self with
       | Some broker =>
           effect (publish broker
                     (body_of (DialogueStateTracker.sender_id tracker) event))
       | None => raise (AttributeError "'NoneType' object has no attribute 'publish'")
       end).
End BaseClass.

Section BaseClassMethods.
Context {S : Type} `{TrackerStore S}.

Definition create_tracker (sender_id : string) (append_action_listen : bool)
    : M S Tracker :=
  tracker <- init_tracker sender_id ;;
  tracker <- (if append_action_listen
              then (ts <- now ;;
                    ret (DialogueStateTracker.update
                           (ActionExecuted ACTION_LISTEN_NAME ts) tracker))
              else ret tracker) ;;
  save tracker ;;;
  ret tracker.

Definition get_or_create_tracker (sender_id : string)
    (max_event_history : option nat) (append_action_listen : bool)
    : M S Tracker :=
  modify (set_max_event_history max_event_history) ;;;
  tracker <- retrieve sender_id ;;
  match tracker with
  | None => create_tracker sender_id append_action_listen
  | Some tracker => ret tracker
  end.

Definition exists_ (conversation_id : string) : M S bool :=
  tracker <- retrieve conversation_id ;;
  ret (match tracker with Some _ => true | None => false end).
End BaseClassMethods.

(** The base class itself: a store that overrides nothing. *)
Module AbstractTrackerStore.
Record t : Type := mk { attrs : Attrs }.

#[global] Instance has_attrs : HasAttrs t := {
  get_domain self := domain (attrs self);
  set_domain d self := mk (with_domain d (attrs self));
  get_event_broker self := event_broker (attrs self);
  get_max_event_history self := max_event_history (attrs self);
  set_max_event_history meh self := mk (with_max_event_history meh (attrs self))
}.

Definition save (tracker : Tracker) : M t unit := raise NotImplementedError.

Definition retrieve (sender_id : string) : M t (option Tracker) :=
  raise NotImplementedError.

Definition retrieve_full_tracker (conversation_id : string)
    : M t (option Tracker) :=
  retrieve conversation_id.

Definition keys : M t (list string) := raise NotImplementedError.

#[global] Instance tracker_store : TrackerStore t := {
  save := save;
  retrieve := retrieve;
  retrieve_full_tracker := retrieve_full_tracker;
  keys := keys
}.
End AbstractTrackerStore.

(** ** class InMemoryTrackerStore *)

Module InMemoryTrackerStore.
Record t : Type := mk {
  attrs : Attrs;
  store : gmap string Serialised
}.

Definition new (domain : option Domain) (event_broker : option EventBroker)
    (kwarg : option bool) (w : World) : t * World :=
  let '(a, w') := TrackerStore_init domain event_broker kwarg w in
  (mk a ∅, w').

#[global] Instance has_attrs : HasAttrs t := {
  get_domain self := domain (attrs self);
  set_domain d self := mk (with_domain d (attrs self)) (store self);
  get_event_broker self := event_broker (attrs self);
  get_max_event_history self := max_event_history (attrs self);
  set_max_event_history meh self :=
    mk (with_max_event_history meh (attrs self)) (store self)
}.

Definition retrieve (sender_id : string) : M t (option Tracker) :=
  self <- get_self ;;
  match store self !! sender_id with
  | Some serialised => deserialise_tracker sender_id serialised
  | None => ret None
  end.

Definition save (tracker : Tracker) : M t unit :=
  self <- get_self ;;
  (if event_broker (attrs self) is Some _
   then stream_events retrieve tracker else ret tt) ;;;
  let serialised := serialise_tracker tracker in
  modify (fun self =>
            mk (attrs self)
               (<[DialogueStateTracker.sender_id tracker := Str serialised]>
                  (store self))).

Definition keys : M t (list string) :=
  gets (fun self => elements (dom (store self))).

#[global] Instance tracker_store : TrackerStore t := {
  save := save;
  retrieve := retrieve;
  retrieve_full_tracker := retrieve;
  keys := keys
}.
End InMemoryTrackerStore.

(** ** class SQLTrackerStore

    The store is taken with its database reachable and no PostgreSQL schema
    name set in the environment, so that [session_scope] hands out a session
    and closes it, and nothing in it raises. *)

Module SQLEvent.
(** A row of the table [events]. *)
Record t : Type := mk {
  id : nat;
  sender_id : string;
  type_name : string;
  timestamp : Z;
  intent_name : option string;
  action_name : option string;
  data : Text
}.
End SQLEvent.

Abbreviation SQLEvent := SQLEvent.t.

(** The database engine behind the store.  What the code asks of it beyond
    storing rows is [ORDER BY events.timestamp]; SQL leaves the order of rows
    with equal keys to the engine. *)
Record Engine : Type := mkEngine {
  order_by_timestamp : list SQLEvent -> list SQLEvent
}.

Definition timestamp_le (r1 r2 : SQLEvent) : Prop :=
  (SQLEvent.timestamp r1 <= SQLEvent.timestamp r2)%Z.

(** An engine implements [ORDER BY] when it returns the rows it was given,
    sorted by the key. *)
Definition implements_order_by (e : Engine) : Prop :=
  forall rows,
    order_by_timestamp e rows ≡ₚ rows /\
    Sorted timestamp_le (order_by_timestamp e rows).

(** Python's truth value of an optional flag. *)
Definition truthy (flag : option bool) : bool :=
  match flag with
  | Some true => true
  | _ => false
  end.

Module SQLTrackerStore.
Record t : Type := mk {
  attrs : Attrs;
  engine : Engine;
  (** the rows of [events], in the order they were inserted *)
  table : list SQLEvent
}.

#[global] Instance has_attrs : HasAttrs t := {
  get_domain self := domain (attrs self);
  set_domain d self :=
    mk (with_domain d (attrs self)) (engine self) (table self);
  get_event_broker self := event_broker (attrs self);
  get_max_event_history self := max_event_history (attrs self);
  set_max_event_history meh self :=
    mk (with_max_event_history meh (attrs self)) (engine self) (table self)
}.

(** [sa.func.max(timestamp)] over some rows: NULL when there is none. *)
Definition max_timestamp (rows : list SQLEvent) : option Z :=
  foldr (fun r acc =>
           Some (match acc with
                 | Some m => Z.max (SQLEvent.timestamp r) m
                 | None => SQLEvent.timestamp r
                 end)) None rows.

(** [timestamp >= session_start OR session_start IS NULL] *)
Definition since (session_start : option Z) (r : SQLEvent) : bool :=
  match session_start with
  | Some start => bool_decide (start <= SQLEvent.timestamp r)%Z
  | None => true
  end.

(** The rows the query of [_event_query] delivers. *)
Definition _event_query (self : t) (sender_id : string)
    (fetch_events_from_all_sessions : bool) : list SQLEvent :=
  let session_start :=
    max_timestamp
      (filter (fun r => SQLEvent.sender_id r = sender_id /\
                        SQLEvent.type_name r = SessionStarted.type_name)
              (table self)) in
  let event_query :=
    filter (fun r => SQLEvent.sender_id r = sender_id) (table self) in
  let event_query :=
    if negb fetch_events_from_all_sessions
    then filter (fun r => since session_start r) event_query
    else event_query in
  order_by_timestamp (engine self) event_query.

Definition _retrieve (sender_id : string)
    (fetch_events_from_all_sessions : bool) : M t (option Tracker) :=
  self <- get_self ;;
  let serialised_events :=
    _event_query self sender_id fetch_events_from_all_sessions in
  let events := (fun event => json_value (SQLEvent.data event))
                  <$> serialised_events in
  match domain (attrs self) with
  | Some dom =>
      if bool_decide (0 < length events)
      then ret (Some (DialogueStateTracker.from_dict sender_id events (slots dom)))
      else ret None
  | None => ret None
  end.

Definition retrieve_full_tracker (conversation_id : string)
    : M t (option Tracker) :=
  _retrieve conversation_id true.

Definition retrieve (sender_id : string) : M t (option Tracker) :=
  self <- get_self ;;
  if truthy (retrieve_events_from_previous_conversation_sessions (attrs self))
  then retrieve_full_tracker sender_id
  else _retrieve sender_id false.

Definition _additional_events (tracker : Tracker) : M t (list Event) :=
  self <- get_self ;;
  let number_of_events_since_last_session :=
    length (_event_query self (DialogueStateTracker.sender_id tracker)
              (truthy (retrieve_events_from_previous_conversation_sessions
                         (attrs self)))) in
  ret (drop number_of_events_since_last_session
            (DialogueStateTracker.events tracker)).

(** [session.add(row)]; the rows of a session reach the table at
    [commit], in the order they were added, and the id comes from the
    table's sequence. *)
Definition session_add (row : nat -> SQLEvent) : M t unit :=
  modify (fun self =>
            mk (attrs self) (engine self)
               (table self ++ [row (S (length (table self)))])).

(** The body of the loop of [save]: one row for one event. *)
Definition add_event (tracker : Tracker) (event : Event) : M t unit :=
  let data := Event.as_dict event in
  let intent :=
    as_text (dict_get INTENT_NAME_KEY
               (get_or_empty "intent" (get_or_empty "parse_data" data))) in
  let action := as_text (dict_get "name" data) in
  timestamp <- now ;;
  session_add (fun id =>
    SQLEvent.mk id (DialogueStateTracker.sender_id tracker)
                (Event.type_name event) timestamp intent action
                (json_dumps (JObj data))).

Definition save (tracker : Tracker) : M t unit :=
  self <- get_self ;;
  (if event_broker (attrs self) is Some _
   then stream_events retrieve tracker else ret tt) ;;;
  events <- _additional_events tracker ;;
  for_each events (add_event tracker).

Definition keys : M t (list string) :=
  gets (fun self => remove_dups (SQLEvent.sender_id <$> table self)).

#[global] Instance tracker_store : TrackerStore t := {
  save := save;
  retrieve := retrieve;
  retrieve_full_tracker := retrieve_full_tracker;
  keys := keys
}.
End SQLTrackerStore.

(** ** class FailSafeTrackerStore *)

Module FailSafeTrackerStore.
Section Wrapper.
(** The classes of the primary store and of a fallback store handed to
    the constructor. *)
Context {P F : Type} `{TrackerStore P} `{TrackerStore F}.

(** The fallback is the store given to the constructor or the in-memory
    store created on first use. *)
Inductive Fallback : Type :=
| Given (fallback : F)
| InMemory (fallback : InMemoryTrackerStore.t).

Record t : Type := mk {
  (** [event_broker], [max_event_history] and the deprecated flag of the
      wrapper itself; its [domain] is a property over the primary store *)
  attrs : Attrs;
  _tracker_store : P;
  _fallback_tracker_store : option Fallback;
  _on_tracker_store_error : option Callback
}.

Definition fallback_set_domain (d : option Domain) (fb : Fallback) : Fallback :=
  match fb with
  | Given f => Given (set_domain d f)
  | InMemory m => InMemory (set_domain d m)
  end.

#[global] Instance has_attrs : HasAttrs t := {
  get_domain self := get_domain (_tracker_store self);
  set_domain d self :=
    mk (attrs self) (set_domain d (_tracker_store self))
       (fallback_set_domain d <$> _fallback_tracker_store self)
       (_on_tracker_store_error self);
  get_event_broker self := event_broker (attrs self);
  get_max_event_history self := max_event_history (attrs self);
  set_max_event_history meh self :=
    mk (with_max_event_history meh (attrs self)) (_tracker_store self)
       (_fallback_tracker_store self) (_on_tracker_store_error self)
}.

Definition new (tracker_store : P) (on_tracker_store_error : option Callback)
    (fallback_tracker_store : option Fallback) : t :=
  set_domain (get_domain tracker_store)
    (mk (mkAttrs None (get_event_broker tracker_store) None None)
        tracker_store fallback_tracker_store on_tracker_store_error).

(** Run a method of the primary store, which the wrapper holds. *)
Definition on_primary {A} (m : M P A) : M t A :=
  fun self w =>
    let '(r, p, w') := m (_tracker_store self) w in
    (r, mk (attrs self) p (_fallback_tracker_store self)
           (_on_tracker_store_error self), w').

(** Run a method of the fallback store [fb] and keep its new state. *)
Definition on_fallback {A} (fb : Fallback) (mF : M F A)
    (mI : M InMemoryTrackerStore.t A) : M t A :=
  fun self w =>
    match fb with
    | Given f =>
        let '(r, f', w') := mF f w in
        (r, mk (attrs self) (_tracker_store self) (Some (Given f'))
               (_on_tracker_store_error self), w')
    | InMemory m =>
        let '(r, m', w') := mI m w in
        (r, mk (attrs self) (_tracker_store self) (Some (InMemory m'))
               (_on_tracker_store_error self), w')
    end.

(** The property [fallback_tracker_store]. *)
Definition fallback_tracker_store : M t Fallback :=
  fun self w =>
    match _fallback_tracker_store self with
    | Some fb => (Returns fb, self, w)
    | None =>
        let '(m, w') :=
          InMemoryTrackerStore.new (get_domain (_tracker_store self))
            (get_event_broker (_tracker_store self)) None w in
        (Returns (InMemory m),
         mk (attrs self) (_tracker_store self) (Some (InMemory m))
            (_on_tracker_store_error self), w')
    end.

Definition on_tracker_store_error (error : PyError) : M t unit :=
  self <- get_self ;;
  match _on_tracker_store_error self with
  | Some callback => effect (call_back callback error)
  | None =>
      effect (log_error "Error happened when trying to save conversation tracker.")
  end.

Definition retrieve (sender_id : string) : M t (option Tracker) :=
  try_except (on_primary (retrieve sender_id)) is_Exception
    (fun e => on_tracker_store_error e ;;; ret None).

Definition keys : M t (list string) :=
  try_except (on_primary keys) is_Exception
    (fun e => on_tracker_store_error e ;;; ret []).

Definition save (tracker : Tracker) : M t unit :=
  try_except (on_primary (save tracker)) is_Exception
    (fun e =>
       on_tracker_store_error e ;;;
       fb <- fallback_tracker_store ;;
       on_fallback fb (save tracker) (InMemoryTrackerStore.save tracker)).

#[global] Instance tracker_store : TrackerStore t := {
  save := save;
  retrieve := retrieve;
  retrieve_full_tracker := retrieve;
  keys := keys
}.
End Wrapper.
Arguments Fallback F : clear implicits.
Arguments t P F : clear implicits.
End FailSafeTrackerStore.

(** ** Connection URLs and the options of the engine *)

Module URL.
(** [sqlalchemy.engine.url.URL], with the arguments of its constructor. *)
Record t : Type := mk {
  drivername : string;
  username : option string;
  password : option string;
  host : option string;
  port : option Z;
  database : option string;
  query : option Dict
}.
End URL.

(** A connection URL is a text or a [URL] object. *)
Inductive Url : Type :=
| UrlText (text : string)
| UrlObject (url : URL.t).

(** [needle in hay] on texts *)
Fixpoint contains (needle hay : string) : bool :=
  String.prefix needle hay ||
  match hay with
  | EmptyString => false
  | String _ rest => contains needle rest
  end.

(** Python's truth value of an optional text. *)
Definition truthy_text (text : option string) : bool :=
  match text with
  | Some s => negb (String.eqb s EmptyString)
  | None => false
  end.

Definition is_postgresql_url (url : Url) : bool :=
  match url with
  | UrlText text => contains "postgresql" text
  | UrlObject u => String.eqb (URL.drivername u) "postgresql"
  end.

Definition POSTGRESQL_DEFAULT_MAX_OVERFLOW : Z := 100.
Definition POSTGRESQL_DEFAULT_POOL_SIZE : Z := 50.

(** What the file imports and uses of the language without showing it: the
    names of the environment variables, of [rasa.core.constants], the
    conversions [int] of a text and [str] of an exception, [str.lower], the
    port and the host name that [urllib.parse.urlsplit] finds in a URL, and
    [Domain.empty()]. *)
Class Imports : Type := {
  POSTGRESQL_SCHEMA : string;
  POSTGRESQL_POOL_SIZE : string;
  POSTGRESQL_MAX_OVERFLOW : string;
  int : string -> outcome Z;
  str : PyError -> string;
  lower : string -> string;
  urlsplit_port : string -> outcome (option Z);
  urlsplit_hostname : string -> option string;
  Domain_empty : Domain
}.

Section EngineOptions.
Context `{Imports}.

(** [int(os.environ.get(name, default))] *)
Definition environ_int (environ : gmap string string) (name : string)
    (default : Z) : outcome Z :=
  match environ !! name with
  | Some text => int text
  | None => Returns default
  end.

Definition create_engine_kwargs (environ : gmap string string) (url : Url)
    : outcome Dict :=
  if negb (is_postgresql_url url) then Returns []
  else
    let kwargs : Dict := [] in
    let schema_name := environ !! POSTGRESQL_SCHEMA in
    let kwargs :=
      match schema_name with
      | Some name =>
          if truthy_text schema_name
          then dict_set "connect_args"
                 (JObj [("options", JStr ("-csearch_path=" +:+ name))]) kwargs
          else kwargs
      | None => kwargs
      end in
    match environ_int environ POSTGRESQL_POOL_SIZE POSTGRESQL_DEFAULT_POOL_SIZE with
    | Raises e => Raises e
    | Returns pool_size =>
        let kwargs := dict_set "pool_size" (JNum pool_size) kwargs in
        match environ_int environ POSTGRESQL_MAX_OVERFLOW
                POSTGRESQL_DEFAULT_MAX_OVERFLOW with
        | Raises e => Raises e
        | Returns max_overflow =>
            Returns (dict_set "max_overflow" (JNum max_overflow) kwargs)
        end
    end.

(** [SQLTrackerStore.get_db_url] *)
Definition get_db_url (dialect : string) (host : option string) (port : option Z)
    (db : string) (username password login_db : option string)
    (query : option Dict) : outcome Url :=
  let url host port :=
    UrlObject (URL.mk dialect username password host port
                 (if truthy_text login_db then login_db else Some db) query) in
  match host with
  | Some h =>
      if truthy_text host && contains "://" h then Returns (UrlText h)
      else if truthy_text host then
        let parsed := "scheme://" +:+ h in
        match urlsplit_port parsed with
        | Raises e => Raises e
        | Returns parsed_port =>
            let port :=
              match parsed_port with
              | Some p => if (p =? 0)%Z then port else Some p
              | None => port
              end in
            let host :=
              if truthy_text (urlsplit_hostname parsed)
              then urlsplit_hostname parsed else host in
            Returns (url host port)
        end
      else Returns (url host port)
  | None => Returns (url host port)
  end.
End EngineOptions.

(** ** Sessions of the SQL store *)

(** What a session sees of the process and of the database server. *)
Record Backend : Type := mkBackend {
  (** [os.environ] *)
  environ : gmap string string;
  (** the URL of the engine that the sessions are bound to *)
  bind_url : Url;
  (** the schema names in [information_schema.schemata] *)
  schemata : list string;
  (** the sessions made by [sessionmaker], and those closed *)
  sessions_made : nat;
  sessions_closed : nat;
  (** the messages of [print_error_and_exit], oldest first *)
  exit_messages : list string
}.

Definition is_ValueError (e : PyError) : bool :=
  match e with
  | ValueError _ | UnicodeDecodeError => true
  | _ => false
  end.

Module Scoped.
(** The SQL store with the process it runs in. *)
Record t : Type := mk {
  store : SQLTrackerStore.t;
  backend : Backend
}.

#[global] Instance has_attrs : HasAttrs t := {
  get_domain self := get_domain (store self);
  set_domain d self := mk (set_domain d (store self)) (backend self);
  get_event_broker self := get_event_broker (store self);
  get_max_event_history self := get_max_event_history (store self);
  set_max_event_history meh self :=
    mk (set_max_event_history meh (store self)) (backend self)
}.

Section Sessions.
Context `{Imports}.

Definition ensure_schema_exists (b : Backend) : outcome unit :=
  let schema_name := environ b !! POSTGRESQL_SCHEMA in
  match schema_name with
  | Some name =>
      if negb (truthy_text schema_name) then Returns tt
      else if is_postgresql_url (bind_url b)
      then if bool_decide (name ∈ schemata b)
           then Returns tt else Raises (ValueError name)
      else Returns tt
  | None => Returns tt
  end.

(** Modelled from the spec: [rasa.shared.utils.cli.print_error_and_exit],
    which makes a missing schema "a fatal, user-facing configuration error
    terminating the process": it prints its message and exits.  The
    message of [session_scope] for the exception [e]: *)
Definition schema_not_found (e : PyError) : string :=
  "Requested PostgreSQL schema '" +:+ str e
  +:+ "' was not found in the database. To continue, please create the schema by running 'CREATE DATABASE "
  +:+ str e +:+ ";' or unset the '" +:+ POSTGRESQL_SCHEMA
  +:+ "' environment variable in order to use the default schema. Exiting application.".

(** [with self.session_scope() as session: body]: the session is made, the
    schema is looked for, the body runs; a [ValueError] of either ends in
    [print_error_and_exit], and the session is closed in any case. *)
Definition session_scope {A} (body : M SQLTrackerStore.t A) : M t A :=
  fun self w =>
    let b := backend self in
    let made := S (sessions_made b) in
    let '(r, s, w') :=
      match ensure_schema_exists b with
      | Returns _ => body (store self) w
      | Raises e => (Raises e, store self, w)
      end in
    let '(r, messages) :=
      match r with
      | Raises e =>
          if is_ValueError e
          then (Raises SystemExit, exit_messages b ++ [schema_not_found e])
          else (r, exit_messages b)
      | Returns _ => (r, exit_messages b)
      end in
    (r, mk s (mkBackend (environ b) (bind_url b) (schemata b) made
                (S (sessions_closed b)) messages), w').

Definition keys : M t (list string) := session_scope SQLTrackerStore.keys.

Definition _retrieve (sender_id : string) (fetch_events_from_all_sessions : bool)
    : M t (option Tracker) :=
  session_scope (SQLTrackerStore._retrieve sender_id fetch_events_from_all_sessions).

Definition retrieve_full_tracker (conversation_id : string)
    : M t (option Tracker) :=
  _retrieve conversation_id true.

Definition retrieve (sender_id : string) : M t (option Tracker) :=
  self <- get_self ;;
  if truthy (retrieve_events_from_previous_conversation_sessions
               (SQLTrackerStore.attrs (store self)))
  then retrieve_full_tracker sender_id
  else _retrieve sender_id false.

Definition save (tracker : Tracker) : M t unit :=
  self <- get_self ;;
  (if get_event_broker self is Some _
   then stream_events retrieve tracker else ret tt) ;;;
  session_scope
    (events <- SQLTrackerStore._additional_events tracker ;;
     for_each events (SQLTrackerStore.add_event tracker)).

#[global] Instance tracker_store : TrackerStore t := {
  save := save;
  retrieve := retrieve;
  retrieve_full_tracker := retrieve_full_tracker;
  keys := keys
}.
End Sessions.
End Scoped.

(** ** The factory of tracker stores *)

Module EndpointConfig.
(** [rasa.utils.endpoints.EndpointConfig], as far as the file reads it. *)
Record t : Type := mk {
  type : option string;
  url : option string;
  kwargs : Dict
}.
End EndpointConfig.

(** The exceptions that the creation of a store tells apart; the text is
    what [str] makes of the exception. *)
Inductive CreationError : Type :=
| ImportError (text : string)
| BotoCoreError (text : string)
| OperationalError (text : string)
| ProgrammingError (text : string)
| IntegrityError (text : string)
| ConnectionError (text : string)
| Builtin (e : PyError).

(** [except (AttributeError, ImportError)] *)
Definition is_not_found (e : CreationError) : bool :=
  match e with
  | ImportError _ | Builtin (AttributeError _) => true
  | _ => false
  end.

(** [except (BotoCoreError, sqlalchemy.exc.OperationalError, ConnectionError)],
    with the text of the exception caught. *)
Definition connection_error (e : CreationError) : option string :=
  match e with
  | BotoCoreError text | OperationalError text | ConnectionError text => Some text
  | _ => None
  end.

(** A store of any class: the file's own or a custom one. *)
Inductive AnyStore (Sql Custom : Type) : Type :=
| MemoryStore (s : InMemoryTrackerStore.t)
| SQLStore (s : Sql)
| CustomStore (s : Custom).
Arguments MemoryStore {Sql Custom} s.
Arguments SQLStore {Sql Custom} s.
Arguments CustomStore {Sql Custom} s.

(** The first argument of [create]. *)
Inductive Obj (Sql Custom : Type) : Type :=
| AStore (s : AnyStore Sql Custom)
| AConfig (c : EndpointConfig.t)
| ANone.
Arguments AStore {Sql Custom} s.
Arguments AConfig {Sql Custom} c.
Arguments ANone {Sql Custom}.

(** The creation of a store by a constructor, which looks at the world. *)
Definition Creation (A : Type) : Type := World -> (CreationError + A) * World.

(** The constructors behind the factory: that of the SQL store, called
    with [domain], [host], [event_broker] and the keyword arguments of the
    configuration, and the class that
    [rasa.shared.utils.common.class_from_module_path] finds for a type,
    called with [host], [domain], [event_broker] and the keyword arguments. *)
Class Constructors (Sql Custom : Type) : Type := {
  new_SQLTrackerStore :
    Domain -> option string -> option EventBroker -> Dict -> Creation Sql;
  class_from_module_path :
    string ->
    CreationError +
    (option string -> Domain -> option EventBroker -> Dict -> Creation Custom)
}.

Section Factory.
Context `{Imports} {Sql Custom : Type} `{Constructors Sql Custom}.

Definition not_found_warning (type : string) : string :=
  "Tracker store with type '" +:+ type
  +:+ "' not found. Using `InMemoryTrackerStore` instead.".

Definition _load_from_module_name_in_endpoint_config (domain : Domain)
    (store : EndpointConfig.t) (type : string)
    (event_broker : option EventBroker) : Creation (AnyStore Sql Custom) :=
  fun w =>
    let attempt :=
      match class_from_module_path type with
      | inr tracker_store_class =>
          tracker_store_class (EndpointConfig.url store) domain event_broker
            (EndpointConfig.kwargs store) w
      | inl e => (inl e, w)
      end in
    match attempt with
    | (inr tracker_store, w') => (inr (CustomStore tracker_store), w')
    | (inl e, w') =>
        if is_not_found e
        then
          let '(tracker_store, w'') :=
            InMemoryTrackerStore.new (Some domain) None None
              (warn (not_found_warning type) w') in
          (inr (MemoryStore tracker_store), w'')
        else (inl e, w')
    end.

Definition _create_from_endpoint_config (endpoint_config : option EndpointConfig.t)
    (domain : option Domain) (event_broker : option EventBroker)
    : Creation (AnyStore Sql Custom) :=
  fun w =>
    let domain := from_option id Domain_empty domain in
    match endpoint_config with
    | Some config =>
        match EndpointConfig.type config with
        | Some type =>
            if String.eqb (lower type) "sql"
            then
              match new_SQLTrackerStore (Custom:=Custom) domain
                      (EndpointConfig.url config) event_broker
                      (EndpointConfig.kwargs config) w with
              | (inr tracker_store, w') => (inr (SQLStore tracker_store), w')
              | (inl e, w') => (inl e, w')
              end
            else
              _load_from_module_name_in_endpoint_config domain config type
                event_broker w
        | None =>
            let '(tracker_store, w') :=
              InMemoryTrackerStore.new (Some domain) event_broker None w in
            (inr (MemoryStore tracker_store), w')
        end
    | None =>
        let '(tracker_store, w') :=
          InMemoryTrackerStore.new (Some domain) event_broker None w in
        (inr (MemoryStore tracker_store), w')
    end.

(** [TrackerStore.create] *)
Definition create (obj : Obj Sql Custom) (domain : option Domain)
    (event_broker : option EventBroker) : Creation (AnyStore Sql Custom) :=
  fun w =>
    match obj with
    | AStore tracker_store => (inr tracker_store, w)
    | AConfig _ | ANone =>
        let endpoint_config :=
          match obj with AConfig c => Some c | _ => None end in
        match _create_from_endpoint_config endpoint_config domain event_broker w with
        | (inl error, w') =>
            match connection_error error with
            | Some text =>
                (inl (Builtin (ConnectionException
                                 ("Cannot connect to tracker store." +:+ text))), w')
            | None => (inl error, w')
            end
        | created => created
        end
    end.
End Factory.

(** ** The constructor of the SQL store *)

(** The database server and [sqlalchemy] between it and the store, as the
    constructor meets them: whether [create_engine] raises for a URL and
    options, the name of the dialect of the engine made for a URL, and, at
    the [k]-th attempt to connect, what connecting and counting the
    databases of a name gives, and whether [CREATE DATABASE] and the
    creation of the tables raise. *)
Record Server : Type := mkServer {
  create_engine : Url -> Dict -> option CreationError;
  dialect_name : Url -> string;
  matching_rows : nat -> string -> CreationError + Z;
  create_database : nat -> string -> option CreationError;
  create_all : nat -> option CreationError
}.

(** The store under construction: the URL and the options of
    [self.engine], the seconds slept and what [logger.warning] was given. *)
Record Boot : Type := mkBoot {
  engine_of : Url * Dict;
  slept : Z;
  warning_log : list CreationError
}.

(** [except (sqlalchemy.exc.ProgrammingError, sqlalchemy.exc.IntegrityError)] *)
Definition caught_creating_database (e : CreationError) : bool :=
  match e with
  | ProgrammingError _ | IntegrityError _ => true
  | _ => false
  end.

(** [except (sqlalchemy.exc.OperationalError, sqlalchemy.exc.ProgrammingError)] *)
Definition caught_creating_tables (e : CreationError) : bool :=
  match e with
  | OperationalError _ | ProgrammingError _ => true
  | _ => false
  end.

(** [except (sqlalchemy.exc.OperationalError, sqlalchemy.exc.IntegrityError)] *)
Definition caught_connecting (e : CreationError) : bool :=
  match e with
  | OperationalError _ | IntegrityError _ => true
  | _ => false
  end.

Section Constructor.
Context `{Imports} (server : Server).

Definition error_text (e : CreationError) : string :=
  match e with
  | ImportError text | BotoCoreError text | OperationalError text
  | ProgrammingError text | IntegrityError text | ConnectionError text => text
  | Builtin e => str e
  end.

Definition _create_database (k : nat) (database_name : string)
    : World -> option CreationError * World :=
  fun w =>
    match matching_rows server k database_name with
    | inl e => (Some e, w)
    | inr rows =>
        if (rows =? 0)%Z
        then
          match create_database server k database_name with
          | Some e =>
              if caught_creating_database e
              then (None,
                    log_error ("Could not create database '" +:+ database_name
                               +:+ "': " +:+ error_text e) w)
              else (Some e, w)
          | None => (None, w)
          end
        else (None, w)
    end.

Definition _create_database_and_update_engine (k : nat) (db : string)
    (engine_url : Url) : Boot -> World -> option CreationError * Boot * World :=
  fun self w =>
    if negb (String.eqb (dialect_name server (engine_of self).1) "postgresql")
    then (None, self,
          warn "The parameter 'login_db' can only be used with a postgres database." w)
    else
      match _create_database k db w with
      | (Some e, w') => (Some e, self, w')
      | (None, w') =>
          match engine_url with
          | UrlText _ =>
              (Some (Builtin (AttributeError
                                "'str' object has no attribute 'drivername'")),
               self, w')
          | UrlObject u =>
              let engine_url :=
                UrlObject (URL.mk (URL.drivername u) (URL.username u)
                             (URL.password u) (URL.host u) (URL.port u)
                             (Some db) (URL.query u)) in
              match create_engine server engine_url [] with
              | Some e => (Some e, self, w')
              | None =>
                  (None, mkBoot (engine_url, []) (slept self) (warning_log self), w')
              end
          end
      end.

(** The body of the loop of the constructor, at its [k]-th turn. *)
Definition attempt (k : nat) (login_db : option string) (db : string)
    (engine_url : Url) : Boot -> World -> option CreationError * Boot * World :=
  fun self w =>
    let '(r, self, w) :=
      if truthy_text login_db
      then _create_database_and_update_engine k db engine_url self w
      else (None, self, w) in
    match r with
    | Some e => (Some e, self, w)
    | None =>
        match create_all server k with
        | Some e =>
            if caught_creating_tables e
            then (None, self,
                  log_error ("Could not create tables: " +:+ error_text e) w)
            else (Some e, self, w)
        | None => (None, self, w)
        end
    end.

(** [while True: try: ... break except ...: logger.warning(error); sleep(5)],
    for as many turns as [fuel] allows: none of the results when they do
    not suffice. *)
Fixpoint connect (fuel k : nat) (login_db : option string) (db : string)
    (engine_url : Url) (self : Boot) (w : World)
    : option (option CreationError * Boot * World) :=
  match fuel with
  | O => None
  | S fuel =>
      match attempt k login_db db engine_url self w with
      | (Some e, self', w') =>
          if caught_connecting e
          then connect fuel (S k) login_db db engine_url
                 (mkBoot (engine_of self') (slept self' + 5) (warning_log self' ++ [e]))
                 w'
          else Some (Some e, self', w')
      | (None, self', w') => Some (None, self', w')
      end
  end.

(** [SQLTrackerStore.__init__]: the attributes of the store made, or the
    exception raised, with the engine, the time slept and the warnings if
    an engine was made. *)
Definition __init__ (fuel : nat) (environ : gmap string string)
    (domain : option Domain) (dialect : string) (host : option string)
    (port : option Z) (db : string) (username password : option string)
    (event_broker : option EventBroker) (login_db : option string)
    (query : option Dict) (kwarg : option bool)
    : World -> option ((CreationError + Attrs) * option Boot * World) :=
  fun w =>
    match get_db_url dialect host port db username password login_db query with
    | Raises e => Some (inl (Builtin e), None, w)
    | Returns engine_url =>
        match create_engine_kwargs environ engine_url with
        | Raises e => Some (inl (Builtin e), None, w)
        | Returns kwargs =>
            match create_engine server engine_url kwargs with
            | Some e => Some (inl e, None, w)
            | None =>
                match connect fuel 0 login_db db engine_url
                        (mkBoot (engine_url, kwargs) 0 []) w with
                | None => None
                | Some (Some e, self, w') => Some (inl e, Some self, w')
                | Some (None, self, w') =>
                    let '(attrs, w'') :=
                      TrackerStore_init domain event_broker kwarg w' in
                    Some (inr attrs, Some self, w'')
                end
            end
        end
    end.
End Constructor.

(** * The vocabulary of the properties *)

(** ** What the base class builds and publishes *)

Section BaseClassTerms.
Context {S : Type} `{HasAttrs S}.

(** The tracker [deserialise_tracker] builds around the events [evs]. *)
Definition restored (self : S) (sender_id : string) (evs : list Event) : Tracker :=
  DialogueStateTracker.mk sender_id (slots <$> get_domain self)
    (get_max_event_history self) evs.

(** Publishing the events [evs] of conversation [sid] on [broker]. *)
Definition publish_all (broker : EventBroker) (sid : string)
    (evs : list Event) (w : World) : World :=
  foldl (fun w e => publish broker (body_of sid e) w) w evs.
End BaseClassTerms.

(** ** The in-memory store after [save] *)

Section InMemoryTerms.
Import InMemoryTrackerStore.

(** What [save] leaves in the map. *)
Definition saved (tr : Tracker) (self : t) : t :=
  mk (attrs self)
     (<[DialogueStateTracker.sender_id tr := Str (serialise_tracker tr)]> (store self)).
End InMemoryTerms.

(** ** Clocks and stamps *)

Definition timestamp_lt (r1 r2 : SQLEvent) : Prop :=
  (SQLEvent.timestamp r1 < SQLEvent.timestamp r2)%Z.

(** The readings of the clock grow strictly. *)
Definition increasing (clock : nat -> Z) : Prop :=
  forall i j, (i < j)%nat -> (clock i < clock j)%Z.

(** The readings of the clock never go back. *)
Definition monotone (clock : nat -> Z) : Prop :=
  forall i j, (i <= j)%nat -> (clock i <= clock j)%Z.

(** The world after [k] more looks at the clock. *)
Definition ticks (k : nat) (w : World) : World :=
  mkWorld (published w) (warnings w) (error_log w) (callback_calls w)
          (wall_clock w) (clock_reads w + k).

(** ** What the SQL store reads and writes *)

Section SQLTerms.
Import SQLTrackerStore.

(** The rows of a conversation, in the order of insertion. *)
Definition conversation (sid : string) (rows : list SQLEvent) : list SQLEvent :=
  filter (fun r => SQLEvent.sender_id r = sid) rows.

(** The row [save] writes for an event. *)
Definition row_of (sid : string) (event : Event) (ts : Z) (id : nat) : SQLEvent :=
  SQLEvent.mk id sid (Event.type_name event) ts
              (Event.intent_name event) (Event.name event)
              (json_dumps (JObj (Event.as_dict event))).

(** The rows [save] writes for the events [evs], when the clock has been
    read [c] times and the table holds [n] rows. *)
Fixpoint stamped (sid : string) (evs : list Event) (clock : nat -> Z)
    (c n : nat) : list SQLEvent :=
  match evs with
  | [] => []
  | e :: rest => row_of sid e (clock c) (S n) :: stamped sid rest clock (S c) (S n)
  end.

(** What [_retrieve] returns; it changes nothing. *)
Definition read (self : t) (sid : string) (all_sessions : bool) : option Tracker :=
  let events := (fun event => json_value (SQLEvent.data event))
                  <$> _event_query self sid all_sessions in
  match domain (attrs self) with
  | Some dom =>
      if bool_decide (0 < length events)
      then Some (DialogueStateTracker.from_dict sid events (slots dom))
      else None
  | None => None
  end.

Definition legacy (self : t) : bool :=
  truthy (retrieve_events_from_previous_conversation_sessions (attrs self)).

(** The events [save] adds to the table. *)
Definition delta (self : t) (tr : Tracker) : list Event :=
  drop (length (_event_query self (DialogueStateTracker.sender_id tr) (legacy self)))
       (DialogueStateTracker.events tr).

(** The events [save] streams to the broker. *)
Definition streamed (self : t) (tr : Tracker) : list Event :=
  drop (from_option (fun o => length (DialogueStateTracker.events o)) 0%nat
          (read self (DialogueStateTracker.sender_id tr) (legacy self)))
       (DialogueStateTracker.events tr).

Definition after_streaming (self : t) (tr : Tracker) (w : World) : World :=
  match event_broker (attrs self) with
  | Some broker =>
      publish_all broker (DialogueStateTracker.sender_id tr) (streamed self tr) w
  | None => w
  end.
End SQLTerms.

(** ** Sessions, and the log that rows hold *)

Definition is_session_start (e : Event) : bool :=
  bool_decide (Event.type_name e = SessionStarted.type_name).

(** The latest session of a log: the events from the last session start on,
    or the whole log when no session was started. *)
Fixpoint active_session (evs : list Event) : list Event :=
  match evs with
  | [] => []
  | e :: rest =>
      if existsb is_session_start rest then active_session rest else e :: rest
  end.

(** The row [r] holds the event [e] of conversation [sid]. *)
Definition encodes (sid : string) (r : SQLEvent) (e : Event) : Prop :=
  SQLEvent.sender_id r = sid /\
  SQLEvent.type_name r = Event.type_name e /\
  SQLEvent.data r = json_dumps (JObj (Event.as_dict e)).

Definition starts_session (r : SQLEvent) : Prop :=
  SQLEvent.type_name r = SessionStarted.type_name.

Section SQLLogTerms.
Import SQLTrackerStore.

(** The rows of conversation [sid] hold the log [evs], event after event,
    and lie in the table in the order of their timestamps, no two rows
    sharing one. *)
Definition holds (self : t) (sid : string) (evs : list Event) : Prop :=
  Forall2 (encodes sid) (conversation sid (table self)) evs /\
  StronglySorted timestamp_lt (conversation sid (table self)).

(** The next reading of the clock lies beyond the rows of the conversation. *)
Definition clock_ahead (self : t) (w : World) (sid : string) : Prop :=
  Forall (fun r => (SQLEvent.timestamp r < wall_clock w (clock_reads w))%Z)
         (conversation sid (table self)).

(** The part of a log that the store reads back and counts. *)
Definition visible (self : t) (evs : list Event) : list Event :=
  if legacy self then evs else active_session evs.

(** The tracker replayed from the events [evs]. *)
Definition replayed (dom : option Domain) (sid : string) (evs : list Event)
    : option Tracker :=
  match dom, evs with
  | Some d, _ :: _ => Some (DialogueStateTracker.mk sid (Some (slots d)) None evs)
  | _, _ => None
  end.
End SQLLogTerms.

(** ** Engines, clocks and stores to try things on *)

#[local] Instance timestamp_le_dec r1 r2 : Decision (timestamp_le r1 r2).
Proof. unfold timestamp_le. apply _. Defined.

(** An engine that sorts with a merge sort. *)
Definition merge_sort_engine : Engine :=
  mkEngine (merge_sort timestamp_le).

(** An engine that walks the table backwards before it sorts. *)
Definition backward_scan_engine : Engine :=
  mkEngine (fun rows => merge_sort timestamp_le (reverse rows)).

Definition steady_clock : nat -> Z := Z.of_nat.

(** A clock too coarse to tell two readings apart. *)
Definition coarse_clock : nat -> Z := fun _ => 0%Z.

Definition quiet_world (clock : nat -> Z) : World :=
  mkWorld [] [] [] [] clock 0.

Definition some_domain : Domain := mkDomain ["name"; "mood"].

Definition empty_sql_store (e : Engine) (broker : option EventBroker) : SQLTrackerStore.t :=
  SQLTrackerStore.mk (mkAttrs (Some some_domain) broker None None) e [].

Definition empty_memory_store (dom : option Domain) (broker : option EventBroker)
    : InMemoryTrackerStore.t :=
  InMemoryTrackerStore.mk (mkAttrs dom broker None None) ∅.

(** The tracker [tr] after the events [new] were appended to it. *)
Definition append_events (new : list Event) (tr : Tracker) : Tracker :=
  foldl (fun t e => DialogueStateTracker.update e t) tr new.

(** The rows of a conversation that the query keeps for the latest session. *)
Definition window (rows : list SQLEvent) : list SQLEvent :=
  filter (fun r => SQLTrackerStore.since
                     (SQLTrackerStore.max_timestamp (filter starts_session rows)) r)
         rows.

(** The stamps stored for the conversation do not lie beyond the next
    reading of the clock. *)
Definition clock_not_behind (self : SQLTrackerStore.t) (w : World) (sid : string)
    : Prop :=
  Forall (fun r => (SQLEvent.timestamp r <= wall_clock w (clock_reads w))%Z)
         (conversation sid (SQLTrackerStore.table self)).

(** ** New trackers and the fail-safe wrapper *)

Section GetOrCreateTerms.
Context {S : Type} `{TrackerStore S}.

(** The tracker [create_tracker] builds before it saves it. *)
Definition created (self : S) (sid : string) (append_action_listen : bool)
    (w : World) : Tracker :=
  DialogueStateTracker.mk sid (slots <$> get_domain self)
    (get_max_event_history self)
    (if append_action_listen
     then [ActionExecuted ACTION_LISTEN_NAME (wall_clock w (clock_reads w))]
     else []).
End GetOrCreateTerms.

Section FailSafeTerms.
Context {P F : Type} `{TrackerStore P} `{TrackerStore F}.

Abbreviation wrapper := (FailSafeTrackerStore.t P F).

(** The world after [on_tracker_store_error] was called with [e]. *)
Definition reported (fs : wrapper) (e : PyError) (w : World) : World :=
  match FailSafeTrackerStore._on_tracker_store_error fs with
  | Some callback => call_back callback e w
  | None => log_error "Error happened when trying to save conversation tracker." w
  end.

(** The wrapper around the primary store in state [p]. *)
Definition with_primary (p : P) (fs : wrapper) : wrapper :=
  FailSafeTrackerStore.mk (FailSafeTrackerStore.attrs fs) p
    (FailSafeTrackerStore._fallback_tracker_store fs)
    (FailSafeTrackerStore._on_tracker_store_error fs).

(** The fallback store of the wrapper, made on first use. *)
Definition the_fallback (fs : wrapper) : FailSafeTrackerStore.Fallback F :=
  match FailSafeTrackerStore._fallback_tracker_store fs with
  | Some fb => fb
  | None =>
      FailSafeTrackerStore.InMemory
        (InMemoryTrackerStore.mk
           (mkAttrs (get_domain (FailSafeTrackerStore._tracker_store fs))
                    (get_event_broker (FailSafeTrackerStore._tracker_store fs))
                    None None) ∅)
  end.

(** [save] on a fallback store. *)
Definition fallback_save (tr : Tracker) (fb : FailSafeTrackerStore.Fallback F)
    (w : World) : outcome unit * FailSafeTrackerStore.Fallback F * World :=
  match fb with
  | FailSafeTrackerStore.Given f =>
      let '(r, f', w') := save tr f w in (r, FailSafeTrackerStore.Given f', w')
  | FailSafeTrackerStore.InMemory m =>
      let '(r, m', w') := InMemoryTrackerStore.save tr m w in
      (r, FailSafeTrackerStore.InMemory m', w')
  end.
(** The domain of a fallback store. *)
Definition fallback_domain (fb : FailSafeTrackerStore.Fallback F) : option Domain :=
  match fb with
  | FailSafeTrackerStore.Given f => get_domain f
  | FailSafeTrackerStore.InMemory m => get_domain m
  end.
End FailSafeTerms.

Definition pickle_warning (sid : string) : string :=
  "Found pickled tracker for conversation ID '" +:+ sid +:+ "'.".

(** ** A platform to try things on *)

(** The number that a text of decimal digits spells. *)
Fixpoint digits (acc : Z) (text : string) : option Z :=
  match text with
  | EmptyString => Some acc
  | String c rest =>
      let n := Z.of_nat (Ascii.nat_of_ascii c) in
      if bool_decide (48 <= n <= 57)%Z
      then digits (10 * acc + (n - 48)) rest
      else None
  end.

Definition decimal (text : string) : outcome Z :=
  match text with
  | EmptyString => Raises (ValueError "invalid literal for int() with base 10")
  | _ =>
      match digits 0 text with
      | Some n => Returns n
      | None => Raises (ValueError "invalid literal for int() with base 10")
      end
  end.

Definition ascii_lower (c : Ascii.ascii) : Ascii.ascii :=
  let n := Ascii.nat_of_ascii c in
  if bool_decide (65 <= n <= 90)%nat then Ascii.ascii_of_nat (n + 32) else c.

Fixpoint lower_text (text : string) : string :=
  match text with
  | EmptyString => EmptyString
  | String c rest => String (ascii_lower c) (lower_text rest)
  end.

(** The text of an URL between [scheme://] and the first colon, and the
    text behind that colon. *)
Fixpoint until_colon (text : string) : string * option string :=
  match text with
  | EmptyString => (EmptyString, None)
  | String c rest =>
      if String.eqb (String c EmptyString) ":" then (EmptyString, Some rest)
      else let '(name, port) := until_colon rest in (String c name, port)
  end.

Definition netloc (url : string) : string * option string :=
  until_colon (String.substring 9 (String.length url - 9) url).

(** The constants as [rasa.core.constants] has them, and the conversions
    on plain texts: decimal digits, ASCII letters, hosts of the form
    [name] or [name:port]. *)
Definition plain_imports : Imports := {|
  POSTGRESQL_SCHEMA := "POSTGRESQL_SCHEMA";
  POSTGRESQL_POOL_SIZE := "SQL_POOL_SIZE";
  POSTGRESQL_MAX_OVERFLOW := "SQL_MAX_OVERFLOW";
  int := decimal;
  str := fun e => match e with ValueError msg => msg | _ => "error" end;
  lower := lower_text;
  urlsplit_port := fun url =>
    match (netloc url).2 with
    | Some port => from_option (fun p => Returns (Some p))
                     (Raises (ValueError "Port could not be cast to integer value"))
                     (digits 0 port)
    | None => Returns None
    end;
  urlsplit_hostname := fun url =>
    if String.eqb (netloc url).1 EmptyString then None
    else Some (lower_text (netloc url).1);
  Domain_empty := mkDomain []
|}.

(** A PostgreSQL database that has the schemata [schemata], in a process
    with the environment [environ]. *)
Definition postgresql_backend (environ : gmap string string)
    (schemata : list string) : Backend :=
  mkBackend environ (UrlText "postgresql://localhost/rasa") schemata 0 0 [].

(** The backend after [k] sessions were made and closed, and [messages]
    were printed on the way out. *)
Definition after_sessions (k : nat) (messages : list string) (b : Backend) : Backend :=
  mkBackend (environ b) (bind_url b) (schemata b) (k + sessions_made b)
    (k + sessions_closed b) (exit_messages b ++ messages).

(** The end of an operation on the table, seen from the store in its
    process after [k] sessions. *)
Definition in_sessions {A : Type} (k : nat) (b : Backend)
    (x : outcome A * SQLTrackerStore.t * World) : outcome A * Scoped.t * World :=
  (x.1.1, Scoped.mk x.1.2 (after_sessions k [] b), x.2).

(** Constructors to try things on: a database that cannot be reached, and
    one custom class, [my.Store], which is a store of the base class. *)
Definition sample_constructors : Constructors SQLTrackerStore.t AbstractTrackerStore.t := {|
  new_SQLTrackerStore := fun _ _ _ _ w =>
    (inl (OperationalError "could not connect to server"), w);
  class_from_module_path := fun type =>
    if String.eqb type "my.Store"
    then inr (fun _ domain event_broker _ w =>
                (inr (AbstractTrackerStore.mk
                        (mkAttrs (Some domain) event_broker None None)), w))
    else inl (ImportError ("Cannot retrieve class from path " +:+ type))
|}.

(** A PostgreSQL server that refuses the first [k] connections and then
    is up, without a database of the store. *)
Definition late_server (k : nat) : Server := {|
  create_engine := fun _ _ => None;
  dialect_name := fun url => if is_postgresql_url url then "postgresql" else "sqlite";
  matching_rows := fun i _ =>
    if bool_decide (i < k)%nat then inl (OperationalError "connection refused")
    else inr 0%Z;
  create_database := fun _ _ => None;
  create_all := fun i =>
    if bool_decide (i < k)%nat then Some (OperationalError "connection refused")
    else None
|}.

(** The trackers of a conversation that grows batch by batch: [tr] with
    the first batch of events appended, then with the second as well, and
    so on. *)
Fixpoint grown (tr : Tracker) (batches : list (list Event)) : list Tracker :=
  match batches with
  | [] => []
  | batch :: rest => append_events batch tr :: grown (append_events batch tr) rest
  end.

(** * Properties *)

(** ** Running computations *)

Ltac unfold_monad :=
  unfold bind, ret, raise, get_self, gets, modify, effect, lift_outcome,
         try_except, now in *.

Lemma bind_returns {S A B} (m : M S A) (f : A -> M S B) s w a s' w' :
  m s w = (Returns a, s', w') -> bind m f s w = f a s' w'.
Proof. intros E. unfold bind. by rewrite E. Qed.

Lemma bind_raises {S A B} (m : M S A) (f : A -> M S B) s w e s' w' :
  m s w = (Raises e, s', w') -> bind m f s w = (Raises e, s', w').
Proof. intros E. unfold bind. by rewrite E. Qed.

(** ** Events and dialogues survive their JSON form *)

Lemma event_roundtrip (e : Event) :
  Event.from_parameters (JObj (Event.as_dict e)) = Some e.
Proof. by destruct e as [ty ts [n|] [i|]]. Qed.

Lemma events_roundtrip (evs : list Event) :
  omap Event.from_parameters (JObj <$> (Event.as_dict <$> evs)) = evs.
Proof.
  induction evs as [|e evs IH]; [done|].
  rewrite !fmap_cons. cbn [omap list_omap].
  rewrite event_roundtrip. cbn. by rewrite IH.
Qed.

Lemma dialogue_roundtrip (d : Dialogue) :
  Dialogue.from_parameters (JObj (Dialogue.as_dict d)) = Returns d.
Proof.
  destruct d as [n evs]. unfold Dialogue.from_parameters, Dialogue.as_dict.
  pose proof (events_roundtrip evs) as E.
  cbn [Dialogue.events Dialogue.name].
  set (items := JObj <$> (Event.as_dict <$> evs)) in *.
  cbn -[omap]. by rewrite E.
Qed.

Lemma as_dict_name (e : Event) :
  as_text (dict_get "name" (Event.as_dict e)) = Event.name e.
Proof. by destruct e as [ty ts [n|] [i|]]. Qed.

Lemma as_dict_intent (e : Event) :
  as_text (dict_get INTENT_NAME_KEY
             (get_or_empty "intent" (get_or_empty "parse_data" (Event.as_dict e))))
  = Event.intent_name e.
Proof. by destruct e as [ty ts [n|] [i|]]. Qed.

Section BaseClassFacts.
Context {S : Type} `{HasAttrs S}.

Lemma deserialise_serialised (sid : string) (tr : Tracker) (self : S) w :
  deserialise_tracker sid (Str (serialise_tracker tr)) self w
  = (Returns (Some (restored self sid (DialogueStateTracker.events tr))), self, w).
Proof.
  unfold deserialise_tracker, init_tracker, serialise_tracker. unfold_monad.
  cbn [json_loads json_value]. by rewrite dialogue_roundtrip.
Qed.

Lemma deserialise_pickled (sid : string) (d : Dialogue) (self : S) w :
  deserialise_tracker sid (PickleBytes d) self w
  = (Returns (Some (restored self sid (Dialogue.events d))), self,
     warn ("Found pickled tracker for conversation ID '" +:+ sid +:+ "'.") w).
Proof. done. Qed.

Lemma published_publish_all broker sid evs w :
  published (publish_all broker sid evs w)
  = published w ++ ((fun e => (broker, body_of sid e)) <$> evs).
Proof.
  revert w. unfold publish_all.
  induction evs as [|e evs IH]; intros w; cbn [foldl].
  - by rewrite app_nil_r.
  - rewrite IH. cbn. by rewrite <- app_assoc.
Qed.

Lemma publish_all_frame broker sid evs w :
  warnings (publish_all broker sid evs w) = warnings w /\
  error_log (publish_all broker sid evs w) = error_log w /\
  callback_calls (publish_all broker sid evs w) = callback_calls w /\
  wall_clock (publish_all broker sid evs w) = wall_clock w /\
  clock_reads (publish_all broker sid evs w) = clock_reads w.
Proof.
  revert w. unfold publish_all.
  induction evs as [|e evs IH]; intros w; [done|].
  cbn [foldl].
  destruct (IH (publish broker (body_of sid e) w)) as (E1 & E2 & E3 & E4 & E5).
  by rewrite E1, E2, E3, E4, E5.
Qed.

Lemma publish_loop broker sid evs (self : S) w :
  get_event_broker self = Some broker ->
  for_each evs
    (fun event =>
       self <- get_self ;;
       match get_event_broker self with
       | Some broker => effect (publish broker (body_of sid event))
       | None => raise (AttributeError "'NoneType' object has no attribute 'publish'")
       end) self w
  = (Returns tt, self, publish_all broker sid evs w).
Proof.
  intros Hb. revert w. induction evs as [|e evs IH]; intros w; [done|].
  cbn [for_each]. unfold_monad. rewrite Hb. apply IH.
Qed.

(** [stream_events] publishes what lies beyond the events of the tracker
    that [self.retrieve] returns. *)
Lemma stream_events_spec (self_retrieve : string -> M S (option Tracker))
    (tr : Tracker) (self self' : S) w w' old broker :
  self_retrieve (DialogueStateTracker.sender_id tr) self w = (Returns old, self', w') ->
  get_event_broker self' = Some broker ->
  stream_events self_retrieve tr self w
  = (Returns tt, self',
     publish_all broker (DialogueStateTracker.sender_id tr)
       (drop (from_option (fun o => length (DialogueStateTracker.events o)) 0%nat old)
             (DialogueStateTracker.events tr)) w').
Proof.
  intros Hr Hb. unfold stream_events, number_of_existing_events.
  unfold bind at 1. unfold bind at 1. rewrite Hr. unfold ret at 1.
  destruct old as [o|]; cbn [from_option]; by apply publish_loop.
Qed.
End BaseClassFacts.

(** ** The in-memory store *)

Section InMemoryFacts.
Import InMemoryTrackerStore.

Lemma retrieve_absent sid (self : t) w :
  store self !! sid = None -> retrieve sid self w = (Returns None, self, w).
Proof. intros E. unfold retrieve. unfold_monad. by rewrite E. Qed.

Lemma retrieve_serialised sid tr (self : t) w :
  store self !! sid = Some (Str (serialise_tracker tr)) ->
  retrieve sid self w
  = (Returns (Some (restored self sid (DialogueStateTracker.events tr))), self, w).
Proof.
  intros E. unfold retrieve. unfold bind, get_self. rewrite E.
  apply deserialise_serialised.
Qed.

Lemma retrieve_same_self sid (self self' : t) w w' r :
  retrieve sid self w = (r, self', w') -> self' = self.
Proof.
  unfold retrieve. unfold bind at 1. unfold get_self.
  destruct (store self !! sid) as [[text|d]|]; cbn.
  - unfold deserialise_tracker, init_tracker. unfold_monad. cbn.
    destruct (Dialogue.from_parameters (json_value text)) as [d|[]];
      cbn; congruence.
  - unfold ret. congruence.
  - unfold ret. congruence.
Qed.

Lemma retrieve_published sid (self self' : t) w w' r :
  retrieve sid self w = (r, self', w') -> published w' = published w.
Proof.
  unfold retrieve. unfold bind at 1. unfold get_self.
  destruct (store self !! sid) as [[text|d]|]; cbn.
  - unfold deserialise_tracker, init_tracker. unfold_monad. cbn.
    destruct (Dialogue.from_parameters (json_value text)) as [d|[]];
      cbn; intros [= <- <- <-]; done.
  - unfold ret. intros [= <- <- <-]. done.
  - unfold ret. congruence.
Qed.

Lemma save_without_broker tr (self : t) w :
  event_broker (attrs self) = None ->
  save tr self w = (Returns tt, saved tr self, w).
Proof. intros E. unfold save. unfold_monad. by rewrite E. Qed.

Lemma save_with_broker tr (self : t) w broker old w1 :
  event_broker (attrs self) = Some broker ->
  retrieve (DialogueStateTracker.sender_id tr) self w = (Returns old, self, w1) ->
  save tr self w
  = (Returns tt, saved tr self,
     publish_all broker (DialogueStateTracker.sender_id tr)
       (drop (from_option (fun o => length (DialogueStateTracker.events o)) 0%nat old)
             (DialogueStateTracker.events tr)) w1).
Proof.
  intros E Hr. unfold save. unfold bind at 1. unfold get_self. rewrite E.
  erewrite bind_returns; [|by eapply stream_events_spec]. done.
Qed.

(** Whenever [save] returns, the entry of the tracker's conversation holds
    the serialised tracker and nothing else has changed in the store. *)
Lemma save_returns tr (self self' : t) w w' :
  save tr self w = (Returns tt, self', w') -> self' = saved tr self.
Proof.
  destruct (event_broker (attrs self)) as [broker|] eqn:E.
  - destruct (retrieve (DialogueStateTracker.sender_id tr) self w)
      as [[[old|e] s1] w1] eqn:Hr.
    + pose proof (retrieve_same_self _ _ _ _ _ _ Hr) as ->.
      erewrite save_with_broker by done. congruence.
    + unfold save. unfold bind at 1. unfold get_self. rewrite E.
      unfold stream_events, number_of_existing_events.
      unfold bind. rewrite Hr. congruence.
  - rewrite save_without_broker by done. congruence.
Qed.

Lemma retrieve_saved tr (self : t) w :
  retrieve (DialogueStateTracker.sender_id tr) (saved tr self) w
  = (Returns (Some (restored self (DialogueStateTracker.sender_id tr)
                      (DialogueStateTracker.events tr))),
     saved tr self, w).
Proof.
  erewrite retrieve_serialised; [done|]. cbn. apply lookup_insert_eq.
Qed.

Lemma saved_saved tr (self : t) : saved tr (saved tr self) = saved tr self.
Proof. unfold saved. cbn. by rewrite insert_insert_eq. Qed.
End InMemoryFacts.

(** ** The SQL store *)

Lemma increasing_monotone clock : increasing clock -> monotone clock.
Proof.
  intros Hinc i j Hij. destruct (decide (i = j)) as [->|]; [lia|].
  apply Z.lt_le_incl, Hinc. lia.
Qed.

Lemma ticks_0 w : ticks 0 w = w.
Proof. destruct w. unfold ticks. cbn. f_equal. lia. Qed.

Lemma ticks_S k w : ticks k (tick w) = ticks (S k) w.
Proof. unfold ticks, tick. cbn. f_equal. lia. Qed.

Section SQLFacts.
Import SQLTrackerStore.

Lemma add_event_spec tr e (self : t) w :
  add_event tr e self w
  = (Returns tt,
     mk (attrs self) (engine self)
        (table self ++ [row_of (DialogueStateTracker.sender_id tr) e
                          (wall_clock w (clock_reads w)) (S (length (table self)))]),
     tick w).
Proof.
  unfold add_event, session_add. unfold_monad. unfold row_of.
  by rewrite as_dict_intent, as_dict_name.
Qed.

Lemma insert_loop tr evs (self : t) w :
  for_each evs (add_event tr) self w
  = (Returns tt,
     mk (attrs self) (engine self)
        (table self ++ stamped (DialogueStateTracker.sender_id tr) evs
                         (wall_clock w) (clock_reads w) (length (table self))),
     ticks (length evs) w).
Proof.
  revert self w. induction evs as [|e evs IH]; intros self w.
  - cbn. rewrite app_nil_r, ticks_0. by destruct self.
  - cbn [for_each]. erewrite bind_returns by apply add_event_spec.
    rewrite IH. cbn [attrs engine table stamped].
    rewrite length_app, <- app_assoc, ticks_S. cbn.
    by rewrite Nat.add_1_r.
Qed.

Lemma _retrieve_read sid all_sessions (self : t) w :
  _retrieve sid all_sessions self w = (Returns (read self sid all_sessions), self, w).
Proof.
  unfold _retrieve, read. unfold_monad.
  destruct (domain (attrs self)); [|done]. by case_bool_decide.
Qed.

Lemma retrieve_full_read sid (self : t) w :
  retrieve_full_tracker sid self w = (Returns (read self sid true), self, w).
Proof. apply _retrieve_read. Qed.

Lemma retrieve_read sid (self : t) w :
  retrieve sid self w = (Returns (read self sid (legacy self)), self, w).
Proof.
  unfold retrieve, legacy. unfold bind, get_self.
  destruct (truthy _); apply _retrieve_read.
Qed.

Lemma save_spec tr (self : t) w :
  save tr self w
  = (Returns tt,
     mk (attrs self) (engine self)
        (table self ++ stamped (DialogueStateTracker.sender_id tr) (delta self tr)
                         (wall_clock w) (clock_reads w) (length (table self))),
     ticks (length (delta self tr)) (after_streaming self tr w)).
Proof.
  unfold save. unfold bind at 1. unfold get_self.
  assert (forall w1, wall_clock w1 = wall_clock w -> clock_reads w1 = clock_reads w ->
    (events <- _additional_events tr;; for_each events (add_event tr)) self w1
    = (Returns tt,
       mk (attrs self) (engine self)
          (table self ++ stamped (DialogueStateTracker.sender_id tr) (delta self tr)
                           (wall_clock w) (clock_reads w) (length (table self))),
       ticks (length (delta self tr)) w1)) as Hrest.
  { intros w1 E1 E2. unfold _additional_events. unfold_monad.
    rewrite insert_loop. by rewrite E1, E2. }
  unfold after_streaming.
  destruct (event_broker (attrs self)) as [broker|] eqn:E.
  - erewrite bind_returns;
      [|by eapply stream_events_spec; [apply retrieve_read|]].
    apply Hrest; apply publish_all_frame.
  - unfold bind at 1. unfold ret at 1. by apply Hrest.
Qed.
End SQLFacts.

(** *** Rows in the order of their timestamps *)

#[local] Instance timestamp_le_transitive : Transitive timestamp_le.
Proof. unfold timestamp_le. intros x y z. lia. Qed.

#[local] Instance timestamp_le_total : Total timestamp_le.
Proof. unfold timestamp_le. intros x y. lia. Qed.

Lemma strictly_sorted_weaken rows :
  StronglySorted timestamp_lt rows -> StronglySorted timestamp_le rows.
Proof.
  induction 1 as [|r rows _ IH Hr]; constructor; [done|].
  eapply Forall_impl; [exact Hr|]. unfold timestamp_lt, timestamp_le. intros; lia.
Qed.

Lemma strictly_sorted_inj rows r1 r2 :
  StronglySorted timestamp_lt rows -> r1 ∈ rows -> r2 ∈ rows ->
  SQLEvent.timestamp r1 = SQLEvent.timestamp r2 -> r1 = r2.
Proof.
  induction 1 as [|r rows _ IH Hr]; [by intros ?%elem_of_nil|].
  rewrite Forall_forall in Hr. unfold timestamp_lt in Hr.
  intros [->|H1]%elem_of_cons [->|H2]%elem_of_cons E; auto.
  - specialize (Hr _ H2). lia.
  - specialize (Hr _ H1). lia.
Qed.

Lemma strictly_sorted_filter (P : SQLEvent -> Prop) `{!forall r, Decision (P r)} rows :
  StronglySorted timestamp_lt rows -> StronglySorted timestamp_lt (filter P rows).
Proof.
  induction 1 as [|r rows _ IH Hr]; [constructor|].
  rewrite filter_cons. case_decide; [|done].
  constructor; [done|]. rewrite Forall_forall in *.
  intros x [_ Hx]%list_elem_of_filter. auto.
Qed.

(** On rows with pairwise distinct timestamps, given in the order of their
    timestamps, every engine returns the rows as they are. *)
Lemma order_by_sorted (e : Engine) rows :
  implements_order_by e -> StronglySorted timestamp_lt rows ->
  order_by_timestamp e rows = rows.
Proof.
  intros He Hs. destruct (He rows) as [Hp Ho].
  apply (StronglySorted_unique_strong timestamp_le); [| | |done].
  - intros r1 r2 H1 H2 Hle Hge. rewrite Hp in H1.
    apply (strictly_sorted_inj rows); [done..|].
    unfold timestamp_le in *. lia.
  - apply (Sorted_StronglySorted timestamp_le), Ho.
  - by apply strictly_sorted_weaken.
Qed.

Lemma filter_all {A} (P : A -> Prop) `{!forall x, Decision (P x)} (l : list A) :
  Forall P l -> filter P l = l.
Proof.
  induction 1 as [|x l Hx _ IH]; [done|].
  by rewrite filter_cons_True, IH.
Qed.

Lemma filter_none {A} (P : A -> Prop) `{!forall x, Decision (P x)} (l : list A) :
  Forall (fun x => ~ P x) l -> filter P l = [].
Proof.
  induction 1 as [|x l Hx _ IH]; [done|].
  by rewrite filter_cons_False.
Qed.

Lemma max_timestamp_last rows r :
  Forall (fun r' => timestamp_lt r' r) rows ->
  SQLTrackerStore.max_timestamp (rows ++ [r]) = Some (SQLEvent.timestamp r).
Proof.
  induction 1 as [|r' rows Hr' _ IH]; [done|].
  cbn [app SQLTrackerStore.max_timestamp foldr] in *.
  unfold SQLTrackerStore.max_timestamp in IH. rewrite IH.
  unfold timestamp_lt in Hr'. f_equal. lia.
Qed.

(** *** The event log behind the rows of a conversation *)

Lemma active_session_cases evs :
  (Forall (fun e => is_session_start e = false) evs /\ active_session evs = evs) \/
  (exists pre ss post,
      evs = pre ++ ss :: post /\ is_session_start ss = true /\
      Forall (fun e => is_session_start e = false) post /\
      active_session evs = ss :: post).
Proof.
  induction evs as [|e rest IH]; [by left|].
  cbn [active_session].
  destruct (existsb is_session_start rest) eqn:Ex.
  - right. destruct IH as [[Hno _]|(pre & ss & post & -> & Hss & Hpost & ->)].
    + apply existsb_exists in Ex as (x & Hx & Hxs).
      rewrite Forall_forall in Hno. apply list_elem_of_In, Hno in Hx. congruence.
    + by exists (e :: pre), ss, post.
  - assert (Forall (fun e => is_session_start e = false) rest) as Hrest.
    { apply Forall_forall. intros x Hx.
      destruct (is_session_start x) eqn:Hxs; [|done].
      rewrite <- Ex. symmetry. apply existsb_exists. exists x.
      by rewrite <- list_elem_of_In. }
    destruct (is_session_start e) eqn:He.
    + right. by exists [], e, rest.
    + left. split; [by constructor|done].
Qed.

Lemma active_session_whole evs :
  Forall (fun e => is_session_start e = false) (tail evs) -> active_session evs = evs.
Proof.
  destruct evs as [|e rest]; [done|]. cbn [tail active_session]. intros Hrest.
  destruct (existsb is_session_start rest) eqn:Ex; [|done].
  apply existsb_exists in Ex as (x & Hx & Hxs).
  rewrite Forall_forall in Hrest. apply list_elem_of_In, Hrest in Hx. congruence.
Qed.

Lemma active_session_nil evs : active_session evs = [] -> evs = [].
Proof.
  destruct (active_session_cases evs) as [[_ ->]|(? & ? & ? & _ & _ & _ & ->)]; done.
Qed.

Lemma decode_rows sid rows evs :
  Forall2 (encodes sid) rows evs ->
  omap Event.from_parameters ((fun r => json_value (SQLEvent.data r)) <$> rows) = evs.
Proof.
  induction 1 as [|r e rows evs (_ & _ & Hd) _ IH]; [done|].
  rewrite fmap_cons. cbn [omap list_omap]. rewrite Hd. cbn [json_value].
  rewrite event_roundtrip. cbn. by rewrite IH.
Qed.

Lemma encodes_session_start sid r e :
  encodes sid r e -> starts_session r <-> is_session_start e = true.
Proof.
  intros (_ & Ht & _). unfold starts_session, is_session_start. rewrite Ht.
  by rewrite bool_decide_eq_true.
Qed.

(** The rows from the latest session start on hold the latest session. *)
Lemma window_rows sid rows evs :
  Forall2 (encodes sid) rows evs ->
  StronglySorted timestamp_lt rows ->
  Forall2 (encodes sid)
    (filter (fun r => SQLTrackerStore.since
                        (SQLTrackerStore.max_timestamp (filter starts_session rows)) r)
            rows)
    (active_session evs).
Proof.
  intros Henc Hsort.
  destruct (active_session_cases evs)
    as [[Hno ->]|(pre & ss & post & -> & Hss & Hpost & ->)].
  - rewrite (filter_none starts_session).
    + cbn. by rewrite filter_all by by apply Forall_forall.
    + clear Hsort. induction Henc as [|r e rows evs Hre _ IH]; [constructor|].
      inversion Hno; subst. constructor; [|auto].
      rewrite (encodes_session_start _ _ _ Hre). congruence.
  - apply Forall2_app_inv_r in Henc as (rpre & rrest & Hpre & Hrest & ->).
    apply Forall2_cons_inv_r in Hrest as (rss & rpost & Hrss & Hrpost & ->).
    apply StronglySorted_app in Hsort as (Hlt & _ & Hs2).
    apply StronglySorted_cons in Hs2 as [Hge _].
    assert (filter starts_session (rpre ++ rss :: rpost)
            = filter starts_session rpre ++ [rss]) as ->.
    { rewrite filter_app, filter_cons_True
        by by rewrite (encodes_session_start _ _ _ Hrss).
      f_equal. f_equal. apply filter_none.
      clear Hge Hlt. induction Hrpost as [|r e rows evs Hre _ IH]; [constructor|].
      inversion Hpost; subst. constructor; [|auto].
      rewrite (encodes_session_start _ _ _ Hre). congruence. }
    rewrite max_timestamp_last.
    2:{ apply Forall_forall. intros r [_ Hr]%list_elem_of_filter.
        apply Hlt; [done|by left]. }
    rewrite filter_app, filter_cons_True.
    2:{ cbn. rewrite bool_decide_spec. lia. }
    rewrite filter_none, filter_all; [by constructor| |].
    + eapply Forall_impl; [exact Hge|]. intros r Hr. cbn.
      rewrite bool_decide_spec. unfold timestamp_lt in Hr. lia.
    + apply Forall_forall. intros r Hr. cbn. rewrite bool_decide_spec.
      specialize (Hlt r rss Hr). unfold timestamp_lt in Hlt.
      assert (rss ∈ rss :: rpost) as Hin by left. specialize (Hlt Hin). lia.
Qed.

Section SQLLogFacts.
Import SQLTrackerStore.

Lemma conversation_app sid rows1 rows2 :
  conversation sid (rows1 ++ rows2) = conversation sid rows1 ++ conversation sid rows2.
Proof. apply filter_app. Qed.

Lemma holds_fresh (self : t) w sid :
  conversation sid (table self) = [] -> holds self sid [] /\ clock_ahead self w sid.
Proof.
  intros E. unfold holds, clock_ahead. rewrite E.
  repeat split; constructor.
Qed.

Lemma session_start_rows sid rows :
  filter (fun r => SQLEvent.sender_id r = sid /\
                   SQLEvent.type_name r = SessionStarted.type_name) rows
  = filter starts_session (conversation sid rows).
Proof.
  unfold conversation. rewrite list_filter_filter.
  apply list_filter_iff. unfold starts_session. intros r. tauto.
Qed.

Lemma query_all (self : t) sid evs :
  implements_order_by (engine self) -> holds self sid evs ->
  _event_query self sid true = conversation sid (table self).
Proof. intros He [_ Hs]. unfold _event_query. cbn. by apply order_by_sorted. Qed.

Lemma query_latest (self : t) sid evs :
  implements_order_by (engine self) -> holds self sid evs ->
  Forall2 (encodes sid) (_event_query self sid false) (active_session evs).
Proof.
  intros He [Henc Hs]. unfold _event_query. cbn [negb].
  rewrite session_start_rows. fold (conversation sid (table self)).
  rewrite order_by_sorted; [by apply window_rows|done|].
  by apply strictly_sorted_filter.
Qed.

Lemma query_visible (self : t) sid evs :
  implements_order_by (engine self) -> holds self sid evs ->
  Forall2 (encodes sid) (_event_query self sid (legacy self)) (visible self evs).
Proof.
  intros He Hh. unfold visible. destruct (legacy self).
  - erewrite query_all by done. apply Hh.
  - by apply query_latest.
Qed.

Lemma read_replayed (self : t) sid all_sessions evs :
  Forall2 (encodes sid) (_event_query self sid all_sessions) evs ->
  read self sid all_sessions = replayed (domain (attrs self)) sid evs.
Proof.
  intros Henc. unfold read, replayed.
  destruct (domain (attrs self)) as [d|]; [|done].
  rewrite length_fmap, (Forall2_length _ _ _ Henc).
  unfold DialogueStateTracker.from_dict. rewrite (decode_rows _ _ _ Henc).
  destruct evs; [done|]. by rewrite bool_decide_true by (cbn; lia).
Qed.

(** Reading a conversation in full replays its log. *)
Lemma read_full (self : t) sid evs :
  implements_order_by (engine self) -> holds self sid evs ->
  read self sid true = replayed (domain (attrs self)) sid evs.
Proof.
  intros He Hh. apply read_replayed. erewrite query_all by done. apply Hh.
Qed.

(** Reading a conversation the default way replays its latest session. *)
Lemma read_visible (self : t) sid evs :
  implements_order_by (engine self) -> holds self sid evs ->
  read self sid (legacy self)
  = replayed (domain (attrs self)) sid (visible self evs).
Proof. intros He Hh. by apply read_replayed, query_visible. Qed.

(** *** The rows written by [save] *)

Lemma stamped_encodes sid evs clock c n :
  Forall2 (encodes sid) (stamped sid evs clock c n) evs.
Proof.
  revert c n. induction evs as [|e evs IH]; intros c n; constructor; [done|].
  apply IH.
Qed.

Lemma stamped_timestamps sid evs clock c n :
  Forall (fun r => exists k, (c <= k < c + length evs)%nat /\
                             SQLEvent.timestamp r = clock k)
         (stamped sid evs clock c n).
Proof.
  revert c n. induction evs as [|e evs IH]; intros c n; constructor.
  - exists c. cbn. split; [lia|done].
  - eapply Forall_impl; [apply IH|]. cbn. intros r (k & Hk & ->).
    exists k. split; [lia|done].
Qed.

Lemma stamped_sorted sid evs clock c n :
  increasing clock -> StronglySorted timestamp_lt (stamped sid evs clock c n).
Proof.
  intros Hinc. revert c n. induction evs as [|e evs IH]; intros c n;
    constructor; [apply IH|].
  eapply Forall_impl; [apply stamped_timestamps|].
  cbn. intros r (k & Hk & Hr). unfold timestamp_lt. cbn. rewrite Hr.
  apply Hinc. lia.
Qed.

Lemma stamped_conversation sid evs clock c n :
  conversation sid (stamped sid evs clock c n) = stamped sid evs clock c n.
Proof.
  apply filter_all. eapply Forall2_Forall_l; [apply stamped_encodes|].
  apply Forall_forall. by intros e _ r (? & _).
Qed.

Lemma stamped_other sid sid' evs clock c n :
  sid' <> sid -> conversation sid' (stamped sid evs clock c n) = [].
Proof.
  intros Hne. apply filter_none. eapply Forall2_Forall_l; [apply stamped_encodes|].
  apply Forall_forall. intros e _ r (? & _). congruence.
Qed.

Lemma after_streaming_clock (self : t) tr w :
  wall_clock (after_streaming self tr w) = wall_clock w /\
  clock_reads (after_streaming self tr w) = clock_reads w.
Proof.
  unfold after_streaming. destruct (event_broker (attrs self)); [|done].
  split; apply publish_all_frame.
Qed.

(** [save] extends the log of the tracker's conversation by the events of
    the tracker beyond as many as the store reads back. *)
Lemma save_holds tr (self self' : t) w w' evs :
  let sid := DialogueStateTracker.sender_id tr in
  implements_order_by (engine self) -> increasing (wall_clock w) ->
  holds self sid evs -> clock_ahead self w sid ->
  save tr self w = (Returns tt, self', w') ->
  holds self' sid
    (evs ++ drop (length (visible self evs)) (DialogueStateTracker.events tr)) /\
  clock_ahead self' w' sid /\
  attrs self' = attrs self /\ engine self' = engine self /\
  wall_clock w' = wall_clock w.
Proof.
  intros sid He Hinc Hh Ha. subst sid. rewrite save_spec. intros [= <- <-].
  set (sid := DialogueStateTracker.sender_id tr) in *.
  assert (delta self tr
          = drop (length (visible self evs)) (DialogueStateTracker.events tr)) as Hd.
  { unfold delta. f_equal. eapply Forall2_length, query_visible; done. }
  rewrite Hd. set (new := drop _ _).
  destruct (after_streaming_clock self tr w) as [Hc Hr].
  destruct Hh as [Henc Hs]. unfold holds, clock_ahead in *.
  cbn [table attrs engine wall_clock clock_reads ticks].
  rewrite conversation_app, stamped_conversation, Hc, Hr.
  pose proof (stamped_timestamps sid new (wall_clock w) (clock_reads w)
                (length (table self))) as Hts.
  rewrite Forall_forall in Ha, Hts.
  repeat split.
  - apply Forall2_app; [done|apply stamped_encodes].
  - apply StronglySorted_app_2; [|done|by apply stamped_sorted].
    intros r1 r2 H1 H2. specialize (Ha _ H1). destruct (Hts _ H2) as (k & Hk & Hr2).
    unfold timestamp_lt. rewrite Hr2.
    pose proof (increasing_monotone _ Hinc (clock_reads w) k). lia.
  - apply Forall_app. split; apply Forall_forall; intros r Hin.
    + specialize (Ha _ Hin).
      pose proof (increasing_monotone _ Hinc (clock_reads w)
                    (clock_reads w + length new)). lia.
    + destruct (Hts _ Hin) as (k & Hk & ->). apply Hinc. lia.
Qed.

(** [save] leaves the rows of every other conversation alone. *)
Lemma save_other tr (self self' : t) w w' sid' :
  sid' <> DialogueStateTracker.sender_id tr ->
  save tr self w = (Returns tt, self', w') ->
  conversation sid' (table self') = conversation sid' (table self).
Proof.
  intros Hne. rewrite save_spec. intros [= <- _]. cbn [table].
  by rewrite conversation_app, stamped_other, app_nil_r.
Qed.
End SQLLogFacts.

(** ** Two database engines *)

Lemma merge_sort_engine_ok : implements_order_by merge_sort_engine.
Proof.
  intros rows. split; [apply merge_sort_Permutation|].
  apply (Sorted_merge_sort timestamp_le).
Qed.

Lemma backward_scan_engine_ok : implements_order_by backward_scan_engine.
Proof.
  intros rows. cbn. split.
  - by rewrite merge_sort_Permutation, reverse_Permutation.
  - apply (Sorted_merge_sort timestamp_le).
Qed.

Lemma steady_clock_increasing : increasing steady_clock.
Proof. unfold increasing, steady_clock. lia. Qed.

Lemma append_events_events new tr :
  DialogueStateTracker.events (append_events new tr)
  = DialogueStateTracker.events tr ++ new.
Proof.
  revert tr. unfold append_events.
  induction new as [|e new IH]; intros tr; cbn [foldl].
  - by rewrite app_nil_r.
  - rewrite IH. cbn. by rewrite <- app_assoc.
Qed.

Lemma append_events_sender_id new tr :
  DialogueStateTracker.sender_id (append_events new tr)
  = DialogueStateTracker.sender_id tr.
Proof.
  revert tr. unfold append_events.
  induction new as [|e new IH]; intros tr; cbn [foldl]; [done|].
  by rewrite IH.
Qed.

(** ** The SQL store in its sessions *)

Lemma ensure_schema_exists_raises `{Imports} b e :
  Scoped.ensure_schema_exists b = Raises e ->
  exists name,
    e = ValueError name /\ environ b !! POSTGRESQL_SCHEMA = Some name /\
    name <> EmptyString /\ is_postgresql_url (bind_url b) = true /\
    name ∉ schemata b.
Proof.
  unfold Scoped.ensure_schema_exists.
  destruct (environ b !! POSTGRESQL_SCHEMA) as [name|] eqn:E; [|done].
  cbn [truthy_text]. destruct (String.eqb_spec name EmptyString); [done|].
  cbn [negb]. destruct (is_postgresql_url (bind_url b)); [|done].
  case_bool_decide; [done|]. intros [= <-]. by exists name.
Qed.

Lemma after_sessions_0 b : after_sessions 0 [] b = b.
Proof. destruct b. unfold after_sessions. cbn. by rewrite app_nil_r. Qed.

Lemma after_sessions_1_1 b :
  after_sessions 1 [] (after_sessions 1 [] b) = after_sessions 2 [] b.
Proof. unfold after_sessions. cbn. by rewrite !app_nil_r. Qed.

Lemma ensure_schema_exists_after `{Imports} k messages b :
  Scoped.ensure_schema_exists (after_sessions k messages b)
  = Scoped.ensure_schema_exists b.
Proof. done. Qed.

Lemma session_scope_returns `{Imports} {A : Type} (body : M SQLTrackerStore.t A)
    (self : Scoped.t) w a s w' :
  Scoped.ensure_schema_exists (Scoped.backend self) = Returns tt ->
  body (Scoped.store self) w = (Returns a, s, w') ->
  Scoped.session_scope body self w
  = (Returns a, Scoped.mk s (after_sessions 1 [] (Scoped.backend self)), w').
Proof.
  intros Hok Hb. unfold Scoped.session_scope. rewrite Hok, Hb.
  unfold after_sessions. by rewrite app_nil_r.
Qed.

Lemma session_scope_exits `{Imports} {A : Type} (body : M SQLTrackerStore.t A)
    (self : Scoped.t) w name :
  Scoped.ensure_schema_exists (Scoped.backend self) = Raises (ValueError name) ->
  Scoped.session_scope body self w
  = (Raises SystemExit,
     Scoped.mk (Scoped.store self)
       (after_sessions 1 [Scoped.schema_not_found (ValueError name)]
          (Scoped.backend self)), w).
Proof. intros Hno. unfold Scoped.session_scope. by rewrite Hno. Qed.

Lemma save_body_spec tr (s : SQLTrackerStore.t) w :
  (events <- SQLTrackerStore._additional_events tr ;;
   for_each events (SQLTrackerStore.add_event tr)) s w
  = (Returns tt,
     SQLTrackerStore.mk (SQLTrackerStore.attrs s) (SQLTrackerStore.engine s)
       (SQLTrackerStore.table s
        ++ stamped (DialogueStateTracker.sender_id tr) (delta s tr)
             (wall_clock w) (clock_reads w) (length (SQLTrackerStore.table s))),
     ticks (length (delta s tr)) w).
Proof.
  unfold SQLTrackerStore._additional_events. unfold bind at 1. unfold get_self.
  unfold bind, ret. by rewrite insert_loop.
Qed.

Lemma scoped_retrieve_ok `{Imports} sid (self : Scoped.t) w :
  Scoped.ensure_schema_exists (Scoped.backend self) = Returns tt ->
  Scoped.retrieve sid self w
  = (Returns (read (Scoped.store self) sid (legacy (Scoped.store self))),
     Scoped.mk (Scoped.store self) (after_sessions 1 [] (Scoped.backend self)), w).
Proof.
  intros Hok. unfold Scoped.retrieve, Scoped.retrieve_full_tracker, Scoped._retrieve.
  unfold bind, get_self, legacy.
  destruct (truthy _); by apply session_scope_returns, _retrieve_read.
Qed.

Lemma ensure_schema_exists_missing `{Imports} b name :
  environ b !! POSTGRESQL_SCHEMA = Some name ->
  name <> EmptyString ->
  is_postgresql_url (bind_url b) = true ->
  name ∉ schemata b ->
  Scoped.ensure_schema_exists b = Raises (ValueError name).
Proof.
  intros E Hne Hp Hno. unfold Scoped.ensure_schema_exists. rewrite E, Hp.
  cbn [truthy_text]. destruct (String.eqb_spec name EmptyString); [done|].
  cbn [negb]. by rewrite bool_decide_false.
Qed.

Lemma failsafe_not_caught {P F : Type} `{TrackerStore P} `{TrackerStore F}
    {A : Type} (m : M P A) (handler : PyError -> M (FailSafeTrackerStore.t P F) A)
    (fs : FailSafeTrackerStore.t P F) w e p w1 :
  m (FailSafeTrackerStore._tracker_store fs) w = (Raises e, p, w1) ->
  is_Exception e = false ->
  try_except (FailSafeTrackerStore.on_primary m) is_Exception handler fs w
  = (Raises e, with_primary p fs, w1).
Proof.
  intros Hm He. unfold try_except, FailSafeTrackerStore.on_primary.
  by rewrite Hm, He.
Qed.

Lemma ensure_schema_exists_cases `{Imports} b :
  Scoped.ensure_schema_exists b = Returns tt \/
  exists name,
    environ b !! POSTGRESQL_SCHEMA = Some name /\ name <> EmptyString /\
    is_postgresql_url (bind_url b) = true /\ name ∉ schemata b.
Proof.
  destruct (Scoped.ensure_schema_exists b) as [[]|e] eqn:E; [by left|right].
  destruct (ensure_schema_exists_raises b e E) as (name & _ & ?). by exists name.
Qed.

Lemma after_sessions_add j k b :
  after_sessions j [] (after_sessions k [] b) = after_sessions (j + k) [] b.
Proof.
  unfold after_sessions. cbn. rewrite !app_nil_r. f_equal; lia.
Qed.

Lemma scoped_retrieve_full_ok `{Imports} sid (self : Scoped.t) w :
  Scoped.ensure_schema_exists (Scoped.backend self) = Returns tt ->
  Scoped.retrieve_full_tracker sid self w
  = (Returns (read (Scoped.store self) sid true),
     Scoped.mk (Scoped.store self) (after_sessions 1 [] (Scoped.backend self)), w).
Proof.
  intros Hok. unfold Scoped.retrieve_full_tracker, Scoped._retrieve.
  by apply session_scope_returns, _retrieve_read.
Qed.

Lemma scoped_save_ok `{Imports} tr (self : Scoped.t) w :
  Scoped.ensure_schema_exists (Scoped.backend self) = Returns tt ->
  Scoped.save tr self w
  = in_sessions
      (if event_broker (SQLTrackerStore.attrs (Scoped.store self)) is Some _
       then 2 else 1)
      (Scoped.backend self) (SQLTrackerStore.save tr (Scoped.store self) w).
Proof.
  intros Hok. rewrite save_spec. unfold Scoped.save. unfold bind at 1.
  unfold get_self. unfold after_streaming, in_sessions. cbn [fst snd].
  change (get_event_broker self)
    with (event_broker (SQLTrackerStore.attrs (Scoped.store self))).
  destruct (event_broker (SQLTrackerStore.attrs (Scoped.store self)))
    as [broker|] eqn:Hb.
  - erewrite bind_returns.
    2:{ eapply stream_events_spec; [by apply scoped_retrieve_ok|exact Hb]. }
    cbn beta iota.
    erewrite session_scope_returns; [| |apply save_body_spec].
    2:{ exact Hok. }
    cbn [Scoped.store Scoped.backend]. rewrite after_sessions_1_1.
    unfold streamed.
    set (evs := drop _ (DialogueStateTracker.events tr)).
    destruct (publish_all_frame broker (DialogueStateTracker.sender_id tr) evs w)
      as (_ & _ & _ & -> & ->).
    done.
  - unfold bind at 1. unfold ret at 1.
    by erewrite session_scope_returns; [| |apply save_body_spec].
Qed.

(** * The claims *)

(** ** C1: round trip *)

(** C1, as stated, fails: a tracker with two events saved to an empty SQL
    store while the clock does not move gets both rows the same timestamp,
    and an engine that implements ORDER BY may return them in either order;
    the full retrieval then replays the events in the reverse order. *)
Lemma roundtrip_lost_on_equal_timestamps :
  let tr := DialogueStateTracker.mk "u1" None None
              [ActionExecuted "utter_greet" 7; ActionExecuted "utter_bye" 8] in
  let self := empty_sql_store backward_scan_engine None in
  let '(_, self', w') := SQLTrackerStore.save tr self (quiet_world coarse_clock) in
  implements_order_by (SQLTrackerStore.engine self) /\
  SQLEvent.timestamp <$> SQLTrackerStore.table self' = [0%Z; 0%Z] /\
  SQLTrackerStore.retrieve_full_tracker "u1" self' w'
  = (Returns (Some (DialogueStateTracker.mk "u1" (Some (slots some_domain)) None
                      [ActionExecuted "utter_bye" 8; ActionExecuted "utter_greet" 7])),
     self', w') /\
  [ActionExecuted "utter_bye" 8; ActionExecuted "utter_greet" 7]
  <> DialogueStateTracker.events tr.
Proof.
  cbn zeta. rewrite save_spec.
  split; [apply backward_scan_engine_ok|].
  split; [reflexivity|]. split; [|discriminate].
  rewrite retrieve_full_read. f_equal.
Qed.

(** C1, amended: a tracker saved to the in-memory store is replayed in full
    by the full retrieval, event for event.  So is a tracker with at least
    one event saved to an SQL store that has a domain, when the rows of the
    conversation hold a first part of the tracker's events (none, for a new
    conversation) in the order of their timestamps, no two rows sharing one,
    that part is what the store reads back and counts (it lies within one
    session, or the store reads all sessions), and the clock readings that
    stamp the new rows grow strictly from beyond the stored ones. *)
Theorem roundtrip_after_save (tr : Tracker) :
  let sid := DialogueStateTracker.sender_id tr in
  (forall (self self' : InMemoryTrackerStore.t) w w',
      save tr self w = (Returns tt, self', w') ->
      exists tr',
        retrieve_full_tracker sid self' w' = (Returns (Some tr'), self', w') /\
        DialogueStateTracker.events tr' = DialogueStateTracker.events tr) /\
  (forall (self self' : SQLTrackerStore.t) w w' stored new,
      implements_order_by (SQLTrackerStore.engine self) ->
      increasing (wall_clock w) ->
      is_Some (domain (SQLTrackerStore.attrs self)) ->
      holds self sid stored ->
      clock_ahead self w sid ->
      visible self stored = stored ->
      DialogueStateTracker.events tr = stored ++ new ->
      DialogueStateTracker.events tr <> [] ->
      save tr self w = (Returns tt, self', w') ->
      exists tr',
        retrieve_full_tracker sid self' w' = (Returns (Some tr'), self', w') /\
        DialogueStateTracker.events tr' = DialogueStateTracker.events tr).
Proof.
  intros sid. split.
  - intros self self' w w' Hsave. apply save_returns in Hsave as ->.
    eexists. split; [apply retrieve_saved|done].
  - intros self self' w w' stored new He Hinc [d Hd] Hh Ha Hv Hev Hne Hsave.
    destruct (save_holds tr self self' w w' stored He Hinc Hh Ha Hsave)
      as (Hh' & _ & Hattrs & Heng & _).
    rewrite Hv, Hev, drop_app_length, <- Hev in Hh'.
    change (retrieve_full_tracker sid self' w')
      with (SQLTrackerStore.retrieve_full_tracker sid self' w').
    rewrite retrieve_full_read.
    rewrite (read_full self' sid (DialogueStateTracker.events tr))
      by (by rewrite ?Heng).
    rewrite Hattrs, Hd. unfold replayed.
    destruct (DialogueStateTracker.events tr) eqn:E; [done|].
    eexists. split; [done|]. done.
Qed.

Lemma roundtrip_after_save_witness :
  let tr := DialogueStateTracker.mk "u1" None None
              [ActionExecuted "utter_greet" 7; ActionExecuted "utter_bye" 8] in
  (exists tr',
      retrieve_full_tracker "u1"
        (saved tr (empty_memory_store None None)) (quiet_world steady_clock)
      = (Returns (Some tr'), saved tr (empty_memory_store None None),
         quiet_world steady_clock) /\
      DialogueStateTracker.events tr' = DialogueStateTracker.events tr) /\
  (exists self' w' tr',
      length (SQLTrackerStore.table self') = 2%nat /\
      retrieve_full_tracker "u1" self' w' = (Returns (Some tr'), self', w') /\
      DialogueStateTracker.events tr' = DialogueStateTracker.events tr).
Proof.
  intros tr. destruct (roundtrip_after_save tr) as [Hmem Hsql]. split.
  - apply (Hmem (empty_memory_store None None) _ (quiet_world steady_clock) _).
    reflexivity.
  - pose (self := empty_sql_store merge_sort_engine None).
    pose (w := quiet_world steady_clock).
    pose proof (save_spec tr self w) as Hsave.
    set (self' := SQLTrackerStore.mk _ _ _) in Hsave.
    set (w' := ticks _ _) in Hsave.
    destruct (holds_fresh self w "u1" eq_refl) as [Hh Ha].
    destruct (Hsql self self' w w' [] (DialogueStateTracker.events tr))
      as (tr' & Hr & Hev).
    + apply merge_sort_engine_ok.
    + apply steady_clock_increasing.
    + by eexists.
    + exact Hh.
    + exact Ha.
    + reflexivity.
    + reflexivity.
    + discriminate.
    + exact Hsave.
    + exists self', w', tr'. split; [reflexivity|]. split; [exact Hr|exact Hev].
Defined.

(** ** C2: session windowing *)

(** C2, as stated, fails: with the log [A, SessionStarted, B, C] in the
    table, the default retrieval replays the session start as well. *)
Lemma session_window_includes_session_start :
  let A := ActionExecuted "utter_greet" 1 in
  let B := UserUttered (Some "ask_weather") 3 in
  let C := ActionExecuted "utter_weather" 4 in
  let log := [A; SessionStarted.new 2; B; C] in
  let tr := DialogueStateTracker.mk "u1" None None log in
  let '(_, self, w) :=
    SQLTrackerStore.save tr (empty_sql_store merge_sort_engine None)
      (quiet_world steady_clock) in
  SQLTrackerStore.retrieve_full_tracker "u1" self w
  = (Returns (Some (DialogueStateTracker.mk "u1" (Some (slots some_domain)) None log)),
     self, w) /\
  SQLTrackerStore.retrieve "u1" self w
  = (Returns (Some (DialogueStateTracker.mk "u1" (Some (slots some_domain)) None
                      [SessionStarted.new 2; B; C])),
     self, w) /\
  [SessionStarted.new 2; B; C] <> [B; C].
Proof.
  cbn zeta. rewrite save_spec.
  split; [|split; [|discriminate]].
  - rewrite retrieve_full_read. f_equal.
  - rewrite retrieve_read. f_equal.
Qed.

(** C2, amended: when the rows of a conversation hold the log
    [A, SessionStarted, B, C] in the order of their timestamps, B and C
    starting no session, the default retrieval of an SQL store with a domain
    replays [SessionStarted, B, C], the events from the latest session start
    on, and the full retrieval replays [A, SessionStarted, B, C]. *)
Theorem session_window (self : SQLTrackerStore.t) (w : World) (sid : string)
    (A B C : Event) (ts : Z) :
  implements_order_by (SQLTrackerStore.engine self) ->
  legacy self = false ->
  is_Some (domain (SQLTrackerStore.attrs self)) ->
  is_session_start B = false ->
  is_session_start C = false ->
  holds self sid [A; SessionStarted.new ts; B; C] ->
  exists tr tr_full,
    retrieve sid self w = (Returns (Some tr), self, w) /\
    DialogueStateTracker.events tr = [SessionStarted.new ts; B; C] /\
    retrieve_full_tracker sid self w = (Returns (Some tr_full), self, w) /\
    DialogueStateTracker.events tr_full = [A; SessionStarted.new ts; B; C].
Proof.
  intros He Hl [d Hd] HB HC Hh.
  change (retrieve sid self w) with (SQLTrackerStore.retrieve sid self w).
  change (retrieve_full_tracker sid self w)
    with (SQLTrackerStore.retrieve_full_tracker sid self w).
  rewrite retrieve_read, retrieve_full_read.
  rewrite (read_visible self sid _ He Hh), (read_full self sid _ He Hh).
  unfold visible. rewrite Hl, Hd.
  assert (active_session [A; SessionStarted.new ts; B; C]
          = [SessionStarted.new ts; B; C]) as ->.
  { cbn. by rewrite HB, HC. }
  unfold replayed. do 2 eexists. repeat split; reflexivity.
Qed.

Lemma session_window_witness :
  let A := ActionExecuted "utter_greet" 1 in
  let B := UserUttered (Some "ask_weather") 3 in
  let C := ActionExecuted "utter_weather" 4 in
  exists self w tr tr_full,
    retrieve "u1" self w = (Returns (Some tr), self, w) /\
    DialogueStateTracker.events tr = [SessionStarted.new 2; B; C] /\
    retrieve_full_tracker "u1" self w = (Returns (Some tr_full), self, w) /\
    DialogueStateTracker.events tr_full = [A; SessionStarted.new 2; B; C].
Proof.
  intros A B C.
  pose (tr := DialogueStateTracker.mk "u1" None None [A; SessionStarted.new 2; B; C]).
  pose (self := empty_sql_store merge_sort_engine None).
  pose (w := quiet_world steady_clock).
  pose proof (save_spec tr self w) as Hsave.
  set (self' := SQLTrackerStore.mk _ _ _) in Hsave.
  set (w' := ticks _ _) in Hsave.
  destruct (holds_fresh self w "u1" eq_refl) as [Hh Ha].
  destruct (save_holds tr self self' w w' [] merge_sort_engine_ok
              steady_clock_increasing Hh Ha Hsave) as (Hh' & _).
  exists self', w'.
  apply (session_window self' w' "u1" A B C 2).
  - apply merge_sort_engine_ok.
  - reflexivity.
  - by eexists.
  - reflexivity.
  - reflexivity.
  - exact Hh'.
Defined.

(** ** C3: saving twice *)

Lemma query_rows (self : SQLTrackerStore.t) sid all_sessions :
  implements_order_by (SQLTrackerStore.engine self) ->
  SQLTrackerStore._event_query self sid all_sessions
  ≡ₚ (if all_sessions then conversation sid (SQLTrackerStore.table self)
      else window (conversation sid (SQLTrackerStore.table self))).
Proof.
  intros He. unfold SQLTrackerStore._event_query.
  destruct (He (if negb all_sessions
                then filter (fun r => SQLTrackerStore.since
                       (SQLTrackerStore.max_timestamp
                          (filter (fun r => SQLEvent.sender_id r = sid /\
                                     SQLEvent.type_name r = SessionStarted.type_name)
                                  (SQLTrackerStore.table self))) r)
                       (filter (fun r => SQLEvent.sender_id r = sid)
                               (SQLTrackerStore.table self))
                else filter (fun r => SQLEvent.sender_id r = sid)
                            (SQLTrackerStore.table self))) as [Hp _].
  cbn zeta. rewrite Hp. destruct all_sessions; cbn [negb]; [done|].
  by rewrite session_start_rows.
Qed.

(** The rows of a tracker that lies within one session are all in the
    window, as long as the clock does not go back. *)
Lemma window_single_session sid evs clock c n :
  monotone clock ->
  Forall (fun e => is_session_start e = false) (tail evs) ->
  window (stamped sid evs clock c n) = stamped sid evs clock c n.
Proof.
  intros Hmono Htail. destruct evs as [|e rest]; [done|].
  cbn [tail stamped] in *. unfold window.
  assert (filter starts_session (stamped sid rest clock (S c) (S n)) = []) as Hnone.
  { apply filter_none.
    pose proof (stamped_encodes sid rest clock (S c) (S n)) as Henc.
    induction Henc as [|r e' rows evs Hre _ IH]; [constructor|].
    inversion Htail; subst. constructor; [|auto].
    rewrite (encodes_session_start _ _ _ Hre). congruence. }
  apply filter_all. rewrite filter_cons, Hnone.
  destruct (decide (starts_session (row_of sid e (clock c) (S n)))); [|by apply Forall_forall].
  cbn [SQLTrackerStore.max_timestamp foldr SQLTrackerStore.since row_of SQLEvent.timestamp].
  constructor.
  - cbn. rewrite bool_decide_spec. lia.
  - eapply Forall_impl; [apply stamped_timestamps|].
    cbn. intros r (k & Hk & ->). rewrite bool_decide_spec. apply Hmono. lia.
Qed.

Lemma max_timestamp_elem rows t :
  SQLTrackerStore.max_timestamp rows = Some t ->
  exists r, r ∈ rows /\ SQLEvent.timestamp r = t.
Proof.
  revert t. induction rows as [|r rows IH]; intros t; [done|].
  cbn [SQLTrackerStore.max_timestamp foldr].
  fold (SQLTrackerStore.max_timestamp rows).
  destruct (SQLTrackerStore.max_timestamp rows) as [m|].
  - intros [= <-]. destruct (Z.max_spec (SQLEvent.timestamp r) m) as [[_ ->]|[_ ->]].
    + destruct (IH m eq_refl) as (r' & Hin & Hr'). exists r'. split; [by right|done].
    + exists r. split; [by left|done].
  - intros [= <-]. exists r. split; [by left|done].
Qed.

Lemma window_nil rows : window rows = [] -> rows = [].
Proof.
  unfold window.
  destruct (SQLTrackerStore.max_timestamp (filter starts_session rows)) as [t|] eqn:E.
  - destruct (max_timestamp_elem _ _ E) as (r & [_ Hin]%list_elem_of_filter & Hr).
    intros Hnil. exfalso.
    assert (r ∈ filter (fun r => SQLTrackerStore.since (Some t) r) rows) as Hw.
    { apply list_elem_of_filter. split; [|done]. cbn. rewrite bool_decide_spec. lia. }
    rewrite Hnil in Hw. by apply elem_of_nil in Hw.
  - intros Hnil. rewrite <- Hnil. symmetry. by apply filter_all, Forall_forall.
Qed.

(** Rows that start no session and are stamped no earlier than the rows
    before them extend the window. *)
Lemma window_app rows new :
  Forall (fun r => ~ starts_session r) new ->
  (forall r' r, r' ∈ rows -> r ∈ new -> timestamp_le r' r) ->
  window (rows ++ new) = window rows ++ new.
Proof.
  intros Hno Hle. unfold window.
  rewrite (filter_app starts_session), (filter_none starts_session new Hno), app_nil_r.
  rewrite filter_app. f_equal. apply filter_all, Forall_forall. intros r Hr.
  destruct (SQLTrackerStore.max_timestamp (filter starts_session rows)) as [t|] eqn:E;
    [|done].
  destruct (max_timestamp_elem _ _ E) as (r' & [_ Hin]%list_elem_of_filter & Hr').
  cbn. rewrite bool_decide_spec. specialize (Hle r' r Hin Hr).
  unfold timestamp_le in Hle. lia.
Qed.

Lemma stamped_no_session_start sid evs clock c n :
  Forall (fun e => is_session_start e = false) evs ->
  Forall (fun r => ~ starts_session r) (stamped sid evs clock c n).
Proof.
  intros Hno. pose proof (stamped_encodes sid evs clock c n) as Henc.
  induction Henc as [|r e rows evs' Hre _ IH]; [constructor|].
  inversion Hno; subst. constructor; [|auto].
  rewrite (encodes_session_start _ _ _ Hre). congruence.
Qed.

Lemma drop_S_tail {A} (l : list A) n : drop (S n) l = drop n (tail l).
Proof. destruct l; [cbn [tail]; by rewrite !drop_nil|done]. Qed.

Lemma stamped_length sid evs clock c n : length (stamped sid evs clock c n) = length evs.
Proof. eapply Forall2_length, stamped_encodes. Qed.

(** After [save], the store counts at least as many rows of the
    conversation as the tracker has events, when the tracker lies within one
    session or the store counts all sessions. *)
Lemma count_after_save tr (self : SQLTrackerStore.t) w :
  let sid := DialogueStateTracker.sender_id tr in
  let self1 := (SQLTrackerStore.save tr self w).1.2 in
  implements_order_by (SQLTrackerStore.engine self) ->
  monotone (wall_clock w) ->
  clock_not_behind self w sid ->
  legacy self = true \/
  Forall (fun e => is_session_start e = false)
         (tail (DialogueStateTracker.events tr)) ->
  length (DialogueStateTracker.events tr)
  <= length (SQLTrackerStore._event_query self1 sid (legacy self1)).
Proof.
  intros sid self1 He Hmono Hbehind Hone. subst self1 sid. rewrite save_spec.
  cbn [fst snd].
  set (evs := DialogueStateTracker.events tr).
  set (self1 := SQLTrackerStore.mk _ _ _).
  rewrite (Permutation_length (query_rows self1 (DialogueStateTracker.sender_id tr) (legacy self1) He)).
  change (legacy self1) with (legacy self).
  subst self1. cbn [SQLTrackerStore.table].
  rewrite conversation_app, stamped_conversation.
  set (conv := conversation (DialogueStateTracker.sender_id tr) (SQLTrackerStore.table self)).
  assert (length (delta self tr)
          = length evs - length (if legacy self then conv else window conv)) as Hdelta.
  { unfold delta. rewrite length_drop.
    by rewrite (Permutation_length (query_rows self (DialogueStateTracker.sender_id tr) (legacy self) He)). }
  set (new := stamped (DialogueStateTracker.sender_id tr) (delta self tr) (wall_clock w) (clock_reads w)
                (length (SQLTrackerStore.table self))).
  assert (length new = length (delta self tr)) as Hnew by apply stamped_length.
  destruct (legacy self) eqn:Hl.
  { rewrite length_app. lia. }
  destruct Hone as [?|Hone]; [done|].
  destruct (window conv) as [|r0 rest] eqn:Hw.
  - apply window_nil in Hw. rewrite Hw, app_nil_l.
    assert (delta self tr = evs) as Hd.
    { unfold delta.
      rewrite (Permutation_length (query_rows self (DialogueStateTracker.sender_id tr) (legacy self) He)), Hl.
      fold conv. by rewrite Hw. }
    subst new. rewrite Hd, window_single_session by done.
    by rewrite stamped_length.
  - rewrite window_app.
    + rewrite Hw, length_app. cbn [length] in *. lia.
    + apply stamped_no_session_start. unfold delta.
      rewrite (Permutation_length (query_rows self (DialogueStateTracker.sender_id tr) (legacy self) He)), Hl.
      fold conv. rewrite Hw. cbn [length]. rewrite drop_S_tail.
      by apply Forall_drop.
    + intros r' r Hr' Hr. unfold timestamp_le.
      unfold clock_not_behind in Hbehind. rewrite Forall_forall in Hbehind.
      specialize (Hbehind r' Hr').
      pose proof (stamped_timestamps (DialogueStateTracker.sender_id tr) (delta self tr) (wall_clock w) (clock_reads w)
                    (length (SQLTrackerStore.table self))) as Hts.
      rewrite Forall_forall in Hts. destruct (Hts r Hr) as (k & Hk & ->).
      pose proof (Hmono (clock_reads w) k). lia.
Qed.

(** C3, on the code: a tracker whose events span two sessions is saved
    twice to an SQL store, in a process that asks for no schema.  Both saves
    return.  After the first the table holds the three events;
    [_additional_events], which is to return the events "which aren't
    currently stored", then returns the last of them, and the second save
    writes it a second time: four rows for three events. *)
Lemma second_save_duplicates_rows :
  let _ := plain_imports in
  let bye := ActionExecuted "utter_bye" 3 in
  let tr := DialogueStateTracker.mk "u1" None None
              [ActionExecuted "utter_greet" 1; SessionStarted.new 2; bye] in
  let self := Scoped.mk (empty_sql_store merge_sort_engine None)
                (postgresql_backend ∅ ["public"]) in
  let '(r1, self1, w1) := save tr self (quiet_world steady_clock) in
  let '(r2, self2, _) := save tr self1 w1 in
  r1 = Returns tt /\ r2 = Returns tt /\
  length (SQLTrackerStore.table (Scoped.store self1)) = 3%nat /\
  (Scoped.session_scope (SQLTrackerStore._additional_events tr) self1 w1).1.1
  = Returns [bye] /\
  length (SQLTrackerStore.table (Scoped.store self2)) = 4%nat /\
  SQLEvent.action_name <$> SQLTrackerStore.table (Scoped.store self2)
  = [Some "utter_greet"; None; Some "utter_bye"; Some "utter_bye"].
Proof. cbn zeta. by vm_compute. Qed.

(** Where saving twice changes nothing: a second [save] of an unchanged
    tracker leaves the in-memory store, and what was published, as the first
    [save] left them.  It leaves an SQL store as the first [save] left it,
    whatever rows the store held before, when the clock does not go back nor
    lie behind the stamps stored for the conversation, and either the
    tracker's events lie within one session (no session start after the
    first event) or the store counts all sessions. *)
Theorem save_twice (tr : Tracker) :
  let sid := DialogueStateTracker.sender_id tr in
  (forall (self self1 : InMemoryTrackerStore.t) w w1,
      save tr self w = (Returns tt, self1, w1) ->
      save tr self1 w1 = (Returns tt, self1, w1)) /\
  (forall (self self1 : SQLTrackerStore.t) w w1,
      implements_order_by (SQLTrackerStore.engine self) ->
      monotone (wall_clock w) ->
      clock_not_behind self w sid ->
      legacy self = true \/
      Forall (fun e => is_session_start e = false)
             (tail (DialogueStateTracker.events tr)) ->
      save tr self w = (Returns tt, self1, w1) ->
      exists w2, save tr self1 w1 = (Returns tt, self1, w2)).
Proof.
  intros sid. subst sid. split.
  - intros self self1 w w1 Hsave.
    pose proof (save_returns _ _ _ _ _ Hsave) as ->.
    change (save tr (saved tr self) w1)
      with (InMemoryTrackerStore.save tr (saved tr self) w1).
    destruct (event_broker (InMemoryTrackerStore.attrs self)) as [broker|] eqn:E.
    + erewrite save_with_broker; [|exact E|apply retrieve_saved].
      cbn [from_option restored DialogueStateTracker.events].
      by rewrite drop_all, saved_saved.
    + rewrite save_without_broker by done. by rewrite saved_saved.
  - intros self self1 w w1 He Hmono Hbehind Hone Hsave.
    pose proof (count_after_save tr self w He Hmono Hbehind Hone) as Hcount.
    change (save tr self w) with (SQLTrackerStore.save tr self w) in Hsave.
    rewrite Hsave in Hcount. cbn [fst snd] in Hcount.
    change (save tr self1 w1) with (SQLTrackerStore.save tr self1 w1).
    rewrite save_spec. eexists.
    assert (delta self1 tr = []) as -> by (by apply drop_ge).
    cbn [stamped]. rewrite app_nil_r. by destruct self1.
Qed.

Lemma save_twice_witness :
  let tr := DialogueStateTracker.mk "u1" None None
              [SessionStarted.new 2; ActionExecuted "utter_greet" 3] in
  save tr (saved tr (empty_memory_store None (Some "pika")))
       (publish_all "pika" "u1" (DialogueStateTracker.events tr)
          (quiet_world steady_clock))
  = (Returns tt, saved tr (empty_memory_store None (Some "pika")),
     publish_all "pika" "u1" (DialogueStateTracker.events tr)
       (quiet_world steady_clock)) /\
  exists self1 w1 w2,
    length (SQLTrackerStore.table self1) = 2%nat /\
    save tr self1 w1 = (Returns tt, self1, w2).
Proof.
  intros tr. destruct (save_twice tr) as [Hmem Hsql]. split.
  - apply (Hmem (empty_memory_store None (Some "pika")) _
             (quiet_world steady_clock) _).
    reflexivity.
  - pose (self := empty_sql_store merge_sort_engine (Some "pika")).
    pose (w := quiet_world steady_clock).
    pose proof (save_spec tr self w) as Hsave.
    set (self1 := SQLTrackerStore.mk _ _ _) in Hsave.
    set (w1 := ticks _ _) in Hsave.
    destruct (Hsql self self1 w w1) as [w2 Hw2].
    + apply merge_sort_engine_ok.
    + apply increasing_monotone, steady_clock_increasing.
    + constructor.
    + right. repeat constructor.
    + exact Hsave.
    + exists self1, w1, w2. split; [reflexivity|exact Hw2].
Defined.

(** ** C4: streaming to the broker *)

Lemma body_of_merged sid (e : Event) :
  body_of sid e = ("sender_id", JStr sid) :: Event.as_dict e.
Proof. by destruct e as [ty ts [n|] [i|]]. Qed.

Lemma published_ticks k w : published (ticks k w) = published w.
Proof. done. Qed.

(** C4, on the code: a tracker whose events span two sessions is saved
    to an SQL store with a broker, in a process that asks for no schema; its
    three events are published.  Three rows are then stored for the
    conversation, but [number_of_existing_events], which is to "return
    number of stored events for a given sender id", returns two; saved a
    second time with nothing appended, the tracker has its last event
    published again. *)
Lemma second_save_publishes_again :
  let _ := plain_imports in
  let bye := ActionExecuted "utter_bye" 3 in
  let tr := DialogueStateTracker.mk "u1" None None
              [ActionExecuted "utter_greet" 1; SessionStarted.new 2; bye] in
  let self := Scoped.mk (empty_sql_store merge_sort_engine (Some "pika"))
                (postgresql_backend ∅ ["public"]) in
  let '(r1, self1, w1) := save tr self (quiet_world steady_clock) in
  let '(r2, _, w2) := save tr self1 w1 in
  r1 = Returns tt /\ r2 = Returns tt /\
  published w1
  = (fun e => ("pika", body_of "u1" e)) <$> DialogueStateTracker.events tr /\
  length (conversation "u1" (SQLTrackerStore.table (Scoped.store self1))) = 3%nat /\
  (number_of_existing_events retrieve "u1" self1 w1).1.1 = Returns 2%nat /\
  published w2 = published w1 ++ [("pika", body_of "u1" bye)].
Proof. cbn zeta. by vm_compute. Qed.

(** Where streaming is exact: when the tracker consists of the events
    that [retrieve] returns for the conversation (none, when it returns
    none) followed by new ones, [save] with a broker set publishes exactly
    the new ones, in their order, each as the event's fields under the
    conversation id. *)
Theorem save_streams_new_events (tr : Tracker) (broker : EventBroker)
    (old : option Tracker) (new : list Event) :
  let sid := DialogueStateTracker.sender_id tr in
  DialogueStateTracker.events tr
  = from_option DialogueStateTracker.events [] old ++ new ->
  (forall (self : InMemoryTrackerStore.t) w w1,
      event_broker (InMemoryTrackerStore.attrs self) = Some broker ->
      retrieve sid self w = (Returns old, self, w1) ->
      exists self' w',
        save tr self w = (Returns tt, self', w') /\
        published w'
        = published w
          ++ ((fun e => (broker, ("sender_id", JStr sid) :: Event.as_dict e))
                <$> new)) /\
  (forall (self : SQLTrackerStore.t) w w1,
      event_broker (SQLTrackerStore.attrs self) = Some broker ->
      retrieve sid self w = (Returns old, self, w1) ->
      exists self' w',
        save tr self w = (Returns tt, self', w') /\
        published w'
        = published w
          ++ ((fun e => (broker, ("sender_id", JStr sid) :: Event.as_dict e))
                <$> new)).
Proof.
  intros sid0 Hev. subst sid0.
  assert (drop (from_option (fun o => length (DialogueStateTracker.events o)) 0%nat old)
               (DialogueStateTracker.events tr) = new) as Hdrop.
  { rewrite Hev. destruct old as [o|]; cbn [from_option]; [|done].
    apply drop_app_length. }
  assert ((fun e => (broker, body_of (DialogueStateTracker.sender_id tr) e)) <$> new
          = (fun e => (broker, ("sender_id", JStr (DialogueStateTracker.sender_id tr))
                                 :: Event.as_dict e)) <$> new)
    as Hbody.
  { apply list_fmap_ext. intros _ e _. by rewrite body_of_merged. }
  split.
  - intros self w w1 Hb Hr.
    change (save tr self w) with (InMemoryTrackerStore.save tr self w).
    erewrite save_with_broker by done. do 2 eexists. split; [done|].
    rewrite published_publish_all, Hdrop, Hbody.
    by rewrite (retrieve_published _ _ _ _ _ _ Hr).
  - intros self w w1 Hb.
    change (retrieve (DialogueStateTracker.sender_id tr) self w)
      with (SQLTrackerStore.retrieve (DialogueStateTracker.sender_id tr) self w).
    change (save tr self w) with (SQLTrackerStore.save tr self w).
    rewrite retrieve_read, save_spec. intros [= <- <-].
    do 2 eexists. split; [done|].
    rewrite published_ticks. unfold after_streaming, streamed.
    by rewrite Hb, published_publish_all, Hdrop, Hbody.
Qed.

Lemma save_streams_new_events_witness :
  let listen := ActionExecuted ACTION_LISTEN_NAME 1 in
  let greet := ActionExecuted "utter_greet" 2 in
  let old := DialogueStateTracker.mk "u1" None None [listen] in
  let tr := DialogueStateTracker.mk "u1" None None [listen; greet] in
  (exists self' w',
      save tr (saved old (empty_memory_store None (Some "pika")))
           (quiet_world steady_clock) = (Returns tt, self', w') /\
      published w'
      = [("pika", ("sender_id", JStr "u1") :: Event.as_dict greet)]) /\
  (exists self' w',
      save tr (empty_sql_store merge_sort_engine (Some "pika"))
           (quiet_world steady_clock) = (Returns tt, self', w') /\
      published w'
      = [("pika", ("sender_id", JStr "u1") :: Event.as_dict listen);
         ("pika", ("sender_id", JStr "u1") :: Event.as_dict greet)]).
Proof.
  intros listen greet old tr. split.
  - exact (proj1 (save_streams_new_events tr "pika" (Some old) [greet] eq_refl)
             (saved old (empty_memory_store None (Some "pika")))
             (quiet_world steady_clock) (quiet_world steady_clock)
             eq_refl eq_refl).
  - exact (proj2 (save_streams_new_events tr "pika" None [listen; greet] eq_refl)
             (empty_sql_store merge_sort_engine (Some "pika"))
             (quiet_world steady_clock) (quiet_world steady_clock)
             eq_refl eq_refl).
Defined.

(** ** C5: absence *)

Lemma read_without_rows (self : SQLTrackerStore.t) sid all_sessions :
  implements_order_by (SQLTrackerStore.engine self) ->
  conversation sid (SQLTrackerStore.table self) = [] ->
  read self sid all_sessions = None.
Proof.
  intros He Hfresh. unfold read.
  pose proof (query_rows self sid all_sessions He) as Hp.
  rewrite Hfresh in Hp.
  assert (SQLTrackerStore._event_query self sid all_sessions = []) as ->.
  { apply Permutation_nil_r. by destruct all_sessions. }
  by destruct (domain (SQLTrackerStore.attrs self)).
Qed.

Lemma read_without_domain (self : SQLTrackerStore.t) sid all_sessions :
  domain (SQLTrackerStore.attrs self) = None -> read self sid all_sessions = None.
Proof. intros E. unfold read. by rewrite E. Qed.

(** C5, as stated, fails: an in-memory store without a domain returns the
    tracker it holds for a conversation. *)
Lemma memory_store_retrieves_without_domain :
  let tr := DialogueStateTracker.mk "u1" None None
              [ActionExecuted ACTION_LISTEN_NAME 1] in
  let self := saved tr (empty_memory_store None None) in
  let w := quiet_world steady_clock in
  domain (InMemoryTrackerStore.attrs self) = None /\
  InMemoryTrackerStore.retrieve "u1" self w = (Returns (Some tr), self, w).
Proof. split; reflexivity. Qed.

(** C5, amended: [retrieve] returns none, raising nothing and leaving the
    stored conversations as they are, for a conversation the in-memory store
    has no entry of and, when the schema check of its session passes, for a
    conversation the SQL store has no row of; when that check passes, the
    SQL store also returns none for every conversation while it has no
    domain.  When the environment asks for a schema that the PostgreSQL
    database does not have, [retrieve] of the SQL store returns nothing: it
    ends in the exit of the interpreter, with the message that names the
    schema.  The in-memory store returns the tracker of a stored log whether
    it has a domain or not. *)
Theorem retrieve_absent_or_not `{Imports} (sid : string) :
  (forall (self : InMemoryTrackerStore.t) w,
      InMemoryTrackerStore.store self !! sid = None ->
      retrieve sid self w = (Returns None, self, w)) /\
  (forall (self : Scoped.t) w,
      Scoped.ensure_schema_exists (Scoped.backend self) = Returns tt ->
      implements_order_by (SQLTrackerStore.engine (Scoped.store self)) ->
      conversation sid (SQLTrackerStore.table (Scoped.store self)) = [] ->
      retrieve sid self w
      = (Returns None,
         Scoped.mk (Scoped.store self) (after_sessions 1 [] (Scoped.backend self)),
         w)) /\
  (forall (self : Scoped.t) w,
      Scoped.ensure_schema_exists (Scoped.backend self) = Returns tt ->
      domain (SQLTrackerStore.attrs (Scoped.store self)) = None ->
      retrieve sid self w
      = (Returns None,
         Scoped.mk (Scoped.store self) (after_sessions 1 [] (Scoped.backend self)),
         w)) /\
  (forall (self : Scoped.t) w name,
      environ (Scoped.backend self) !! POSTGRESQL_SCHEMA = Some name ->
      name <> EmptyString ->
      is_postgresql_url (bind_url (Scoped.backend self)) = true ->
      name ∉ schemata (Scoped.backend self) ->
      retrieve sid self w
      = (Raises SystemExit,
         Scoped.mk (Scoped.store self)
           (after_sessions 1 [Scoped.schema_not_found (ValueError name)]
              (Scoped.backend self)),
         w)) /\
  (forall (self : Scoped.t),
      Scoped.ensure_schema_exists (Scoped.backend self) = Returns tt \/
      exists name,
        environ (Scoped.backend self) !! POSTGRESQL_SCHEMA = Some name /\
        name <> EmptyString /\
        is_postgresql_url (bind_url (Scoped.backend self)) = true /\
        name ∉ schemata (Scoped.backend self)) /\
  (forall (self : InMemoryTrackerStore.t) w tr,
      InMemoryTrackerStore.store self !! sid = Some (Str (serialise_tracker tr)) ->
      retrieve sid self w
      = (Returns (Some (DialogueStateTracker.mk sid
                          (slots <$> domain (InMemoryTrackerStore.attrs self))
                          (max_event_history (InMemoryTrackerStore.attrs self))
                          (DialogueStateTracker.events tr))),
         self, w)).
Proof.
  split; [|split; [|split; [|split; [|split]]]].
  - intros self w E. by apply retrieve_absent.
  - intros self w Hok He Hfresh.
    change (retrieve sid self w) with (Scoped.retrieve sid self w).
    by rewrite scoped_retrieve_ok, read_without_rows.
  - intros self w Hok E.
    change (retrieve sid self w) with (Scoped.retrieve sid self w).
    by rewrite scoped_retrieve_ok, read_without_domain.
  - intros self w name E Hne Hp Hno.
    pose proof (ensure_schema_exists_missing _ name E Hne Hp Hno) as Hmiss.
    change (retrieve sid self w) with (Scoped.retrieve sid self w).
    unfold Scoped.retrieve, Scoped.retrieve_full_tracker, Scoped._retrieve.
    unfold bind, get_self. destruct (truthy _); by apply session_scope_exits.
  - intros self. apply ensure_schema_exists_cases.
  - intros self w tr E. by apply retrieve_serialised.
Qed.

Lemma retrieve_absent_or_not_witness :
  let _ := plain_imports in
  let tr := DialogueStateTracker.mk "u1" None None
              [ActionExecuted ACTION_LISTEN_NAME 1] in
  let w := quiet_world steady_clock in
  let mem := saved tr (empty_memory_store None None) in
  let b := postgresql_backend {["POSTGRESQL_SCHEMA" := "public"]} ["public"] in
  let sql := empty_sql_store merge_sort_engine None in
  let sql_without_domain :=
    SQLTrackerStore.mk (mkAttrs None None None None) merge_sort_engine
      [row_of "u1" (ActionExecuted ACTION_LISTEN_NAME 1) 5 1] in
  let elsewhere := postgresql_backend {["POSTGRESQL_SCHEMA" := "bot"]} ["public"] in
  retrieve "u2" mem w = (Returns None, mem, w) /\
  retrieve "u1" (Scoped.mk sql b) w
  = (Returns None, Scoped.mk sql (after_sessions 1 [] b), w) /\
  retrieve "u1" (Scoped.mk sql_without_domain b) w
  = (Returns None, Scoped.mk sql_without_domain (after_sessions 1 [] b), w) /\
  retrieve "u1" (Scoped.mk sql elsewhere) w
  = (Raises SystemExit,
     Scoped.mk sql
       (after_sessions 1 [Scoped.schema_not_found (ValueError "bot")] elsewhere),
     w) /\
  retrieve "u1" mem w = (Returns (Some tr), mem, w).
Proof.
  intros I tr w mem b sql sql_without_domain elsewhere.
  destruct (retrieve_absent_or_not (H:=I) "u1")
    as (_ & Hsql & Hdom & Hexit & _ & Hmem).
  destruct (retrieve_absent_or_not (H:=I) "u2") as (Habsent & _).
  split; [|split; [|split; [|split]]].
  - apply Habsent. reflexivity.
  - apply (Hsql (Scoped.mk sql b) w);
      [reflexivity|apply merge_sort_engine_ok|reflexivity].
  - apply (Hdom (Scoped.mk sql_without_domain b) w); reflexivity.
  - apply (Hexit (Scoped.mk sql elsewhere) w "bot");
      [reflexivity|discriminate|reflexivity|].
    apply (bool_decide_unpack _). by vm_compute.
  - apply (Hmem mem w tr). reflexivity.
Defined.

(** ** C6: get or create *)

Section GetOrCreateFacts.
Context {S : Type} `{TrackerStore S}.

Lemma create_tracker_spec sid flag (self : S) w :
  create_tracker sid flag self w
  = (tr <- (save (created self sid flag w) ;;; ret (created self sid flag w)) ;;
     ret tr) self (if flag then tick w else w).
Proof.
  unfold create_tracker, init_tracker, created. unfold_monad.
  destruct flag; cbn; by destruct (save _ _ _) as [[[] ?] ?].
Qed.

Lemma get_or_create_tracker_found sid meh flag (self self0 : S) w w0 tr :
  retrieve sid (set_max_event_history meh self) w = (Returns (Some tr), self0, w0) ->
  get_or_create_tracker sid meh flag self w = (Returns tr, self0, w0).
Proof.
  intros Hr. unfold get_or_create_tracker. unfold bind at 1. unfold modify.
  by erewrite bind_returns by exact Hr.
Qed.

Lemma get_or_create_tracker_absent sid meh flag (self self0 self1 : S) w w0 w1 :
  retrieve sid (set_max_event_history meh self) w = (Returns None, self0, w0) ->
  save (created self0 sid flag w0) self0 (if flag then tick w0 else w0)
  = (Returns tt, self1, w1) ->
  get_or_create_tracker sid meh flag self w
  = (Returns (created self0 sid flag w0), self1, w1).
Proof.
  intros Hr Hs. unfold get_or_create_tracker. unfold bind at 1. unfold modify.
  erewrite bind_returns by exact Hr. cbn beta iota. rewrite create_tracker_spec.
  unfold bind, ret. by rewrite Hs.
Qed.
End GetOrCreateFacts.

Lemma visible_created (self : SQLTrackerStore.t) (flag : bool) ts :
  visible self (if flag then [ActionExecuted ACTION_LISTEN_NAME ts] else [])
  = (if flag then [ActionExecuted ACTION_LISTEN_NAME ts] else []).
Proof. unfold visible. by destruct (legacy self), flag. Qed.

Lemma visible_without_session_start (self : SQLTrackerStore.t) evs :
  Forall (fun e => is_session_start e = false) evs -> visible self evs = evs.
Proof.
  intros Hno. unfold visible. destruct (legacy self); [done|].
  apply active_session_whole. destruct evs; [done|]. by inversion Hno.
Qed.

(** C6, as stated, fails: after [get_or_create_tracker] created and saved
    the tracker of a new conversation in an SQL store, in a process that
    asks for no schema, a session start and an action are appended and
    saved; the next [retrieve] replays the events from the session start on,
    without the listening event. *)
Lemma retrieve_after_create_drops_listen :
  let _ := plain_imports in
  let new := [SessionStarted.new 5; ActionExecuted "utter_greet" 6] in
  let listen := ActionExecuted ACTION_LISTEN_NAME 0 in
  let self := Scoped.mk (empty_sql_store merge_sort_engine None)
                (postgresql_backend ∅ ["public"]) in
  let '(r, self1, w1) :=
    get_or_create_tracker "u1" None true self (quiet_world steady_clock) in
  match r with
  | Returns tr =>
      let '(r2, self2, w2) := save (append_events new tr) self1 w1 in
      DialogueStateTracker.events tr = [listen] /\
      r2 = Returns tt /\
      (retrieve "u1" self2 w2).1.1
      = Returns (Some (DialogueStateTracker.mk "u1" (Some (slots some_domain))
                         None new)) /\
      new <> listen :: new
  | Raises _ => False
  end.
Proof. cbn zeta. vm_compute. do 3 (split; [reflexivity|]). discriminate. Qed.

Lemma memory_get_or_create sid meh flag new (self : InMemoryTrackerStore.t) w :
  InMemoryTrackerStore.store self !! sid = None ->
  exists tr self1 w1,
    get_or_create_tracker sid meh flag self w = (Returns tr, self1, w1) /\
    DialogueStateTracker.sender_id tr = sid /\
    DialogueStateTracker.events tr
    = (if flag then [ActionExecuted ACTION_LISTEN_NAME (wall_clock w (clock_reads w))]
       else []) /\
    save tr (set_max_event_history meh self) (if flag then tick w else w)
    = (Returns tt, self1, w1) /\
    exists self2 w2 tr2,
      save (append_events new tr) self1 w1 = (Returns tt, self2, w2) /\
      retrieve sid self2 w2 = (Returns (Some tr2), self2, w2) /\
      DialogueStateTracker.events tr2 = DialogueStateTracker.events tr ++ new.
Proof.
  intros Habsent.
  set (self0 := set_max_event_history meh self).
  set (tr := created self0 sid flag w).
  set (w0 := if flag then tick w else w).
  assert (retrieve sid self0 w = (Returns None, self0, w)) as Hr
    by by apply retrieve_absent.
  assert (forall w', InMemoryTrackerStore.retrieve sid self0 w'
                     = (Returns None, self0, w')) as Hr'
    by (intros w'; by apply retrieve_absent).
  assert (exists w1, save tr self0 w0 = (Returns tt, saved tr self0, w1)) as [w1 Hs].
  { change (save tr self0 w0) with (InMemoryTrackerStore.save tr self0 w0).
    destruct (event_broker (InMemoryTrackerStore.attrs self0)) as [b|] eqn:E.
    - erewrite save_with_broker; [by eexists|exact E|apply Hr'].
    - rewrite save_without_broker by done. by eexists. }
  exists tr, (saved tr self0), w1.
  split; [by apply (get_or_create_tracker_absent sid meh flag self self0 _ w w)|].
  split; [done|]. split; [done|]. split; [done|].
  set (tr' := append_events new tr).
  assert (DialogueStateTracker.sender_id tr' = sid) as Hsid
    by apply append_events_sender_id.
  assert (exists w2, save tr' (saved tr self0) w1
                     = (Returns tt, saved tr' (saved tr self0), w2)) as [w2 Hs2].
  { change (save tr' (saved tr self0) w1)
      with (InMemoryTrackerStore.save tr' (saved tr self0) w1).
    destruct (event_broker (InMemoryTrackerStore.attrs (saved tr self0)))
      as [b|] eqn:E.
    - erewrite save_with_broker; [by eexists|exact E|].
      rewrite Hsid. apply (retrieve_saved tr self0).
    - rewrite save_without_broker by done. by eexists. }
  exists (saved tr' (saved tr self0)), w2. eexists.
  split; [exact Hs2|]. split.
  - rewrite <- Hsid. apply (retrieve_saved tr' (saved tr self0)).
  - cbn. apply append_events_events.
Qed.

Lemma active_session_app_start pre ss post :
  is_session_start ss = true ->
  Forall (fun e => is_session_start e = false) post ->
  active_session (pre ++ ss :: post) = ss :: post.
Proof.
  intros Hss Hpost. induction pre as [|e pre IH].
  - by apply active_session_whole.
  - cbn [app active_session].
    assert (existsb is_session_start (pre ++ ss :: post) = true) as ->; [|done].
    rewrite existsb_app. cbn [existsb]. rewrite Hss. by rewrite orb_true_r.
Qed.

Lemma visible_from_session_start (self : SQLTrackerStore.t) pre ss post :
  legacy self = false ->
  is_session_start ss = true ->
  Forall (fun e => is_session_start e = false) post ->
  visible self (pre ++ ss :: post) = ss :: post.
Proof.
  intros Hl Hss Hpost. unfold visible. rewrite Hl.
  by apply active_session_app_start.
Qed.

Lemma visible_legacy (self : SQLTrackerStore.t) evs :
  legacy self = true -> visible self evs = evs.
Proof. intros Hl. unfold visible. by rewrite Hl. Qed.

(** The table after [get_or_create_tracker] made the tracker of a new
    conversation and the tracker was saved again with the events [new]. *)
Lemma sql_create_then_save sid meh flag new (self : SQLTrackerStore.t) w :
  implements_order_by (SQLTrackerStore.engine self) ->
  increasing (wall_clock w) ->
  conversation sid (SQLTrackerStore.table self) = [] ->
  let self0 := set_max_event_history meh self in
  let tr := created self0 sid flag w in
  exists self1 w1 self2 w2,
    read self0 sid (legacy self0) = None /\
    SQLTrackerStore.save tr self0 (if flag then tick w else w)
    = (Returns tt, self1, w1) /\
    SQLTrackerStore.save (append_events new tr) self1 w1 = (Returns tt, self2, w2) /\
    read self2 sid true
    = replayed (domain (SQLTrackerStore.attrs self)) sid
        (DialogueStateTracker.events tr ++ new) /\
    read self2 sid (legacy self2)
    = replayed (domain (SQLTrackerStore.attrs self)) sid
        (visible self (DialogueStateTracker.events tr ++ new)).
Proof.
  intros He Hinc Hfresh self0 tr.
  set (w0 := if flag then tick w else w).
  assert (wall_clock w0 = wall_clock w) as Hw0 by (subst w0; by destruct flag).
  destruct (SQLTrackerStore.save tr self0 w0) as [[r1 self1] w1] eqn:Hs1.
  assert (r1 = Returns tt) as -> by (rewrite save_spec in Hs1; congruence).
  destruct (holds_fresh self0 w0 sid Hfresh) as [Hh0 Ha0].
  destruct (save_holds tr self0 self1 w0 w1 [] He ltac:(by rewrite Hw0) Hh0 Ha0 Hs1)
    as (Hh1 & Ha1 & Hattrs1 & Heng1 & Hclock1).
  cbn [app DialogueStateTracker.sender_id DialogueStateTracker.events tr created] in Hh1, Ha1.
  assert (visible self0 [] = []) as Hv0
    by (unfold visible; by destruct (legacy self0)).
  rewrite Hv0 in Hh1. cbn [length] in Hh1. rewrite drop_0 in Hh1.
  set (tr' := append_events new tr).
  assert (DialogueStateTracker.sender_id tr' = sid) as Hsid
    by apply append_events_sender_id.
  destruct (SQLTrackerStore.save tr' self1 w1) as [[r2 self2] w2] eqn:Hs2.
  assert (r2 = Returns tt) as -> by (rewrite save_spec in Hs2; congruence).
  assert (visible self1
            (if flag then [ActionExecuted ACTION_LISTEN_NAME (wall_clock w (clock_reads w))]
             else [])
          = (if flag then [ActionExecuted ACTION_LISTEN_NAME (wall_clock w (clock_reads w))]
             else [])) as Hv1 by apply visible_created.
  pose proof (save_holds tr' self1 self2 w1 w2
                (if flag
                 then [ActionExecuted ACTION_LISTEN_NAME (wall_clock w (clock_reads w))]
                 else [])
                ltac:(by rewrite Heng1) ltac:(by rewrite Hclock1, Hw0)) as Hstep.
  cbn zeta in Hstep. rewrite Hsid in Hstep.
  destruct (Hstep Hh1 Ha1 Hs2) as (Hh2 & _ & Hattrs2 & Heng2 & _).
  rewrite Hv1 in Hh2. unfold tr' in Hh2. rewrite append_events_events in Hh2.
  cbn [DialogueStateTracker.events tr created] in Hh2.
  rewrite drop_app_length in Hh2.
  assert (domain (SQLTrackerStore.attrs self2) = domain (SQLTrackerStore.attrs self))
    as Hdom by (by rewrite Hattrs2, Hattrs1).
  assert (implements_order_by (SQLTrackerStore.engine self2)) as He2
    by (by rewrite Heng2, Heng1).
  assert (visible self2 = visible self) as Hvis.
  { unfold visible, legacy. by rewrite Hattrs2, Hattrs1. }
  exists self1, w1, self2, w2.
  split; [by apply read_without_rows|]. split; [done|]. split; [done|].
  cbn [DialogueStateTracker.events tr created]. split.
  - by rewrite (read_full self2 sid _ He2 Hh2), Hdom.
  - by rewrite (read_visible self2 sid _ He2 Hh2), Hdom, Hvis.
Qed.

Lemma scoped_get_or_create `{Imports} sid meh flag new (self : Scoped.t) w :
  Scoped.ensure_schema_exists (Scoped.backend self) = Returns tt ->
  implements_order_by (SQLTrackerStore.engine (Scoped.store self)) ->
  increasing (wall_clock w) ->
  conversation sid (SQLTrackerStore.table (Scoped.store self)) = [] ->
  exists tr self0 self1 w1,
    get_or_create_tracker sid meh flag self w = (Returns tr, self1, w1) /\
    DialogueStateTracker.sender_id tr = sid /\
    DialogueStateTracker.events tr
    = (if flag then [ActionExecuted ACTION_LISTEN_NAME (wall_clock w (clock_reads w))]
       else []) /\
    retrieve sid (set_max_event_history meh self) w = (Returns None, self0, w) /\
    save tr self0 (if flag then tick w else w) = (Returns tt, self1, w1) /\
    exists self2 w2,
      let self3 :=
        Scoped.mk (Scoped.store self2) (after_sessions 1 [] (Scoped.backend self2)) in
      let dom := domain (SQLTrackerStore.attrs (Scoped.store self)) in
      save (append_events new tr) self1 w1 = (Returns tt, self2, w2) /\
      retrieve_full_tracker sid self2 w2
      = (Returns (replayed dom sid (DialogueStateTracker.events tr ++ new)),
         self3, w2) /\
      (legacy (Scoped.store self) = true \/
       Forall (fun e => is_session_start e = false) new ->
       retrieve sid self2 w2
       = (Returns (replayed dom sid (DialogueStateTracker.events tr ++ new)),
          self3, w2)) /\
      (forall pre ss post,
          legacy (Scoped.store self) = false ->
          new = pre ++ ss :: post ->
          is_session_start ss = true ->
          Forall (fun e => is_session_start e = false) post ->
          retrieve sid self2 w2 = (Returns (replayed dom sid (ss :: post)), self3, w2)).
Proof.
  intros Hok He Hinc Hfresh.
  destruct self as [s b]. cbn [Scoped.store Scoped.backend] in *.
  destruct (sql_create_then_save sid meh flag new s w He Hinc Hfresh)
    as (s1 & w1 & s2 & w2 & Hnone & Hs1 & Hs2 & Hfull & Hvis).
  cbn zeta in *.
  set (s0 := set_max_event_history meh s) in *.
  set (tr := created s0 sid flag w) in *.
  set (self0 := Scoped.mk s0 (after_sessions 1 [] b)).
  assert (retrieve sid (set_max_event_history meh (Scoped.mk s b)) w
          = (Returns None, self0, w)) as Hr.
  { change (retrieve sid ?x w) with (Scoped.retrieve sid x w).
    rewrite scoped_retrieve_ok by exact Hok.
    cbn [Scoped.store Scoped.backend set_max_event_history Scoped.has_attrs].
    fold s0. by rewrite Hnone. }
  set (k1 := if event_broker (SQLTrackerStore.attrs s0) is Some _ then 2 else 1).
  set (self1 := Scoped.mk s1 (after_sessions k1 [] (after_sessions 1 [] b))).
  assert (save tr self0 (if flag then tick w else w) = (Returns tt, self1, w1)) as Hsave1.
  { change (save tr self0 ?x) with (Scoped.save tr self0 x).
    rewrite scoped_save_ok by exact Hok.
    cbn [Scoped.store Scoped.backend self0]. by rewrite Hs1. }
  set (k2 := if event_broker (SQLTrackerStore.attrs s1) is Some _ then 2 else 1).
  set (self2 := Scoped.mk s2 (after_sessions k2 [] (Scoped.backend self1))).
  assert (save (append_events new tr) self1 w1 = (Returns tt, self2, w2)) as Hsave2.
  { change (save ?t self1 w1) with (Scoped.save t self1 w1).
    rewrite scoped_save_ok by exact Hok.
    cbn [Scoped.store Scoped.backend self1]. by rewrite Hs2. }
  assert (retrieve sid self2 w2
          = (Returns (replayed (domain (SQLTrackerStore.attrs s)) sid
                        (visible s (DialogueStateTracker.events tr ++ new))),
             Scoped.mk s2 (after_sessions 1 [] (Scoped.backend self2)), w2)) as Hr2.
  { change (retrieve sid self2 w2) with (Scoped.retrieve sid self2 w2).
    rewrite scoped_retrieve_ok by exact Hok.
    cbn [Scoped.store Scoped.backend self2]. by rewrite Hvis. }
  exists tr, self0, self1, w1.
  split.
  { exact (get_or_create_tracker_absent sid meh flag (Scoped.mk s b) self0 self1
             w w w1 Hr Hsave1). }
  split; [done|]. split; [done|]. split; [exact Hr|]. split; [exact Hsave1|].
  exists self2, w2. cbn zeta. split; [exact Hsave2|]. split.
  { change (retrieve_full_tracker sid self2 w2)
      with (Scoped.retrieve_full_tracker sid self2 w2).
    rewrite scoped_retrieve_full_ok by exact Hok.
    cbn [Scoped.store Scoped.backend self2]. by rewrite Hfull. }
  split.
  - intros Hwhole. rewrite Hr2.
    assert (visible s (DialogueStateTracker.events tr ++ new)
            = DialogueStateTracker.events tr ++ new) as ->; [|done].
    destruct Hwhole as [Hl|Hnew]; [by apply visible_legacy|].
    apply visible_without_session_start, Forall_app. split; [|done].
    cbn [DialogueStateTracker.events tr created]. destruct flag; repeat constructor.
  - intros pre ss post Hl -> Hss Hpost. rewrite Hr2.
    by rewrite app_assoc, visible_from_session_start.
Qed.

Lemma scoped_get_or_create_returns `{Imports} sid meh flag (self : Scoped.t) w :
  Scoped.ensure_schema_exists (Scoped.backend self) = Returns tt ->
  exists tr self' w',
    get_or_create_tracker sid meh flag self w = (Returns tr, self', w').
Proof.
  intros Hok.
  set (self0 := set_max_event_history meh self).
  assert (Scoped.ensure_schema_exists (Scoped.backend self0) = Returns tt) as Hok0
    by exact Hok.
  pose proof (scoped_retrieve_ok sid self0 w Hok0) as Hr.
  destruct (read (Scoped.store self0) sid (legacy (Scoped.store self0))) as [tr|].
  - do 3 eexists. apply get_or_create_tracker_found. exact Hr.
  - do 3 eexists.
    eapply (get_or_create_tracker_absent sid meh flag self); [exact Hr|].
    change (save ?t ?x ?y) with (Scoped.save t x y).
    rewrite scoped_save_ok by exact Hok. rewrite save_spec. reflexivity.
Qed.

Lemma scoped_get_or_create_exits `{Imports} sid meh flag (self : Scoped.t) w name :
  environ (Scoped.backend self) !! POSTGRESQL_SCHEMA = Some name ->
  name <> EmptyString ->
  is_postgresql_url (bind_url (Scoped.backend self)) = true ->
  name ∉ schemata (Scoped.backend self) ->
  get_or_create_tracker sid meh flag self w
  = (Raises SystemExit,
     Scoped.mk (set_max_event_history meh (Scoped.store self))
       (after_sessions 1 [Scoped.schema_not_found (ValueError name)]
          (Scoped.backend self)), w).
Proof.
  intros E Hne Hp Hno.
  pose proof (ensure_schema_exists_missing _ name E Hne Hp Hno) as Hmiss.
  unfold get_or_create_tracker. unfold bind at 1. unfold modify.
  assert (Scoped.ensure_schema_exists
            (Scoped.backend (set_max_event_history meh self))
          = Raises (ValueError name)) as Hmiss' by exact Hmiss.
  erewrite bind_raises; [reflexivity|].
  change (retrieve sid) with (Scoped.retrieve sid).
  unfold Scoped.retrieve, Scoped.retrieve_full_tracker, Scoped._retrieve.
  unfold bind, get_self.
  destruct (truthy _);
    (etrans; [apply session_scope_exits; exact Hmiss'|reflexivity]).
Qed.

(** C6, amended: [get_or_create_tracker] returns a tracker, never none:
    the one retrieved, or, for a conversation the store holds nothing of, a
    new tracker whose events are the one listening event (no event when
    [append_action_listen] is false), which it has saved.  When events are
    then appended to that tracker and it is saved again, the in-memory store
    retrieves a tracker with the listening event followed by the appended
    events.  The SQL store, when the schema check of its sessions passes and
    it stamps rows from a strictly growing clock, replays these events (with
    a domain, and if there is any event) on [retrieve_full_tracker], and on
    [retrieve] when no session start is among the appended events or the
    store reads all sessions; when it reads the latest session only and a
    session start is among the appended events, [retrieve] replays the
    events from the last such session start on.  When the environment asks
    for a schema that the PostgreSQL database does not have,
    [get_or_create_tracker] of the SQL store returns nothing: it ends in the
    exit of the interpreter. *)
Theorem get_or_create_then_retrieve `{Imports} (sid : string) (meh : option nat)
    (flag : bool) (new : list Event) :
  (forall (self : InMemoryTrackerStore.t) w,
      InMemoryTrackerStore.store self !! sid = None ->
      exists tr self1 w1,
        get_or_create_tracker sid meh flag self w = (Returns tr, self1, w1) /\
        DialogueStateTracker.sender_id tr = sid /\
        DialogueStateTracker.events tr
        = (if flag
           then [ActionExecuted ACTION_LISTEN_NAME (wall_clock w (clock_reads w))]
           else []) /\
        save tr (set_max_event_history meh self) (if flag then tick w else w)
        = (Returns tt, self1, w1) /\
        exists self2 w2 tr2,
          save (append_events new tr) self1 w1 = (Returns tt, self2, w2) /\
          retrieve sid self2 w2 = (Returns (Some tr2), self2, w2) /\
          DialogueStateTracker.events tr2 = DialogueStateTracker.events tr ++ new) /\
  (forall (self : Scoped.t) w,
      Scoped.ensure_schema_exists (Scoped.backend self) = Returns tt ->
      implements_order_by (SQLTrackerStore.engine (Scoped.store self)) ->
      increasing (wall_clock w) ->
      conversation sid (SQLTrackerStore.table (Scoped.store self)) = [] ->
      exists tr self0 self1 w1,
        get_or_create_tracker sid meh flag self w = (Returns tr, self1, w1) /\
        DialogueStateTracker.sender_id tr = sid /\
        DialogueStateTracker.events tr
        = (if flag
           then [ActionExecuted ACTION_LISTEN_NAME (wall_clock w (clock_reads w))]
           else []) /\
        retrieve sid (set_max_event_history meh self) w = (Returns None, self0, w) /\
        save tr self0 (if flag then tick w else w) = (Returns tt, self1, w1) /\
        exists self2 w2,
          let self3 :=
            Scoped.mk (Scoped.store self2)
              (after_sessions 1 [] (Scoped.backend self2)) in
          let dom := domain (SQLTrackerStore.attrs (Scoped.store self)) in
          save (append_events new tr) self1 w1 = (Returns tt, self2, w2) /\
          retrieve_full_tracker sid self2 w2
          = (Returns (replayed dom sid (DialogueStateTracker.events tr ++ new)),
             self3, w2) /\
          (legacy (Scoped.store self) = true \/
           Forall (fun e => is_session_start e = false) new ->
           retrieve sid self2 w2
           = (Returns (replayed dom sid (DialogueStateTracker.events tr ++ new)),
              self3, w2)) /\
          (forall pre ss post,
              legacy (Scoped.store self) = false ->
              new = pre ++ ss :: post ->
              is_session_start ss = true ->
              Forall (fun e => is_session_start e = false) post ->
              retrieve sid self2 w2
              = (Returns (replayed dom sid (ss :: post)), self3, w2))) /\
  (forall (self : InMemoryTrackerStore.t) w stored,
      InMemoryTrackerStore.store self !! sid = Some (Str (serialise_tracker stored)) ->
      exists tr,
        get_or_create_tracker sid meh flag self w
        = (Returns tr, set_max_event_history meh self, w) /\
        DialogueStateTracker.events tr = DialogueStateTracker.events stored) /\
  (forall (self : Scoped.t) w,
      Scoped.ensure_schema_exists (Scoped.backend self) = Returns tt ->
      exists tr self' w',
        get_or_create_tracker sid meh flag self w = (Returns tr, self', w')) /\
  (forall (self : Scoped.t) w name,
      environ (Scoped.backend self) !! POSTGRESQL_SCHEMA = Some name ->
      name <> EmptyString ->
      is_postgresql_url (bind_url (Scoped.backend self)) = true ->
      name ∉ schemata (Scoped.backend self) ->
      get_or_create_tracker sid meh flag self w
      = (Raises SystemExit,
         Scoped.mk (set_max_event_history meh (Scoped.store self))
           (after_sessions 1 [Scoped.schema_not_found (ValueError name)]
              (Scoped.backend self)), w)).
Proof.
  split; [|split; [|split; [|split]]].
  - intros self w. apply memory_get_or_create.
  - intros self w. apply scoped_get_or_create.
  - intros self w stored E. eexists. split.
    + apply get_or_create_tracker_found.
      change (retrieve sid ?s w) with (InMemoryTrackerStore.retrieve sid s w).
      by erewrite retrieve_serialised.
    + done.
  - intros self w. apply scoped_get_or_create_returns.
  - intros self w name. apply scoped_get_or_create_exits.
Qed.

Lemma get_or_create_then_retrieve_witness :
  let _ := plain_imports in
  let listen := ActionExecuted ACTION_LISTEN_NAME 0 in
  let greet := ActionExecuted "greet" 9 in
  let start := SessionStarted.new 5 in
  let w := quiet_world steady_clock in
  let sql :=
    Scoped.mk (empty_sql_store merge_sort_engine None)
      (postgresql_backend {["POSTGRESQL_SCHEMA" := "public"]} ["public"]) in
  let all_sessions :=
    Scoped.mk
      (SQLTrackerStore.mk (mkAttrs (Some some_domain) None None (Some true))
         merge_sort_engine [])
      (postgresql_backend ∅ ["public"]) in
  let elsewhere :=
    Scoped.mk (empty_sql_store merge_sort_engine None)
      (postgresql_backend {["POSTGRESQL_SCHEMA" := "bot"]} ["public"]) in
  (exists tr self1 w1 self2 w2 tr2,
      get_or_create_tracker "u1" None true (empty_memory_store None None) w
      = (Returns tr, self1, w1) /\
      DialogueStateTracker.events tr = [listen] /\
      save (append_events [greet] tr) self1 w1 = (Returns tt, self2, w2) /\
      retrieve "u1" self2 w2 = (Returns (Some tr2), self2, w2) /\
      DialogueStateTracker.events tr2 = [listen; greet]) /\
  (exists tr self1 w1 self2 w2 self3,
      get_or_create_tracker "u1" None true sql w = (Returns tr, self1, w1) /\
      DialogueStateTracker.events tr = [listen] /\
      save (append_events [greet] tr) self1 w1 = (Returns tt, self2, w2) /\
      retrieve "u1" self2 w2
      = (Returns (Some (DialogueStateTracker.mk "u1" (Some (slots some_domain)) None
                          [listen; greet])), self3, w2)) /\
  (exists tr self1 w1 self2 w2 self3,
      get_or_create_tracker "u1" None true sql w = (Returns tr, self1, w1) /\
      DialogueStateTracker.events tr = [listen] /\
      save (append_events [greet; start; greet] tr) self1 w1
      = (Returns tt, self2, w2) /\
      retrieve "u1" self2 w2
      = (Returns (Some (DialogueStateTracker.mk "u1" (Some (slots some_domain)) None
                          [start; greet])), self3, w2) /\
      retrieve_full_tracker "u1" self2 w2
      = (Returns (Some (DialogueStateTracker.mk "u1" (Some (slots some_domain)) None
                          [listen; greet; start; greet])), self3, w2)) /\
  (exists tr self1 w1 self2 w2 self3,
      get_or_create_tracker "u1" None true all_sessions w = (Returns tr, self1, w1) /\
      DialogueStateTracker.events tr = [listen] /\
      save (append_events [greet; start; greet] tr) self1 w1
      = (Returns tt, self2, w2) /\
      retrieve "u1" self2 w2
      = (Returns (Some (DialogueStateTracker.mk "u1" (Some (slots some_domain)) None
                          [listen; greet; start; greet])), self3, w2)) /\
  (get_or_create_tracker "u1" None true elsewhere w).1.1 = Raises SystemExit.
Proof.
  intros I listen greet start w sql all_sessions elsewhere.
  destruct (get_or_create_then_retrieve (H:=I) "u1" None true [greet])
    as (Hmem & Hsql & _ & _ & Hexit).
  destruct (get_or_create_then_retrieve (H:=I) "u1" None true [greet; start; greet])
    as (_ & Hsql' & _).
  split; [|split; [|split; [|split]]].
  - destruct (Hmem (empty_memory_store None None) w eq_refl)
      as (tr & self1 & w1 & Hg & _ & Hev & _ & self2 & w2 & tr2 & Hs & Hr & Hev2).
    exists tr, self1, w1, self2, w2, tr2.
    rewrite Hev in Hev2. done.
  - destruct (Hsql sql w eq_refl merge_sort_engine_ok steady_clock_increasing eq_refl)
      as (tr & self0 & self1 & w1 & Hg & _ & Hev & _ & _ & self2 & w2
          & Hs & _ & Hr & _).
    exists tr, self1, w1, self2, w2. eexists.
    rewrite Hev in Hr. split; [done|]. split; [done|]. split; [done|].
    apply Hr. right. repeat constructor.
  - destruct (Hsql' sql w eq_refl merge_sort_engine_ok steady_clock_increasing eq_refl)
      as (tr & self0 & self1 & w1 & Hg & _ & Hev & _ & _ & self2 & w2
          & Hs & Hfull & _ & Hr).
    exists tr, self1, w1, self2, w2. eexists.
    rewrite Hev in Hfull.
    split; [done|]. split; [done|]. split; [done|]. split; [|exact Hfull].
    apply (Hr [greet] start [greet]); [reflexivity..|].
    repeat constructor.
  - destruct (Hsql' all_sessions w eq_refl merge_sort_engine_ok
                steady_clock_increasing eq_refl)
      as (tr & self0 & self1 & w1 & Hg & _ & Hev & _ & _ & self2 & w2
          & Hs & _ & Hr & _).
    exists tr, self1, w1, self2, w2. eexists.
    rewrite Hev in Hr. split; [done|]. split; [done|]. split; [done|].
    apply Hr. left. reflexivity.
  - rewrite (Hexit elsewhere w "bot"); [reflexivity..|discriminate|reflexivity|].
    apply (bool_decide_unpack _). by vm_compute.
Defined.

(** ** C7: the fail-safe wrapper *)

Section FailSafeFacts.
Context {P F : Type} `{TrackerStore P} `{TrackerStore F}.

Abbreviation wrapper := (FailSafeTrackerStore.t P F).

Lemma on_tracker_store_error_spec (fs : wrapper) e w :
  FailSafeTrackerStore.on_tracker_store_error e fs w = (Returns tt, fs, reported fs e w).
Proof.
  unfold FailSafeTrackerStore.on_tracker_store_error, reported. unfold_monad.
  by destruct (FailSafeTrackerStore._on_tracker_store_error fs).
Qed.

Lemma failsafe_retrieve_failed (fs : wrapper) sid w e p w1 :
  retrieve sid (FailSafeTrackerStore._tracker_store fs) w = (Raises e, p, w1) ->
  is_Exception e = true ->
  FailSafeTrackerStore.retrieve sid fs w
  = (Returns None, with_primary p fs, reported fs e w1).
Proof.
  intros Hr He. unfold FailSafeTrackerStore.retrieve, try_except.
  unfold FailSafeTrackerStore.on_primary at 1. rewrite Hr, He.
  erewrite bind_returns by apply on_tracker_store_error_spec. done.
Qed.

Lemma failsafe_keys_failed (fs : wrapper) w e p w1 :
  keys (FailSafeTrackerStore._tracker_store fs) w = (Raises e, p, w1) ->
  is_Exception e = true ->
  FailSafeTrackerStore.keys fs w = (Returns [], with_primary p fs, reported fs e w1).
Proof.
  intros Hr He. unfold FailSafeTrackerStore.keys, try_except.
  unfold FailSafeTrackerStore.on_primary at 1. rewrite Hr, He.
  erewrite bind_returns by apply on_tracker_store_error_spec. done.
Qed.

Lemma failsafe_save_failed (fs : wrapper) tr w e p w1 r fb w2 :
  save tr (FailSafeTrackerStore._tracker_store fs) w = (Raises e, p, w1) ->
  is_Exception e = true ->
  fallback_save tr (the_fallback (with_primary p fs)) (reported fs e w1) = (r, fb, w2) ->
  FailSafeTrackerStore.save tr fs w
  = (r, FailSafeTrackerStore.mk (FailSafeTrackerStore.attrs fs) p (Some fb)
          (FailSafeTrackerStore._on_tracker_store_error fs), w2).
Proof.
  intros Hr He Hfb. unfold FailSafeTrackerStore.save, try_except.
  unfold FailSafeTrackerStore.on_primary at 1. rewrite Hr, He.
  erewrite bind_returns by apply on_tracker_store_error_spec.
  unfold the_fallback, with_primary, fallback_save in Hfb.
  unfold bind, FailSafeTrackerStore.fallback_tracker_store,
    FailSafeTrackerStore.on_fallback.
  unfold reported in *.
  cbn [FailSafeTrackerStore._fallback_tracker_store
       FailSafeTrackerStore._tracker_store FailSafeTrackerStore.attrs
       FailSafeTrackerStore._on_tracker_store_error
       InMemoryTrackerStore.new TrackerStore_init] in *.
  set (w1' := match FailSafeTrackerStore._on_tracker_store_error fs with
              | Some callback => call_back callback e w1
              | None => _
              end) in *.
  destruct (FailSafeTrackerStore._fallback_tracker_store fs) as [[f|m]|].
  - destruct (save tr f w1') as [[r' f'] w']. by injection Hfb as <- <- <-.
  - destruct (InMemoryTrackerStore.save tr m w1') as [[r' m'] w'].
    by injection Hfb as <- <- <-.
  - destruct (InMemoryTrackerStore.save tr _ w1') as [[r' m'] w'].
    by injection Hfb as <- <- <-.
Qed.
End FailSafeFacts.

(** C7, as stated, fails: the primary store is an SQL store in a process
    whose environment asks for a schema that the PostgreSQL database does not
    have, so that [session_scope] ends every operation of it in the exit of
    the interpreter.  The wrapper does not catch the exit: its [retrieve],
    [keys] and [save] end in it, the callback is not invoked, nothing is
    logged and no fallback store is made. *)
Lemma failsafe_exit_propagates :
  let _ := plain_imports in
  let b := postgresql_backend {["POSTGRESQL_SCHEMA" := "bot"]} ["public"] in
  let primary := Scoped.mk (empty_sql_store merge_sort_engine None) b in
  let fs : FailSafeTrackerStore.t Scoped.t InMemoryTrackerStore.t :=
    FailSafeTrackerStore.new primary (Some "alert") None in
  let w := quiet_world steady_clock in
  let tr := DialogueStateTracker.mk "u1" None None
              [ActionExecuted ACTION_LISTEN_NAME 1] in
  (retrieve "u1" primary w).1.1 = Raises SystemExit /\
  (keys primary w).1.1 = Raises SystemExit /\
  (save tr primary w).1.1 = Raises SystemExit /\
  (let '(r, _, w1) := FailSafeTrackerStore.retrieve "u1" fs w in
   r = Raises SystemExit /\ callback_calls w1 = [] /\ error_log w1 = []) /\
  (let '(r, _, w1) := FailSafeTrackerStore.keys fs w in
   r = Raises SystemExit /\ callback_calls w1 = [] /\ error_log w1 = []) /\
  (let '(r, fs1, w1) := FailSafeTrackerStore.save tr fs w in
   r = Raises SystemExit /\ callback_calls w1 = [] /\ error_log w1 = [] /\
   FailSafeTrackerStore._fallback_tracker_store fs1 = None).
Proof. cbn zeta. by vm_compute. Qed.

(** C7, amended: when an operation of the primary store raises an exception
    of the class [Exception], the wrapper calls [on_tracker_store_error]
    once, which invokes the configured callback once with that exception (or
    logs an error when none is configured); [retrieve] then returns none and
    [keys] the empty list, and [save] saves the tracker to the fallback
    store (the in-memory store made on first use, if none was given), ending
    as that save ends: an exception it raises is the exception [save]
    raises.  What the primary store raises outside that class, the exit of
    the interpreter, the wrapper does not catch: [retrieve], [keys] and
    [save] end in it, with no callback, no logged error and no save to the
    fallback store. *)
Theorem failsafe_degrades {P F : Type} `{TrackerStore P} `{TrackerStore F}
    (fs : FailSafeTrackerStore.t P F) (e : PyError) (p : P) (w w1 : World) :
  (is_Exception e = true ->
   (forall sid,
       retrieve sid (FailSafeTrackerStore._tracker_store fs) w = (Raises e, p, w1) ->
       FailSafeTrackerStore.retrieve sid fs w
       = (Returns None, with_primary p fs, reported fs e w1)) /\
   (keys (FailSafeTrackerStore._tracker_store fs) w = (Raises e, p, w1) ->
    FailSafeTrackerStore.keys fs w
    = (Returns [], with_primary p fs, reported fs e w1)) /\
   (forall tr r fb w2,
       save tr (FailSafeTrackerStore._tracker_store fs) w = (Raises e, p, w1) ->
       fallback_save tr (the_fallback (with_primary p fs)) (reported fs e w1)
       = (r, fb, w2) ->
       FailSafeTrackerStore.save tr fs w
       = (r, FailSafeTrackerStore.mk (FailSafeTrackerStore.attrs fs) p (Some fb)
               (FailSafeTrackerStore._on_tracker_store_error fs), w2)) /\
   (forall callback,
       FailSafeTrackerStore._on_tracker_store_error fs = Some callback ->
       callback_calls (reported fs e w1) = callback_calls w1 ++ [(callback, e)] /\
       error_log (reported fs e w1) = error_log w1) /\
   (FailSafeTrackerStore._on_tracker_store_error fs = None ->
    callback_calls (reported fs e w1) = callback_calls w1 /\
    length (error_log (reported fs e w1)) = Datatypes.S (length (error_log w1)))) /\
  (is_Exception e = false ->
   (forall sid,
       retrieve sid (FailSafeTrackerStore._tracker_store fs) w = (Raises e, p, w1) ->
       FailSafeTrackerStore.retrieve sid fs w = (Raises e, with_primary p fs, w1)) /\
   (keys (FailSafeTrackerStore._tracker_store fs) w = (Raises e, p, w1) ->
    FailSafeTrackerStore.keys fs w = (Raises e, with_primary p fs, w1)) /\
   (forall tr,
       save tr (FailSafeTrackerStore._tracker_store fs) w = (Raises e, p, w1) ->
       FailSafeTrackerStore.save tr fs w = (Raises e, with_primary p fs, w1))).
Proof.
  split; intros He.
  - split; [|split; [|split; [|split]]].
    + intros sid Hr. exact (failsafe_retrieve_failed fs sid w e p w1 Hr He).
    + intros Hr. exact (failsafe_keys_failed fs w e p w1 Hr He).
    + intros tr r fb w2 Hr Hfb.
      exact (failsafe_save_failed fs tr w e p w1 r fb w2 Hr He Hfb).
    + intros callback E. unfold reported. by rewrite E.
    + intros E. unfold reported. rewrite E. cbn. split; [done|].
      rewrite length_app. cbn. lia.
  - split; [|split].
    + intros sid Hr. by apply failsafe_not_caught.
    + intros Hr. by apply failsafe_not_caught.
    + intros tr Hr. by apply failsafe_not_caught.
Qed.

Lemma failsafe_degrades_witness :
  let primary := AbstractTrackerStore.mk (mkAttrs (Some some_domain) None None None) in
  let fs : FailSafeTrackerStore.t AbstractTrackerStore.t InMemoryTrackerStore.t :=
    FailSafeTrackerStore.new primary (Some "alert") None in
  let w := quiet_world steady_clock in
  let w' := call_back "alert" NotImplementedError w in
  let tr := DialogueStateTracker.mk "u1" None None
              [ActionExecuted ACTION_LISTEN_NAME 1] in
  let _ := plain_imports in
  let b := postgresql_backend {["POSTGRESQL_SCHEMA" := "bot"]} ["public"] in
  let sql := Scoped.mk (empty_sql_store merge_sort_engine None) b in
  let gone :=
    Scoped.mk (Scoped.store sql)
      (after_sessions 1 [Scoped.schema_not_found (ValueError "bot")] b) in
  let around_sql : FailSafeTrackerStore.t Scoped.t InMemoryTrackerStore.t :=
    FailSafeTrackerStore.new sql (Some "alert") None in
  (FailSafeTrackerStore.retrieve "u1" fs w = (Returns None, fs, w') /\
   FailSafeTrackerStore.keys fs w = (Returns [], fs, w') /\
   FailSafeTrackerStore.save tr fs w
   = (Returns tt,
      FailSafeTrackerStore.mk (FailSafeTrackerStore.attrs fs) primary
        (Some (FailSafeTrackerStore.InMemory
                 (saved tr (empty_memory_store (Some some_domain) None))))
        (Some "alert"), w') /\
   callback_calls w' = [("alert", NotImplementedError)]) /\
  (FailSafeTrackerStore.retrieve "u1" around_sql w
   = (Raises SystemExit, with_primary gone around_sql, w) /\
   FailSafeTrackerStore.keys around_sql w
   = (Raises SystemExit, with_primary gone around_sql, w) /\
   FailSafeTrackerStore.save tr around_sql w
   = (Raises SystemExit, with_primary gone around_sql, w)).
Proof.
  intros primary fs w w' tr I b sql gone around_sql.
  split.
  - destruct (failsafe_degrades fs NotImplementedError primary w w)
      as [Hcaught _].
    destruct (Hcaught eq_refl) as (Hr & Hk & Hs & Hc & _).
    split; [|split; [|split]].
    + apply (Hr "u1"). reflexivity.
    + apply Hk. reflexivity.
    + apply (Hs tr); reflexivity.
    + apply (Hc "alert"). reflexivity.
  - destruct (failsafe_degrades around_sql SystemExit gone w w)
      as [_ Hpassed].
    destruct (Hpassed eq_refl) as (Hr & Hk & Hs).
    split; [|split].
    + apply (Hr "u1"). by vm_compute.
    + apply Hk. by vm_compute.
    + apply (Hs tr). by vm_compute.
Defined.

(** ** C8: decoding the legacy format *)

Lemma from_parameters_error j e :
  Dialogue.from_parameters j = Raises e -> is_UnicodeDecodeError e = false.
Proof.
  unfold Dialogue.from_parameters. repeat case_match; intros; by simplify_eq.
Qed.

(** C8: [deserialise_tracker] decodes the JSON text of a dialogue into the
    tracker of its events and warns of nothing; it decodes the pickled
    dialogue into the same tracker and emits one deprecation warning; and
    whatever it is given and however it ends, it emits that one warning if
    it was given pickled bytes and none otherwise. *)
Theorem legacy_decode {S : Type} `{HasAttrs S} (sid : string) (d : Dialogue)
    (self : S) (w : World) :
  let tr := DialogueStateTracker.mk sid (slots <$> get_domain self)
              (get_max_event_history self) (Dialogue.events d) in
  deserialise_tracker sid (Str (json_dumps (JObj (Dialogue.as_dict d)))) self w
  = (Returns (Some tr), self, w) /\
  deserialise_tracker sid (PickleBytes d) self w
  = (Returns (Some tr), self, warn (pickle_warning sid) w) /\
  forall ser,
    warnings (deserialise_tracker sid ser self w).2
    = warnings w ++ match ser with
                    | PickleBytes _ => [pickle_warning sid]
                    | Str _ => []
                    end.
Proof.
  cbn zeta. split; [|split].
  - unfold deserialise_tracker, init_tracker. unfold_monad.
    cbn [json_loads json_value]. by rewrite dialogue_roundtrip.
  - reflexivity.
  - intros [text|d']; [|reflexivity].
    unfold deserialise_tracker, init_tracker. unfold_monad.
    cbn [json_loads json_value].
    destruct (Dialogue.from_parameters (json_value text)) as [d'|e] eqn:E.
    + cbn. by rewrite app_nil_r.
    + rewrite (from_parameters_error _ _ E). cbn. by rewrite app_nil_r.
Qed.

(** ** C9: the history limit of the store *)

(** The store that [get_or_create_tracker] leaves is the one [retrieve]
    left, or the one left by a [save] that followed it. *)
Lemma get_or_create_tracker_state {S : Type} `{TrackerStore S}
    sid meh flag (self : S) w :
  exists r s0 w0,
    retrieve sid (set_max_event_history meh self) w = (r, s0, w0) /\
    ((get_or_create_tracker sid meh flag self w).1.2 = s0 \/
     exists tr w1, (get_or_create_tracker sid meh flag self w).1.2 = (save tr s0 w1).1.2).
Proof.
  destruct (retrieve sid (set_max_event_history meh self) w) as [[r s0] w0] eqn:Hr.
  exists r, s0, w0. split; [done|].
  destruct r as [[tr|]|e].
  - left. by erewrite get_or_create_tracker_found.
  - right. exists (created s0 sid flag w0), (if flag then tick w0 else w0).
    unfold get_or_create_tracker. unfold bind at 1. unfold modify.
    erewrite bind_returns by exact Hr. cbn beta iota. rewrite create_tracker_spec.
    unfold bind, ret.
    by destruct (save _ s0 _) as [[[] ?] ?].
  - left. unfold get_or_create_tracker. unfold bind at 1. unfold modify.
    by erewrite bind_raises by exact Hr.
Qed.

Lemma memory_save_state tr (self : InMemoryTrackerStore.t) w :
  (InMemoryTrackerStore.save tr self w).1.2 = saved tr self \/
  (InMemoryTrackerStore.save tr self w).1.2 = self.
Proof.
  destruct (event_broker (InMemoryTrackerStore.attrs self)) as [broker|] eqn:E.
  - destruct (InMemoryTrackerStore.retrieve (DialogueStateTracker.sender_id tr) self w)
      as [[[old|e] s1] w1] eqn:Hr.
    + pose proof (retrieve_same_self _ _ _ _ _ _ Hr) as ->.
      left. by erewrite save_with_broker.
    + pose proof (retrieve_same_self _ _ _ _ _ _ Hr) as ->.
      right. unfold InMemoryTrackerStore.save. unfold bind at 1. unfold get_self.
      rewrite E. unfold stream_events, number_of_existing_events.
      unfold bind. by rewrite Hr.
  - left. by rewrite save_without_broker.
Qed.

Lemma memory_get_or_create_attrs sid meh flag (self : InMemoryTrackerStore.t) w :
  InMemoryTrackerStore.attrs (get_or_create_tracker sid meh flag self w).1.2
  = with_max_event_history meh (InMemoryTrackerStore.attrs self).
Proof.
  destruct (get_or_create_tracker_state sid meh flag self w)
    as (r & s0 & w0 & Hr & Hcase).
  apply retrieve_same_self in Hr as ->.
  destruct Hcase as [->|(tr & w1 & ->)]; [done|].
  change (save tr ?s w1) with (InMemoryTrackerStore.save tr s w1).
  by destruct (memory_save_state tr (set_max_event_history meh self) w1) as [->| ->].
Qed.

Lemma sql_get_or_create_attrs sid meh flag (self : SQLTrackerStore.t) w :
  SQLTrackerStore.attrs (get_or_create_tracker sid meh flag self w).1.2
  = with_max_event_history meh (SQLTrackerStore.attrs self).
Proof.
  destruct (get_or_create_tracker_state sid meh flag self w)
    as (r & s0 & w0 & Hr & Hcase).
  change (retrieve sid ?s w) with (SQLTrackerStore.retrieve sid s w) in Hr.
  rewrite retrieve_read in Hr. injection Hr as _ <- _.
  destruct Hcase as [->|(tr & w1 & ->)]; [done|].
  change (save tr ?s w1) with (SQLTrackerStore.save tr s w1).
  by rewrite save_spec.
Qed.

(** C9: whatever it finds, and however it ends, [get_or_create_tracker]
    leaves the store with its argument as [max_event_history] (none by
    default), so that a later call with another value replaces the earlier
    one; every tracker [init_tracker] then makes carries that value, and so
    does the tracker that the call itself retrieved from the in-memory
    store, the attribute being set before the retrieval. *)
Theorem get_or_create_sets_history (sid : string) (meh : option nat) (flag : bool) :
  (forall (self : InMemoryTrackerStore.t) w,
      let self' := (get_or_create_tracker sid meh flag self w).1.2 in
      max_event_history (InMemoryTrackerStore.attrs self') = meh /\
      forall sid' meh' flag' w' sid'' w'',
        let self'' := (get_or_create_tracker sid' meh' flag' self' w').1.2 in
        max_event_history (InMemoryTrackerStore.attrs self'') = meh' /\
        (init_tracker sid'' self'' w'').1.1
        = Returns (DialogueStateTracker.new sid''
                     (slots <$> domain (InMemoryTrackerStore.attrs self)) meh')) /\
  (forall (self : SQLTrackerStore.t) w,
      let self' := (get_or_create_tracker sid meh flag self w).1.2 in
      max_event_history (SQLTrackerStore.attrs self') = meh /\
      forall sid' meh' flag' w' sid'' w'',
        let self'' := (get_or_create_tracker sid' meh' flag' self' w').1.2 in
        max_event_history (SQLTrackerStore.attrs self'') = meh' /\
        (init_tracker sid'' self'' w'').1.1
        = Returns (DialogueStateTracker.new sid''
                     (slots <$> domain (SQLTrackerStore.attrs self)) meh')) /\
  (forall (self : InMemoryTrackerStore.t) w tr,
      InMemoryTrackerStore.store self !! sid = Some (Str (serialise_tracker tr)) ->
      get_or_create_tracker sid meh flag self w
      = (Returns (DialogueStateTracker.mk sid
                    (slots <$> domain (InMemoryTrackerStore.attrs self)) meh
                    (DialogueStateTracker.events tr)),
         set_max_event_history meh self, w)).
Proof.
  split; [|split].
  - intros self w self'. subst self'. rewrite memory_get_or_create_attrs.
    split; [done|]. intros sid' meh' flag' w' sid'' w'' self''. subst self''.
    unfold init_tracker. unfold_monad. cbn [fst snd get_domain get_max_event_history
      InMemoryTrackerStore.has_attrs].
    by rewrite !memory_get_or_create_attrs.
  - intros self w self'. subst self'. rewrite sql_get_or_create_attrs.
    split; [done|]. intros sid' meh' flag' w' sid'' w'' self''. subst self''.
    unfold init_tracker. unfold_monad. cbn [fst snd get_domain get_max_event_history
      SQLTrackerStore.has_attrs].
    by rewrite !sql_get_or_create_attrs.
  - intros self w tr E.
    apply get_or_create_tracker_found.
    change (retrieve sid ?s w) with (InMemoryTrackerStore.retrieve sid s w).
    by erewrite retrieve_serialised.
Qed.

Lemma get_or_create_sets_history_witness :
  let old := DialogueStateTracker.mk "u1" None None
               [ActionExecuted ACTION_LISTEN_NAME 1] in
  let self := saved old (empty_memory_store None None) in
  let w := quiet_world steady_clock in
  get_or_create_tracker "u1" (Some 5%nat) true self w
  = (Returns (DialogueStateTracker.mk "u1" None (Some 5%nat)
                [ActionExecuted ACTION_LISTEN_NAME 1]),
     set_max_event_history (Some 5%nat) self, w).
Proof.
  intros old self w.
  exact (proj2 (proj2 (get_or_create_sets_history "u1" (Some 5%nat) true))
           self w old eq_refl).
Defined.

(** ** C10: what [save] of the in-memory store leaves alone *)

Lemma memory_retrieve_same_entry sid (self self' : InMemoryTrackerStore.t) w :
  InMemoryTrackerStore.attrs self' = InMemoryTrackerStore.attrs self ->
  InMemoryTrackerStore.store self' !! sid = InMemoryTrackerStore.store self !! sid ->
  (InMemoryTrackerStore.retrieve sid self' w).1.1
  = (InMemoryTrackerStore.retrieve sid self w).1.1 /\
  (InMemoryTrackerStore.retrieve sid self' w).2
  = (InMemoryTrackerStore.retrieve sid self w).2.
Proof.
  intros Ha Hs. unfold InMemoryTrackerStore.retrieve. unfold bind, get_self.
  rewrite Hs.
  destruct (InMemoryTrackerStore.store self !! sid) as [[text|d]|]; [| |done].
  - unfold deserialise_tracker, init_tracker. unfold_monad.
    cbn [json_loads json_value get_domain get_max_event_history
         InMemoryTrackerStore.has_attrs]. rewrite Ha.
    by destruct (Dialogue.from_parameters (json_value text)) as [d|[]].
  - unfold deserialise_tracker, init_tracker. unfold_monad.
    cbn [json_loads json_value get_domain get_max_event_history
         InMemoryTrackerStore.has_attrs is_UnicodeDecodeError]. by rewrite Ha.
Qed.

(** C10: [save] of the in-memory store touches at most the entry of the
    tracker's conversation: for every other conversation the stored text is
    the same and [retrieve] returns the same, and [keys] returns the ids it
    returned before, with at most the tracker's conversation added. *)
Theorem memory_save_frame (tr : Tracker) (self : InMemoryTrackerStore.t)
    (w : World) (sid : string) :
  let self' := (save tr self w).1.2 in
  sid <> DialogueStateTracker.sender_id tr ->
  InMemoryTrackerStore.store self' !! sid = InMemoryTrackerStore.store self !! sid /\
  (forall w0,
      (retrieve sid self' w0).1.1 = (retrieve sid self w0).1.1 /\
      (retrieve sid self' w0).2 = (retrieve sid self w0).2) /\
  (forall w0 w1,
      exists ids ids',
        (keys self w0).1.1 = Returns ids /\
        (keys self' w1).1.1 = Returns ids' /\
        (forall k, k ∈ ids -> k ∈ ids') /\
        (forall k, k ∈ ids' -> k ∈ ids \/ k = DialogueStateTracker.sender_id tr)).
Proof.
  intros self' Hne. subst self'.
  change (save tr self w) with (InMemoryTrackerStore.save tr self w).
  assert (InMemoryTrackerStore.attrs (InMemoryTrackerStore.save tr self w).1.2
          = InMemoryTrackerStore.attrs self) as Ha
    by (by destruct (memory_save_state tr self w) as [->| ->]).
  assert (InMemoryTrackerStore.store (InMemoryTrackerStore.save tr self w).1.2 !! sid
          = InMemoryTrackerStore.store self !! sid) as Hs.
  { destruct (memory_save_state tr self w) as [->| ->]; [|done].
    cbn. by rewrite lookup_insert_ne. }
  split; [done|]. split.
  - intros w0. by apply memory_retrieve_same_entry.
  - intros w0 w1. do 2 eexists. split; [reflexivity|]. split; [reflexivity|].
    cbn [fst snd]. setoid_rewrite elem_of_elements.
    destruct (memory_save_state tr self w) as [->| ->]; [|by auto].
    cbn [saved InMemoryTrackerStore.store].
    split; intros k; rewrite dom_insert, elem_of_union, elem_of_singleton; tauto.
Qed.

Lemma memory_save_frame_witness :
  let old := DialogueStateTracker.mk "u2" None None
               [ActionExecuted ACTION_LISTEN_NAME 1] in
  let tr := DialogueStateTracker.mk "u1" None None
              [ActionExecuted ACTION_LISTEN_NAME 2] in
  let self := saved old (empty_memory_store None (Some "pika")) in
  let w := quiet_world steady_clock in
  InMemoryTrackerStore.store (save tr self w).1.2 !! "u2"
  = Some (Str (serialise_tracker old)) /\
  (retrieve "u2" (save tr self w).1.2 w).1.1 = Returns (Some old).
Proof.
  intros old tr self w.
  destruct (memory_save_frame tr self w "u2") as (Hs & Hr & _); [discriminate|].
  split.
  - rewrite Hs. reflexivity.
  - rewrite (proj1 (Hr w)). reflexivity.
Defined.

(** * Further properties of the stores *)

(** ** Whether a conversation exists *)

Lemma query_of_conversation (self : SQLTrackerStore.t) sid all_sessions :
  SQLTrackerStore._event_query self sid all_sessions
  = order_by_timestamp (SQLTrackerStore.engine self)
      (if all_sessions then conversation sid (SQLTrackerStore.table self)
       else window (conversation sid (SQLTrackerStore.table self))).
Proof.
  unfold SQLTrackerStore._event_query. destruct all_sessions; cbn [negb]; [done|].
  by rewrite session_start_rows.
Qed.

Lemma query_nil (self : SQLTrackerStore.t) sid all_sessions :
  implements_order_by (SQLTrackerStore.engine self) ->
  SQLTrackerStore._event_query self sid all_sessions = [] <->
  conversation sid (SQLTrackerStore.table self) = [].
Proof.
  intros He. pose proof (query_rows self sid all_sessions He) as Hp. split.
  - intros E. rewrite E in Hp. symmetry in Hp. apply Permutation_nil_r in Hp.
    destruct all_sessions; [done|]. by apply window_nil.
  - intros E. rewrite E in Hp. apply Permutation_nil_r.
    by destruct all_sessions.
Qed.

Lemma read_is_some (self : SQLTrackerStore.t) sid all_sessions :
  implements_order_by (SQLTrackerStore.engine self) ->
  is_Some (read self sid all_sessions) <->
  is_Some (domain (SQLTrackerStore.attrs self)) /\
  conversation sid (SQLTrackerStore.table self) <> [].
Proof.
  intros He. rewrite <- (query_nil self sid all_sessions He). unfold read.
  destruct (domain (SQLTrackerStore.attrs self)) as [d|].
  - rewrite length_fmap. case_bool_decide as Hlen.
    + split; [|by eauto]. intros _. split; [by eauto|].
      intros E. rewrite E in Hlen. cbn in Hlen. lia.
    + split; [by intros [? [=]]|]. intros [_ Hne]. exfalso. apply Hne.
      destruct (SQLTrackerStore._event_query self sid all_sessions); [done|].
      cbn in Hlen. lia.
  - split; [by intros [? [=]]|]. by intros [[? [=]] _].
Qed.

(** X1: [exists] changes nothing and answers, for the SQL store, whether the
    store has a domain and the conversation has a row, whichever sessions
    the store reads: without a domain no conversation exists.  For the
    in-memory store it answers false for an id without entry and true for an
    id whose entry was written by [save]. *)
Theorem exists_in_stores (sid : string) :
  (forall (self : SQLTrackerStore.t) w,
      implements_order_by (SQLTrackerStore.engine self) ->
      exists found,
        exists_ sid self w = (Returns found, self, w) /\
        (found = true <->
         is_Some (domain (SQLTrackerStore.attrs self)) /\
         conversation sid (SQLTrackerStore.table self) <> [])) /\
  (forall (self : InMemoryTrackerStore.t) w,
      InMemoryTrackerStore.store self !! sid = None ->
      exists_ sid self w = (Returns false, self, w)) /\
  (forall (self : InMemoryTrackerStore.t) w tr,
      InMemoryTrackerStore.store self !! sid = Some (Str (serialise_tracker tr)) ->
      exists_ sid self w = (Returns true, self, w)).
Proof.
  split; [|split].
  - intros self w He. unfold exists_.
    erewrite bind_returns by apply (retrieve_read sid self w).
    unfold ret. eexists. split; [reflexivity|].
    rewrite <- (read_is_some self sid (legacy self) He).
    destruct (read self sid (legacy self)) as [tr|].
    + split; [by eauto|done].
    + split; [done|by intros [? [=]]].
  - intros self w E. unfold exists_.
    by erewrite bind_returns by by apply retrieve_absent.
  - intros self w tr E. unfold exists_.
    by erewrite bind_returns by by apply retrieve_serialised.
Qed.

Lemma exists_in_stores_witness :
  let tr := DialogueStateTracker.mk "u1" None None
              [ActionExecuted ACTION_LISTEN_NAME 1] in
  let mem := saved tr (empty_memory_store None None) in
  let w := quiet_world steady_clock in
  (exists found,
      exists_ "u1" (empty_sql_store merge_sort_engine None) w
      = (Returns found, empty_sql_store merge_sort_engine None, w) /\
      found <> true) /\
  exists_ "u2" mem w = (Returns false, mem, w) /\
  exists_ "u1" mem w = (Returns true, mem, w).
Proof.
  intros tr mem w.
  destruct (exists_in_stores "u1") as (Hsql & _ & Hfound).
  destruct (exists_in_stores "u2") as (_ & Habsent & _).
  split; [|split].
  - destruct (Hsql (empty_sql_store merge_sort_engine None) w merge_sort_engine_ok)
      as (found & Hex & Hiff).
    exists found. split; [exact Hex|].
    intros Hf. apply Hiff in Hf as [_ Hne]. by apply Hne.
  - apply Habsent. reflexivity.
  - apply (Hfound mem w tr). reflexivity.
Defined.

(** ** The session that the SQL store reads back *)

(** X2: when the rows of a conversation hold a log in the order of their
    timestamps, the full retrieval of an SQL store with a domain replays the
    whole log, and the default retrieval replays its latest session: the
    whole log when it has no session start, and else the part that begins
    with the last session start.  The tracker has the requested id, the
    slots of the domain and no history limit.  With the deprecated flag set,
    the default retrieval is the full one. *)
Theorem retrieve_latest_session (self : SQLTrackerStore.t) (w : World)
    (sid : string) (d : Domain) (evs : list Event) :
  implements_order_by (SQLTrackerStore.engine self) ->
  domain (SQLTrackerStore.attrs self) = Some d ->
  holds self sid evs ->
  evs <> [] ->
  exists pre session,
    evs = pre ++ session /\
    ((pre = [] /\ Forall (fun e => is_session_start e = false) session) \/
     (exists ss post,
         session = ss :: post /\ is_session_start ss = true /\
         Forall (fun e => is_session_start e = false) post)) /\
    retrieve_full_tracker sid self w
    = (Returns (Some (DialogueStateTracker.mk sid (Some (slots d)) None evs)),
       self, w) /\
    retrieve sid self w
    = (Returns (Some (DialogueStateTracker.mk sid (Some (slots d)) None
                        (if legacy self then evs else session))),
       self, w).
Proof.
  intros He Hd Hh Hne.
  change (retrieve sid self w) with (SQLTrackerStore.retrieve sid self w).
  change (retrieve_full_tracker sid self w)
    with (SQLTrackerStore.retrieve_full_tracker sid self w).
  rewrite retrieve_read, retrieve_full_read.
  rewrite (read_visible self sid _ He Hh), (read_full self sid _ He Hh).
  rewrite Hd. unfold visible, replayed.
  destruct (active_session_cases evs)
    as [[Hno Hs]|(pre & ss & post & -> & Hss & Hpost & Hs)].
  - exists [], evs. rewrite Hs. split; [done|]. split; [by left|].
    destruct evs; [done|]. by destruct (legacy self).
  - exists pre, (ss :: post). rewrite Hs. split; [done|].
    split; [right; by exists ss, post|].
    split; [by destruct pre|]. by destruct (legacy self), pre.
Qed.

Lemma retrieve_latest_session_witness :
  let A := ActionExecuted "utter_greet" 1 in
  let B := UserUttered (Some "ask_weather") 3 in
  exists self w pre session,
    [A; SessionStarted.new 2; B] = pre ++ session /\
    ((pre = [] /\ Forall (fun e => is_session_start e = false) session) \/
     (exists ss post,
         session = ss :: post /\ is_session_start ss = true /\
         Forall (fun e => is_session_start e = false) post)) /\
    retrieve_full_tracker "u1" self w
    = (Returns (Some (DialogueStateTracker.mk "u1" (Some (slots some_domain)) None
                        [A; SessionStarted.new 2; B])),
       self, w) /\
    retrieve "u1" self w
    = (Returns (Some (DialogueStateTracker.mk "u1" (Some (slots some_domain)) None
                        (if legacy self then [A; SessionStarted.new 2; B]
                         else session))),
       self, w).
Proof.
  intros A B.
  pose (tr := DialogueStateTracker.mk "u1" None None [A; SessionStarted.new 2; B]).
  pose (self := empty_sql_store merge_sort_engine None).
  pose (w := quiet_world steady_clock).
  pose proof (save_spec tr self w) as Hsave.
  set (self' := SQLTrackerStore.mk _ _ _) in Hsave.
  set (w' := ticks _ _) in Hsave.
  destruct (holds_fresh self w "u1" eq_refl) as [Hh Ha].
  destruct (save_holds tr self self' w w' [] merge_sort_engine_ok
              steady_clock_increasing Hh Ha Hsave) as (Hh' & _).
  exists self', w'.
  apply (retrieve_latest_session self' w' "u1" some_domain
           [A; SessionStarted.new 2; B]).
  - apply merge_sort_engine_ok.
  - reflexivity.
  - exact Hh'.
  - discriminate.
Defined.

(** ** What [save] of the SQL store writes *)

Lemma read_of_conversation (self self' : SQLTrackerStore.t) sid all_sessions :
  SQLTrackerStore.attrs self' = SQLTrackerStore.attrs self ->
  SQLTrackerStore.engine self' = SQLTrackerStore.engine self ->
  conversation sid (SQLTrackerStore.table self')
  = conversation sid (SQLTrackerStore.table self) ->
  read self' sid all_sessions = read self sid all_sessions.
Proof.
  intros Ha Hen Hc. unfold read.
  by rewrite !query_of_conversation, Ha, Hen, Hc.
Qed.

Lemma stamped_sender_id sid evs clock c n :
  Forall (fun r => SQLEvent.sender_id r = sid) (stamped sid evs clock c n).
Proof.
  eapply Forall2_Forall_l; [apply stamped_encodes|].
  apply Forall_forall. by intros e _ r (? & _).
Qed.

(** X3: when the schema check of its sessions passes, [save] of the SQL
    store returns, and it only appends rows, all of them rows of the
    tracker's conversation: the rows the table held stay as they are and
    where they are, and so do the attributes of the store and its engine.
    For every other conversation, each retrieval and [exists] answer after
    the save what they answered before, in one more session and touching
    nothing else. *)
Theorem sql_save_frame `{Imports} (tr : Tracker) (self : Scoped.t) (w : World) :
  Scoped.ensure_schema_exists (Scoped.backend self) = Returns tt ->
  exists new k w',
    let self' :=
      Scoped.mk
        (SQLTrackerStore.mk (SQLTrackerStore.attrs (Scoped.store self))
           (SQLTrackerStore.engine (Scoped.store self))
           (SQLTrackerStore.table (Scoped.store self) ++ new))
        (after_sessions k [] (Scoped.backend self)) in
    let self'' :=
      Scoped.mk (Scoped.store self') (after_sessions 1 [] (Scoped.backend self')) in
    save tr self w = (Returns tt, self', w') /\
    Forall (fun r => SQLEvent.sender_id r = DialogueStateTracker.sender_id tr) new /\
    forall sid' w1,
      sid' <> DialogueStateTracker.sender_id tr ->
      retrieve sid' self' w1
      = ((retrieve sid' self w1).1.1, self'', w1) /\
      retrieve_full_tracker sid' self' w1
      = ((retrieve_full_tracker sid' self w1).1.1, self'', w1) /\
      exists_ sid' self' w1 = ((exists_ sid' self w1).1.1, self'', w1).
Proof.
  intros Hok.
  change (save tr self w) with (Scoped.save tr self w).
  rewrite scoped_save_ok, save_spec by done. unfold in_sessions. cbn [fst snd].
  do 3 eexists. cbn zeta. split; [reflexivity|].
  split; [apply stamped_sender_id|].
  intros sid' w1 Hne.
  set (store' := SQLTrackerStore.mk _ _ _).
  set (b' := after_sessions _ [] _).
  assert (forall a, read store' sid' a = read (Scoped.store self) sid' a) as Hread.
  { intros a. apply read_of_conversation; [done..|]. subst store'.
    cbn [SQLTrackerStore.table].
    by rewrite conversation_app, stamped_other, app_nil_r. }
  assert (legacy store' = legacy (Scoped.store self)) as Hl by done.
  assert (Scoped.ensure_schema_exists (Scoped.backend (Scoped.mk store' b'))
          = Returns tt) as Hok' by exact Hok.
  unfold exists_.
  change (retrieve sid') with (Scoped.retrieve sid').
  change (retrieve_full_tracker sid') with (Scoped.retrieve_full_tracker sid').
  unfold bind.
  rewrite !scoped_retrieve_ok, !scoped_retrieve_full_ok by done.
  cbn [fst snd Scoped.store Scoped.backend]. by rewrite Hl, !Hread.
Qed.

Lemma sql_save_frame_witness :
  let _ := plain_imports in
  let tr := DialogueStateTracker.mk "u1" None None
              [ActionExecuted ACTION_LISTEN_NAME 1] in
  let b := postgresql_backend {["POSTGRESQL_SCHEMA" := "public"]} ["public"] in
  let self := Scoped.mk (empty_sql_store merge_sort_engine None) b in
  let w := quiet_world steady_clock in
  exists new k w',
    let self' :=
      Scoped.mk
        (SQLTrackerStore.mk (SQLTrackerStore.attrs (Scoped.store self))
           (SQLTrackerStore.engine (Scoped.store self))
           (SQLTrackerStore.table (Scoped.store self) ++ new))
        (after_sessions k [] b) in
    save tr self w = (Returns tt, self', w') /\
    exists_ "u2" self' w
    = (Returns false,
       Scoped.mk (Scoped.store self') (after_sessions 1 [] (Scoped.backend self')),
       w).
Proof.
  intros I tr b self w.
  destruct (sql_save_frame (H:=I) tr self w eq_refl)
    as (new & k & w' & Hsave & _ & Hother).
  exists new, k, w'. split; [exact Hsave|].
  destruct (Hother "u2" w) as (_ & _ & Hexists); [discriminate|].
  etrans; [exact Hexists|reflexivity].
Defined.

Lemma stamped_rows sid evs clock c n :
  Forall2 (fun r e =>
             SQLEvent.sender_id r = sid /\
             SQLEvent.type_name r = Event.type_name e /\
             SQLEvent.intent_name r = Event.intent_name e /\
             SQLEvent.action_name r = Event.name e /\
             Event.from_parameters (json_value (SQLEvent.data r)) = Some e)
          (stamped sid evs clock c n) evs.
Proof.
  revert c n. induction evs as [|e evs IH]; intros c n; constructor; [|apply IH].
  unfold row_of. cbn [SQLEvent.sender_id SQLEvent.type_name SQLEvent.intent_name
                      SQLEvent.action_name SQLEvent.data json_value].
  by rewrite event_roundtrip.
Qed.

Lemma stamped_stamps sid evs clock c n :
  SQLEvent.timestamp <$> stamped sid evs clock c n
  = clock <$> seq c (length evs).
Proof.
  revert c n. induction evs as [|e evs IH]; intros c n; [done|].
  cbn. by rewrite IH.
Qed.

(** X4: the rows that [save] of the SQL store appends.  The store counts the
    rows of the conversation, those of all sessions with the deprecated flag
    set and else those stamped no earlier than the latest session start row,
    and appends one row for each event of the tracker beyond that count, in
    the order of the events.  A row carries the conversation id, the type of
    its event, the intent and action name of the event in columns of their
    own, and a payload from which the event is decoded again; the rows are
    stamped with one reading of the clock each, in turn. *)
Theorem sql_save_rows (tr : Tracker) (self : SQLTrackerStore.t) (w : World) :
  implements_order_by (SQLTrackerStore.engine self) ->
  let sid := DialogueStateTracker.sender_id tr in
  let rows := conversation sid (SQLTrackerStore.table self) in
  let counted := length (if legacy self then rows else window rows) in
  exists new self' w',
    save tr self w = (Returns tt, self', w') /\
    SQLTrackerStore.table self' = SQLTrackerStore.table self ++ new /\
    Forall2 (fun r e =>
               SQLEvent.sender_id r = sid /\
               SQLEvent.type_name r = Event.type_name e /\
               SQLEvent.intent_name r = Event.intent_name e /\
               SQLEvent.action_name r = Event.name e /\
               Event.from_parameters (json_value (SQLEvent.data r)) = Some e)
            new (drop counted (DialogueStateTracker.events tr)) /\
    SQLEvent.timestamp <$> new
    = wall_clock w <$> seq (clock_reads w) (length new) /\
    clock_reads w' = (clock_reads w + length new)%nat.
Proof.
  intros He sid rows counted.
  change (save tr self w) with (SQLTrackerStore.save tr self w).
  rewrite save_spec. do 3 eexists. split; [reflexivity|].
  cbn [SQLTrackerStore.table]. split; [reflexivity|].
  assert (delta self tr = drop counted (DialogueStateTracker.events tr)) as ->.
  { unfold delta. f_equal. subst counted rows sid.
    apply Permutation_length, (query_rows self _ (legacy self) He). }
  rewrite stamped_length. split; [apply stamped_rows|].
  split; [by rewrite stamped_stamps|].
  cbn. by destruct (after_streaming_clock self tr w) as [_ ->].
Qed.

Lemma sql_save_rows_witness :
  let A := ActionExecuted "utter_greet" 1 in
  let B := UserUttered (Some "ask_weather") 3 in
  let tr := DialogueStateTracker.mk "u1" None None [A; B] in
  let self := empty_sql_store merge_sort_engine None in
  let w := quiet_world steady_clock in
  exists new self' w',
    save tr self w = (Returns tt, self', w') /\
    SQLTrackerStore.table self' = new /\
    Forall2 (fun r e =>
               SQLEvent.sender_id r = "u1" /\
               SQLEvent.type_name r = Event.type_name e /\
               SQLEvent.intent_name r = Event.intent_name e /\
               SQLEvent.action_name r = Event.name e /\
               Event.from_parameters (json_value (SQLEvent.data r)) = Some e)
            new [A; B] /\
    SQLEvent.timestamp <$> new
    = steady_clock <$> seq 0 (length new) /\
    clock_reads w' = (0 + length new)%nat.
Proof.
  intros A B tr self w.
  exact (sql_save_rows tr self w merge_sort_engine_ok).
Defined.

(** ** Streaming without a domain, and without a broker *)

Lemma sql_save_published_without_domain (tr : Tracker) (broker : EventBroker)
    (self : SQLTrackerStore.t) (w : World) :
  domain (SQLTrackerStore.attrs self) = None ->
  event_broker (SQLTrackerStore.attrs self) = Some broker ->
  published (SQLTrackerStore.save tr self w).2
  = published w
    ++ ((fun e => (broker, ("sender_id", JStr (DialogueStateTracker.sender_id tr))
                             :: Event.as_dict e))
          <$> DialogueStateTracker.events tr).
Proof.
  intros Hd Hb. rewrite save_spec. cbn [snd].
  rewrite published_ticks. unfold after_streaming, streamed.
  rewrite Hb, read_without_domain by done. cbn [from_option].
  rewrite drop_0, published_publish_all. f_equal.
  apply list_fmap_ext. intros _ e _. by rewrite body_of_merged.
Qed.

(** X5: an SQL store that has an event broker but no domain publishes, on
    every [save], all the events of the tracker, those it has stored and
    published before as well: what it retrieves, none without a domain, is
    what it takes for published.  A second save of the same tracker
    publishes them all once more. *)
Theorem sql_save_without_domain (tr : Tracker) (broker : EventBroker)
    (self : SQLTrackerStore.t) (w : World) :
  domain (SQLTrackerStore.attrs self) = None ->
  event_broker (SQLTrackerStore.attrs self) = Some broker ->
  let bodies :=
    (fun e => (broker, ("sender_id", JStr (DialogueStateTracker.sender_id tr))
                         :: Event.as_dict e))
      <$> DialogueStateTracker.events tr in
  exists self1 w1 self2 w2,
    save tr self w = (Returns tt, self1, w1) /\
    published w1 = published w ++ bodies /\
    save tr self1 w1 = (Returns tt, self2, w2) /\
    published w2 = published w ++ bodies ++ bodies.
Proof.
  intros Hd Hb bodies.
  change (save tr) with (SQLTrackerStore.save tr).
  pose proof (sql_save_published_without_domain tr broker self w Hd Hb) as H1.
  destruct (SQLTrackerStore.save tr self w) as [[r1 self1] w1] eqn:E1.
  pose proof E1 as E1'. rewrite save_spec in E1'.
  injection E1' as <- Hself1 _.
  assert (SQLTrackerStore.attrs self1 = SQLTrackerStore.attrs self) as Ha
    by by rewrite <- Hself1.
  pose proof (sql_save_published_without_domain tr broker self1 w1) as H2.
  rewrite Ha in H2. specialize (H2 Hd Hb).
  destruct (SQLTrackerStore.save tr self1 w1) as [[r2 self2] w2] eqn:E2.
  pose proof E2 as E2'. rewrite save_spec in E2'. injection E2' as <- _ _.
  exists self1, w1, self2, w2. cbn [snd] in H1, H2.
  split; [done|]. split; [done|]. split; [done|].
  by rewrite H2, H1, <- app_assoc.
Qed.

Lemma sql_save_without_domain_witness :
  let A := ActionExecuted "utter_greet" 1 in
  let tr := DialogueStateTracker.mk "u1" None None [A] in
  let self := SQLTrackerStore.mk (mkAttrs None (Some "pika") None None)
                merge_sort_engine [] in
  let w := quiet_world steady_clock in
  let body := ("pika", ("sender_id", JStr "u1") :: Event.as_dict A) in
  exists self1 w1 self2 w2,
    save tr self w = (Returns tt, self1, w1) /\
    published w1 = [body] /\
    save tr self1 w1 = (Returns tt, self2, w2) /\
    published w2 = [body; body].
Proof.
  intros A tr self w body.
  exact (sql_save_without_domain tr "pika" self w eq_refl eq_refl).
Defined.

(** X6: [stream_events] on a store without event broker, when retrieving
    the conversation changes nothing: it returns when the tracker has no
    event beyond those of the retrieved tracker, and raises an
    [AttributeError] when it has one; either way nothing is published and
    nothing changes. *)
Theorem stream_events_without_broker {S : Type} `{HasAttrs S}
    (self_retrieve : string -> M S (option Tracker))
    (tr : Tracker) (self : S) (w : World) (old : option Tracker) :
  get_event_broker self = None ->
  self_retrieve (DialogueStateTracker.sender_id tr) self w = (Returns old, self, w) ->
  let known := from_option (fun o => length (DialogueStateTracker.events o)) 0%nat old in
  stream_events self_retrieve tr self w
  = (if bool_decide (known < length (DialogueStateTracker.events tr))%nat
     then Raises (AttributeError "'NoneType' object has no attribute 'publish'")
     else Returns tt, self, w).
Proof.
  intros Hb Hr known. unfold stream_events, number_of_existing_events.
  unfold bind at 1. unfold bind at 1. rewrite Hr. unfold ret at 1.
  assert (match old with
          | Some tr0 => length (DialogueStateTracker.events tr0)
          | None => 0%nat
          end = known) as -> by by destruct old.
  case_bool_decide as Hk.
  - destruct (drop known (DialogueStateTracker.events tr)) as [|e rest] eqn:E.
    + apply (f_equal length) in E. rewrite length_drop in E. cbn in E. lia.
    + cbn [for_each]. unfold bind, get_self. by rewrite Hb.
  - by rewrite drop_ge by lia.
Qed.

Lemma stream_events_without_broker_witness :
  let listen := ActionExecuted ACTION_LISTEN_NAME 1 in
  let greet := ActionExecuted "utter_greet" 2 in
  let old := DialogueStateTracker.mk "u1" None None [listen] in
  let self := saved old (empty_memory_store None None) in
  let w := quiet_world steady_clock in
  stream_events retrieve (DialogueStateTracker.mk "u1" None None [listen; greet]) self w
  = (Raises (AttributeError "'NoneType' object has no attribute 'publish'"), self, w) /\
  stream_events retrieve old self w = (Returns tt, self, w).
Proof.
  intros listen greet old self w. split.
  - exact (stream_events_without_broker retrieve
             (DialogueStateTracker.mk "u1" None None [listen; greet]) self w
             (Some old) eq_refl eq_refl).
  - exact (stream_events_without_broker retrieve old self w
             (Some old) eq_refl eq_refl).
Defined.

(** ** New trackers for conversations that exist, and without a first event *)

Lemma memory_save_serialised tr old (self : InMemoryTrackerStore.t) w :
  InMemoryTrackerStore.store self !! DialogueStateTracker.sender_id tr
  = Some (Str (serialise_tracker old)) ->
  exists w', InMemoryTrackerStore.save tr self w = (Returns tt, saved tr self, w').
Proof.
  intros E. destruct (event_broker (InMemoryTrackerStore.attrs self)) as [b|] eqn:Hb.
  - eexists. eapply save_with_broker; [exact Hb|].
    by apply retrieve_serialised.
  - eexists. by apply save_without_broker.
Qed.

Lemma memory_save_absent tr (self : InMemoryTrackerStore.t) w :
  InMemoryTrackerStore.store self !! DialogueStateTracker.sender_id tr = None ->
  exists w', InMemoryTrackerStore.save tr self w = (Returns tt, saved tr self, w') /\
             (DialogueStateTracker.events tr = [] -> w' = w).
Proof.
  intros E. destruct (event_broker (InMemoryTrackerStore.attrs self)) as [b|] eqn:Hb.
  - eexists. split.
    + eapply save_with_broker; [exact Hb|]. by apply retrieve_absent.
    + by intros ->.
  - eexists. split; [by apply save_without_broker|done].
Qed.

Lemma delta_nil (self : SQLTrackerStore.t) tr :
  implements_order_by (SQLTrackerStore.engine self) ->
  conversation (DialogueStateTracker.sender_id tr) (SQLTrackerStore.table self) <> [] ->
  (length (DialogueStateTracker.events tr) <= 1)%nat ->
  delta self tr = [].
Proof.
  intros He Hne Hlen. unfold delta. apply drop_ge.
  destruct (SQLTrackerStore._event_query self (DialogueStateTracker.sender_id tr)
              (legacy self)) as [|r rows] eqn:E; [|cbn; lia].
  by apply (query_nil self _ _ He) in E.
Qed.

(** X7: [create_tracker] does not look whether the conversation exists.  On
    an in-memory store that holds a log of the conversation, the new tracker
    with its one listening event takes the place of that log: [retrieve]
    then replays the listening event alone.  On an SQL store that holds rows
    of the conversation, the new tracker is returned and no row is written:
    the store stays as it is. *)
Theorem create_tracker_on_existing (sid : string) :
  (forall (self : InMemoryTrackerStore.t) w old,
      InMemoryTrackerStore.store self !! sid = Some (Str (serialise_tracker old)) ->
      exists tr self' w',
        create_tracker sid true self w = (Returns tr, self', w') /\
        DialogueStateTracker.events tr
        = [ActionExecuted ACTION_LISTEN_NAME (wall_clock w (clock_reads w))] /\
        retrieve sid self' w' = (Returns (Some tr), self', w')) /\
  (forall (self : SQLTrackerStore.t) w,
      implements_order_by (SQLTrackerStore.engine self) ->
      conversation sid (SQLTrackerStore.table self) <> [] ->
      exists tr w',
        create_tracker sid true self w = (Returns tr, self, w') /\
        DialogueStateTracker.events tr
        = [ActionExecuted ACTION_LISTEN_NAME (wall_clock w (clock_reads w))]).
Proof.
  split.
  - intros self w old E. rewrite create_tracker_spec.
    destruct (memory_save_serialised (created self sid true w) old self (tick w) E)
      as [w' Hs].
    change (save ?t) with (InMemoryTrackerStore.save t).
    unfold bind, ret. rewrite Hs. do 3 eexists. split; [reflexivity|].
    split; [reflexivity|].
    change (retrieve sid) with (InMemoryTrackerStore.retrieve sid).
    apply (retrieve_saved (created self sid true w)).
  - intros self w He Hne. rewrite create_tracker_spec.
    change (save ?t) with (SQLTrackerStore.save t).
    unfold bind, ret. rewrite save_spec.
    rewrite (delta_nil self (created self sid true w) He Hne) by (cbn; lia).
    cbn [stamped]. rewrite app_nil_r.
    exists (created self sid true w). eexists.
    split; [|reflexivity]. by destruct self.
Qed.

Lemma create_tracker_on_existing_witness :
  let old := DialogueStateTracker.mk "u1" None None
               [ActionExecuted ACTION_LISTEN_NAME 1; ActionExecuted "utter_greet" 2] in
  let w := quiet_world steady_clock in
  (exists tr self' w',
      create_tracker "u1" true (saved old (empty_memory_store None None)) w
      = (Returns tr, self', w') /\
      DialogueStateTracker.events tr = [ActionExecuted ACTION_LISTEN_NAME 0] /\
      retrieve "u1" self' w' = (Returns (Some tr), self', w')) /\
  (exists self tr w',
      length (SQLTrackerStore.table self) = 2%nat /\
      create_tracker "u1" true self w = (Returns tr, self, w') /\
      DialogueStateTracker.events tr = [ActionExecuted ACTION_LISTEN_NAME 0]).
Proof.
  intros old w. destruct (create_tracker_on_existing "u1") as [Hmem Hsql]. split.
  - exact (Hmem (saved old (empty_memory_store None None)) w old eq_refl).
  - pose proof (save_spec old (empty_sql_store merge_sort_engine None) w) as Hsave.
    set (self := SQLTrackerStore.mk _ _ _) in Hsave.
    destruct (Hsql self w merge_sort_engine_ok) as (tr & w' & Hc & Hev);
      [discriminate|].
    exists self, tr, w'. split; [reflexivity|]. split; [exact Hc|exact Hev].
Defined.

(** X8: [get_or_create_tracker] with [append_action_listen] false, for a
    conversation the store holds nothing of, returns a tracker without
    events and publishes nothing.  The SQL store writes no row for it, so
    that the conversation still does not exist afterwards; the in-memory
    store keeps the empty log, and the conversation exists. *)
Theorem get_or_create_without_listen (sid : string) (meh : option nat) :
  (forall (self : SQLTrackerStore.t) w,
      implements_order_by (SQLTrackerStore.engine self) ->
      conversation sid (SQLTrackerStore.table self) = [] ->
      let self' := set_max_event_history meh self in
      get_or_create_tracker sid meh false self w
      = (Returns (DialogueStateTracker.mk sid
                    (slots <$> domain (SQLTrackerStore.attrs self)) meh []),
         self', w) /\
      SQLTrackerStore.table self' = SQLTrackerStore.table self /\
      exists_ sid self' w = (Returns false, self', w)) /\
  (forall (self : InMemoryTrackerStore.t) w,
      InMemoryTrackerStore.store self !! sid = None ->
      exists self',
        get_or_create_tracker sid meh false self w
        = (Returns (DialogueStateTracker.mk sid
                      (slots <$> domain (InMemoryTrackerStore.attrs self)) meh []),
           self', w) /\
        exists_ sid self' w = (Returns true, self', w)).
Proof.
  split.
  - intros self w He Hfresh self'.
    assert (read self' sid (legacy self') = None) as Hread
      by by apply read_without_rows.
    subst self'. set (self' := set_max_event_history meh self) in *.
    split; [|split; [done|]].
    + rewrite (get_or_create_tracker_absent sid meh false self self' self' w w w);
        [reflexivity| |].
      * change (retrieve sid) with (SQLTrackerStore.retrieve sid).
        rewrite retrieve_read.
        exact (f_equal (fun r => (Returns r, self', w)) Hread).
      * change (save ?t) with (SQLTrackerStore.save t). rewrite save_spec.
        unfold delta, after_streaming, streamed.
        cbn [created DialogueStateTracker.events DialogueStateTracker.sender_id].
        rewrite !drop_nil. cbn [stamped length]. rewrite app_nil_r, ticks_0.
        destruct (event_broker (SQLTrackerStore.attrs self')); by destruct self.
    + unfold exists_.
      erewrite bind_returns by apply (retrieve_read sid self' w).
      by rewrite Hread.
  - intros self w Hfresh.
    set (self0 := set_max_event_history meh self).
    destruct (memory_save_absent (created self0 sid false w) self0 w Hfresh)
      as (w' & Hs & Hw).
    rewrite (Hw eq_refl) in Hs. eexists. split.
    + rewrite (get_or_create_tracker_absent sid meh false self self0
                 (saved (created self0 sid false w) self0) w w w);
        [reflexivity|by apply retrieve_absent|exact Hs].
    + unfold exists_.
      by erewrite bind_returns
        by apply (retrieve_saved (created self0 sid false w) self0 w).
Qed.

Lemma get_or_create_without_listen_witness :
  let w := quiet_world steady_clock in
  let sql := empty_sql_store merge_sort_engine (Some "pika") in
  let mem := empty_memory_store (Some some_domain) (Some "pika") in
  (get_or_create_tracker "u1" (Some 5%nat) false sql w
   = (Returns (DialogueStateTracker.mk "u1" (Some (slots some_domain)) (Some 5%nat) []),
      set_max_event_history (Some 5%nat) sql, w) /\
   SQLTrackerStore.table (set_max_event_history (Some 5%nat) sql) = [] /\
   exists_ "u1" (set_max_event_history (Some 5%nat) sql) w
   = (Returns false, set_max_event_history (Some 5%nat) sql, w)) /\
  (exists self',
      get_or_create_tracker "u1" (Some 5%nat) false mem w
      = (Returns (DialogueStateTracker.mk "u1" (Some (slots some_domain)) (Some 5%nat) []),
         self', w) /\
      exists_ "u1" self' w = (Returns true, self', w)).
Proof.
  intros w sql mem.
  destruct (get_or_create_without_listen "u1" (Some 5%nat)) as [Hsql Hmem]. split.
  - exact (Hsql sql w merge_sort_engine_ok eq_refl).
  - exact (Hmem mem w eq_refl).
Defined.

(** ** The conversation ids of a store *)

Lemma conversation_nonempty sid rows :
  conversation sid rows <> [] <-> sid ∈ SQLEvent.sender_id <$> rows.
Proof.
  rewrite list_elem_of_fmap. unfold conversation. split.
  - destruct (filter _ rows) as [|r rest] eqn:E; [done|]. intros _.
    assert (r ∈ filter (fun r => SQLEvent.sender_id r = sid) rows) as Hr
      by (rewrite E; left).
    apply list_elem_of_filter in Hr as [Hs Hin]. by exists r.
  - intros (r & -> & Hin) E.
    assert (r ∈ filter (fun r' => SQLEvent.sender_id r' = SQLEvent.sender_id r) rows)
      as Hr by by apply list_elem_of_filter.
    rewrite E in Hr. by apply elem_of_nil in Hr.
Qed.

(** X9: [keys] changes nothing and returns every conversation id of the
    store once: for the SQL store the ids that have a row in the table, for
    the in-memory store the ids that have an entry. *)
Theorem keys_of_stores (sid : string) :
  (forall (self : SQLTrackerStore.t) w,
      exists ks,
        keys self w = (Returns ks, self, w) /\ NoDup ks /\
        (sid ∈ ks <-> conversation sid (SQLTrackerStore.table self) <> [])) /\
  (forall (self : InMemoryTrackerStore.t) w,
      exists ks,
        keys self w = (Returns ks, self, w) /\ NoDup ks /\
        (sid ∈ ks <-> is_Some (InMemoryTrackerStore.store self !! sid))).
Proof.
  split; intros self w; eexists; (split; [reflexivity|]); split.
  - apply NoDup_remove_dups.
  - by rewrite elem_of_remove_dups, conversation_nonempty.
  - apply NoDup_elements.
  - by rewrite elem_of_elements, elem_of_dom.
Qed.

(** ** A store that overrides nothing *)

(** X10: on a store of the base class, which implements neither [save] nor
    [retrieve] nor [keys], these raise [NotImplementedError], and so does
    every method of the base class that calls one of them.
    [get_or_create_tracker] has set the history limit by then, and
    [create_tracker] has read the clock for the listening event. *)
Theorem base_class_not_implemented (self : AbstractTrackerStore.t) (w : World)
    (sid : string) (tr : Tracker) (meh : option nat) (flag : bool) :
  save tr self w = (Raises NotImplementedError, self, w) /\
  retrieve sid self w = (Raises NotImplementedError, self, w) /\
  keys self w = (Raises NotImplementedError, self, w) /\
  retrieve_full_tracker sid self w = (Raises NotImplementedError, self, w) /\
  exists_ sid self w = (Raises NotImplementedError, self, w) /\
  number_of_existing_events retrieve sid self w
  = (Raises NotImplementedError, self, w) /\
  stream_events retrieve tr self w = (Raises NotImplementedError, self, w) /\
  create_tracker sid flag self w
  = (Raises NotImplementedError, self, if flag then tick w else w) /\
  get_or_create_tracker sid meh flag self w
  = (Raises NotImplementedError, set_max_event_history meh self, w).
Proof. by destruct flag. Qed.

(** ** The fail-safe wrapper, beyond the failure of an operation *)

(** X11: the wrapper is transparent as long as the primary store raises no
    exception: what [retrieve], [keys] and [save] of the primary store
    return, the wrapper returns, and an exit of the interpreter, which is no
    [Exception], passes through it.  No callback is invoked, nothing is
    logged, and the fallback store is neither made nor touched. *)
Theorem failsafe_passes_through {P F : Type} `{TrackerStore P} `{TrackerStore F}
    (fs : FailSafeTrackerStore.t P F) (p : P) (w w1 : World) :
  (forall sid o,
      (forall e, o = Raises e -> is_Exception e = false) ->
      retrieve sid (FailSafeTrackerStore._tracker_store fs) w = (o, p, w1) ->
      FailSafeTrackerStore.retrieve sid fs w = (o, with_primary p fs, w1)) /\
  (forall o,
      (forall e, o = Raises e -> is_Exception e = false) ->
      keys (FailSafeTrackerStore._tracker_store fs) w = (o, p, w1) ->
      FailSafeTrackerStore.keys fs w = (o, with_primary p fs, w1)) /\
  (forall tr o,
      (forall e, o = Raises e -> is_Exception e = false) ->
      save tr (FailSafeTrackerStore._tracker_store fs) w = (o, p, w1) ->
      FailSafeTrackerStore.save tr fs w = (o, with_primary p fs, w1)).
Proof.
  split; [|split].
  - intros sid o Ho Hr. unfold FailSafeTrackerStore.retrieve, try_except.
    unfold FailSafeTrackerStore.on_primary at 1. rewrite Hr.
    destruct o as [r|e]; [done|]. by rewrite (Ho e eq_refl).
  - intros o Ho Hr. unfold FailSafeTrackerStore.keys, try_except.
    unfold FailSafeTrackerStore.on_primary at 1. rewrite Hr.
    destruct o as [r|e]; [done|]. by rewrite (Ho e eq_refl).
  - intros tr o Ho Hr. unfold FailSafeTrackerStore.save, try_except.
    unfold FailSafeTrackerStore.on_primary at 1. rewrite Hr.
    destruct o as [r|e]; [done|]. by rewrite (Ho e eq_refl).
Qed.

Lemma failsafe_passes_through_witness :
  let primary := empty_memory_store None None in
  let fs : FailSafeTrackerStore.t InMemoryTrackerStore.t InMemoryTrackerStore.t :=
    FailSafeTrackerStore.new primary (Some "alert") None in
  let w := quiet_world steady_clock in
  let tr := DialogueStateTracker.mk "u1" None None
              [ActionExecuted ACTION_LISTEN_NAME 1] in
  FailSafeTrackerStore.retrieve "u1" fs w = (Returns None, fs, w) /\
  FailSafeTrackerStore.keys fs w = (Returns [], fs, w) /\
  FailSafeTrackerStore.save tr fs w
  = (Returns tt, with_primary (saved tr primary) fs, w).
Proof.
  intros primary fs w tr.
  destruct (failsafe_passes_through fs primary w w) as (Hr & Hk & _).
  destruct (failsafe_passes_through fs (saved tr primary) w w) as (_ & _ & Hs).
  split; [|split].
  - apply (Hr "u1" (Returns None)); [discriminate|reflexivity].
  - apply (Hk (Returns [])); [discriminate|reflexivity].
  - apply (Hs tr (Returns tt)); [discriminate|reflexivity].
Defined.

(** X12: [retrieve] and [keys] of the wrapper never look at the fallback
    store: whatever the fallback is, they end in the same way, leave the
    same primary store and the same world, and leave the fallback as it
    is.  What was saved to the fallback is not read through the wrapper. *)
Theorem failsafe_reads_ignore_fallback {P F : Type} `{TrackerStore P} `{TrackerStore F}
    (fs : FailSafeTrackerStore.t P F)
    (fb : option (FailSafeTrackerStore.Fallback F)) (sid : string) (w : World) :
  let fs' := FailSafeTrackerStore.mk (FailSafeTrackerStore.attrs fs)
               (FailSafeTrackerStore._tracker_store fs) fb
               (FailSafeTrackerStore._on_tracker_store_error fs) in
  (exists r p w',
      FailSafeTrackerStore.retrieve sid fs w = (r, with_primary p fs, w') /\
      FailSafeTrackerStore.retrieve sid fs' w = (r, with_primary p fs', w')) /\
  (exists r p w',
      FailSafeTrackerStore.keys fs w = (r, with_primary p fs, w') /\
      FailSafeTrackerStore.keys fs' w = (r, with_primary p fs', w')).
Proof.
  intros fs'. subst fs'. split.
  - unfold FailSafeTrackerStore.retrieve, try_except.
    unfold FailSafeTrackerStore.on_primary.
    cbn [FailSafeTrackerStore._tracker_store].
    destruct (retrieve sid (FailSafeTrackerStore._tracker_store fs) w)
      as [[[r|e] p] w1].
    + by exists (Returns r), p, w1.
    + destruct (is_Exception e).
      * erewrite !bind_returns by apply on_tracker_store_error_spec.
        by exists (Returns None), p, (reported fs e w1).
      * by exists (Raises e), p, w1.
  - unfold FailSafeTrackerStore.keys, try_except.
    unfold FailSafeTrackerStore.on_primary.
    cbn [FailSafeTrackerStore._tracker_store].
    destruct (keys (FailSafeTrackerStore._tracker_store fs) w)
      as [[[r|e] p] w1].
    + by exists (Returns r), p, w1.
    + destruct (is_Exception e).
      * erewrite !bind_returns by apply on_tracker_store_error_spec.
        by exists (Returns []), p, (reported fs e w1).
      * by exists (Raises e), p, w1.
Qed.

Lemma reported_clock {P F : Type} `{TrackerStore P} `{TrackerStore F}
    (fs : FailSafeTrackerStore.t P F) e w :
  wall_clock (reported fs e w) = wall_clock w /\
  clock_reads (reported fs e w) = clock_reads w.
Proof. unfold reported. by destruct (FailSafeTrackerStore._on_tracker_store_error fs). Qed.

(** One call of [get_or_create_tracker] on a wrapper whose primary store
    fails and whose fallback is, or will be, an in-memory store without
    broker. *)
Lemma failsafe_get_or_create_failing {P F : Type} `{TrackerStore P} `{TrackerStore F}
    (fs : FailSafeTrackerStore.t P F) (e : PyError) (sid : string)
    (meh : option nat) (w : World) (m : InMemoryTrackerStore.t) :
  let p := FailSafeTrackerStore._tracker_store fs in
  let tr := DialogueStateTracker.mk sid (slots <$> get_domain p) meh
              [ActionExecuted ACTION_LISTEN_NAME (wall_clock w (clock_reads w))] in
  is_Exception e = true ->
  (forall w0, retrieve sid p w0 = (Raises e, p, w0)) ->
  (forall tr0 w0, save tr0 p w0 = (Raises e, p, w0)) ->
  the_fallback fs = FailSafeTrackerStore.InMemory m ->
  event_broker (InMemoryTrackerStore.attrs m) = None ->
  get_or_create_tracker sid meh true fs w
  = (Returns tr,
     FailSafeTrackerStore.mk
       (with_max_event_history meh (FailSafeTrackerStore.attrs fs)) p
       (Some (FailSafeTrackerStore.InMemory (saved tr m)))
       (FailSafeTrackerStore._on_tracker_store_error fs),
     reported fs e (tick (reported fs e w))).
Proof.
  intros p tr He Hr Hs Hfb Hb.
  set (fs0 := set_max_event_history meh fs).
  destruct (reported_clock fs e w) as [Hc1 Hc2].
  assert (created fs0 sid true (reported fs e w) = tr) as Htr.
  { unfold created, tr. by rewrite Hc1, Hc2. }
  rewrite (get_or_create_tracker_absent sid meh true fs fs0
             (FailSafeTrackerStore.mk
                (with_max_event_history meh (FailSafeTrackerStore.attrs fs)) p
                (Some (FailSafeTrackerStore.InMemory (saved tr m)))
                (FailSafeTrackerStore._on_tracker_store_error fs))
             w (reported fs e w) (reported fs e (tick (reported fs e w)))).
  - by rewrite Htr.
  - change (retrieve sid) with (FailSafeTrackerStore.retrieve (P:=P) (F:=F) sid).
    etrans; [exact (failsafe_retrieve_failed fs0 sid w e p w (Hr w) He)|].
    by destruct fs.
  - rewrite Htr.
    change (save tr) with (FailSafeTrackerStore.save (P:=P) (F:=F) tr).
    etrans; [apply (failsafe_save_failed fs0 tr (tick (reported fs e w)) e p
               (tick (reported fs e w)) (Returns tt)
               (FailSafeTrackerStore.InMemory (saved tr m))
               (reported fs e (tick (reported fs e w))) (Hs _ _) He)|done].
    + assert (the_fallback (with_primary p fs0) = FailSafeTrackerStore.InMemory m)
        as -> by (rewrite <- Hfb; by destruct fs).
      cbn [fallback_save]. by rewrite save_without_broker.
Qed.

(** X13: while [retrieve] and [save] of the primary store raise an
    exception, every [get_or_create_tracker] on the wrapper starts the
    conversation anew.  The first call returns a tracker with one listening
    event and saves it to the in-memory fallback made on that occasion,
    reporting the error twice, for the retrieval and for the save; a second
    call for the same conversation does not find that tracker: it returns a
    new one, with a listening event of its own, which takes the place of the
    first in the fallback. *)
Theorem failsafe_get_or_create_degraded {P F : Type} `{TrackerStore P} `{TrackerStore F}
    (fs : FailSafeTrackerStore.t P F) (e : PyError) (sid : string)
    (meh : option nat) (w : World) :
  let p := FailSafeTrackerStore._tracker_store fs in
  is_Exception e = true ->
  (forall w0, retrieve sid p w0 = (Raises e, p, w0)) ->
  (forall tr0 w0, save tr0 p w0 = (Raises e, p, w0)) ->
  get_event_broker p = None ->
  FailSafeTrackerStore._fallback_tracker_store fs = None ->
  exists tr1 fs1 w1 m1 tr2 fs2 w2 m2,
    get_or_create_tracker sid meh true fs w = (Returns tr1, fs1, w1) /\
    DialogueStateTracker.events tr1
    = [ActionExecuted ACTION_LISTEN_NAME (wall_clock w (clock_reads w))] /\
    FailSafeTrackerStore._fallback_tracker_store fs1
    = Some (FailSafeTrackerStore.InMemory m1) /\
    InMemoryTrackerStore.store m1 !! sid = Some (Str (serialise_tracker tr1)) /\
    w1 = reported fs e (tick (reported fs e w)) /\
    get_or_create_tracker sid meh true fs1 w1 = (Returns tr2, fs2, w2) /\
    DialogueStateTracker.events tr2
    = [ActionExecuted ACTION_LISTEN_NAME (wall_clock w (S (clock_reads w)))] /\
    FailSafeTrackerStore._fallback_tracker_store fs2
    = Some (FailSafeTrackerStore.InMemory m2) /\
    InMemoryTrackerStore.store m2 !! sid = Some (Str (serialise_tracker tr2)) /\
    w2 = reported fs e (tick (reported fs e w1)).
Proof.
  intros p He Hr Hs Hb Hfb.
  set (m0 := InMemoryTrackerStore.mk
               (mkAttrs (get_domain p) (get_event_broker p) None None) ∅).
  assert (the_fallback fs = FailSafeTrackerStore.InMemory m0) as Hm0
    by (unfold the_fallback; by rewrite Hfb).
  pose proof (failsafe_get_or_create_failing fs e sid meh w m0 He Hr Hs Hm0 Hb) as G1.
  cbv zeta in G1.
  set (tr1 := DialogueStateTracker.mk _ _ _ _) in G1.
  set (fs1 := FailSafeTrackerStore.mk _ _ _ _) in G1.
  set (w1 := reported fs e (tick (reported fs e w))) in G1.
  pose proof (failsafe_get_or_create_failing fs1 e sid meh w1 (saved tr1 m0)
                He Hr Hs eq_refl Hb) as G2.
  cbv zeta in G2.
  set (tr2 := DialogueStateTracker.mk _ _ _ _) in G2.
  set (fs2 := FailSafeTrackerStore.mk _ _ _ _) in G2.
  exists tr1, fs1, w1, (saved tr1 m0), tr2, fs2,
    (reported fs e (tick (reported fs e w1))), (saved tr2 (saved tr1 m0)).
  split; [exact G1|]. split; [done|]. split; [done|].
  split; [apply lookup_insert_eq|]. split; [done|].
  split; [exact G2|]. split.
  { subst tr2 w1. cbn [DialogueStateTracker.events].
    destruct (reported_clock fs e (tick (reported fs e w))) as [-> ->].
    cbn [tick wall_clock clock_reads].
    by destruct (reported_clock fs e w) as [-> ->]. }
  split; [done|]. split; [apply lookup_insert_eq|done].
Qed.

Lemma failsafe_get_or_create_degraded_witness :
  let primary := AbstractTrackerStore.mk (mkAttrs (Some some_domain) None None None) in
  let fs : FailSafeTrackerStore.t AbstractTrackerStore.t InMemoryTrackerStore.t :=
    FailSafeTrackerStore.new primary (Some "alert") None in
  let w := quiet_world steady_clock in
  exists tr1 fs1 w1 m1 tr2 fs2 w2 m2,
    get_or_create_tracker "u1" None true fs w = (Returns tr1, fs1, w1) /\
    DialogueStateTracker.events tr1 = [ActionExecuted ACTION_LISTEN_NAME 0] /\
    FailSafeTrackerStore._fallback_tracker_store fs1
    = Some (FailSafeTrackerStore.InMemory m1) /\
    InMemoryTrackerStore.store m1 !! "u1" = Some (Str (serialise_tracker tr1)) /\
    w1 = reported fs NotImplementedError (tick (reported fs NotImplementedError w)) /\
    get_or_create_tracker "u1" None true fs1 w1 = (Returns tr2, fs2, w2) /\
    DialogueStateTracker.events tr2 = [ActionExecuted ACTION_LISTEN_NAME 1] /\
    FailSafeTrackerStore._fallback_tracker_store fs2
    = Some (FailSafeTrackerStore.InMemory m2) /\
    InMemoryTrackerStore.store m2 !! "u1" = Some (Str (serialise_tracker tr2)) /\
    w2 = reported fs NotImplementedError (tick (reported fs NotImplementedError w1)).
Proof.
  intros primary fs w.
  exact (failsafe_get_or_create_degraded fs NotImplementedError "u1" None w
           eq_refl (fun _ => eq_refl) (fun _ _ => eq_refl) eq_refl eq_refl).
Defined.

(** X14: the domain of the wrapper is that of the primary store, and the
    fallback store is kept to it, for stores that return the domain they
    were set.  A new wrapper has the domain and the event broker of the
    primary store and no history limit, and a fallback handed to the
    constructor has its domain replaced by that of the primary store;
    setting the domain of the wrapper sets it on both stores; and the
    fallback made on first use is an empty in-memory store with the domain
    and the event broker of the primary store. *)
Theorem failsafe_domain_mirrored {P F : Type} `{TrackerStore P} `{TrackerStore F} :
  (forall d (p : P), get_domain (set_domain d p) = d) ->
  (forall d (f : F), get_domain (set_domain d f) = d) ->
  (forall (primary : P) cb fbo,
      let fs := FailSafeTrackerStore.new primary cb fbo in
      get_domain fs = get_domain primary /\
      get_event_broker fs = get_event_broker primary /\
      get_max_event_history fs = None /\
      forall fb, FailSafeTrackerStore._fallback_tracker_store fs = Some fb ->
                 fallback_domain fb = get_domain primary) /\
  (forall (fs : FailSafeTrackerStore.t P F) d,
      let fs' := set_domain d fs in
      get_domain fs' = d /\
      forall fb, FailSafeTrackerStore._fallback_tracker_store fs' = Some fb ->
                 fallback_domain fb = d) /\
  (forall (fs : FailSafeTrackerStore.t P F) w,
      FailSafeTrackerStore._fallback_tracker_store fs = None ->
      exists m,
        FailSafeTrackerStore.fallback_tracker_store fs w
        = (Returns (FailSafeTrackerStore.InMemory m),
           FailSafeTrackerStore.mk (FailSafeTrackerStore.attrs fs)
             (FailSafeTrackerStore._tracker_store fs)
             (Some (FailSafeTrackerStore.InMemory m))
             (FailSafeTrackerStore._on_tracker_store_error fs), w) /\
        get_domain m = get_domain (FailSafeTrackerStore._tracker_store fs) /\
        get_event_broker m = get_event_broker (FailSafeTrackerStore._tracker_store fs) /\
        InMemoryTrackerStore.store m = ∅).
Proof.
  intros HP HF.
  assert (forall (fs : FailSafeTrackerStore.t P F) d fb,
             FailSafeTrackerStore._fallback_tracker_store (set_domain d fs) = Some fb ->
             fallback_domain fb = d) as Hset.
  { intros fs d fb. cbn.
    destruct (FailSafeTrackerStore._fallback_tracker_store fs) as [[f|m]|];
      cbn; intros [= <-]; cbn; [apply HF|done]. }
  split; [|split].
  - intros primary cb fbo fs. split; [apply HP|]. split; [done|]. split; [done|].
    intros fb Hfb.
    exact (Hset (FailSafeTrackerStore.mk
                   (mkAttrs None (get_event_broker primary) None None)
                   primary fbo cb) (get_domain primary) fb Hfb).
  - intros fs d fs'. split; [apply HP|]. apply Hset.
  - intros fs w Hfb. unfold FailSafeTrackerStore.fallback_tracker_store.
    rewrite Hfb. by eexists.
Qed.

Lemma failsafe_domain_mirrored_witness :
  let other := mkDomain ["city"] in
  let primary := SQLTrackerStore.mk (mkAttrs (Some some_domain) (Some "pika") None None)
                   merge_sort_engine [] in
  let given := empty_memory_store (Some other) None in
  let fs : FailSafeTrackerStore.t SQLTrackerStore.t InMemoryTrackerStore.t :=
    FailSafeTrackerStore.new primary None (Some (FailSafeTrackerStore.Given given)) in
  get_domain fs = Some some_domain /\
  get_event_broker fs = Some "pika" /\
  get_max_event_history fs = None /\
  forall fb, FailSafeTrackerStore._fallback_tracker_store fs = Some fb ->
             fallback_domain fb = Some some_domain.
Proof.
  intros other primary given fs.
  exact (proj1 (failsafe_domain_mirrored (P:=SQLTrackerStore.t)
                  (F:=InMemoryTrackerStore.t)
                  (fun _ _ => eq_refl) (fun _ _ => eq_refl))
           primary None (Some (FailSafeTrackerStore.Given given))).
Defined.

(** ** The URL of the database and the options of its engine *)

Lemma get_db_url_postgresql `{Imports} dialect host port db username password
    login_db query url :
  get_db_url dialect host port db username password login_db query = Returns url ->
  is_postgresql_url url
  = (if truthy_text host && contains "://" (default EmptyString host)
     then contains "postgresql" (default EmptyString host)
     else String.eqb dialect "postgresql").
Proof.
  unfold get_db_url. destruct host as [h|]; cbn [from_option id].
  - destruct (truthy_text (Some h) && contains "://" h) eqn:E1;
      [by intros [= <-]|].
    destruct (truthy_text (Some h)); [|by intros [= <-]].
    destruct (urlsplit_port _); [|done]. by intros [= <-].
  - cbn. by intros [= <-].
Qed.

(** X15: the options that the constructor of the SQL store hands to the
    engine, for the URL that [get_db_url] builds.  A host that is a URL is
    taken for PostgreSQL when the text [postgresql] occurs in it, wherever,
    and the dialect plays no part; otherwise the dialect must be
    [postgresql], to the letter.  For PostgreSQL the options are the pool
    size and the overflow, from the environment or 50 and 100, preceded by
    the search path when a schema name is set; a value of the environment
    that is no number raises the error of the conversion.  For anything
    else there are no options and the environment is not read. *)
Theorem engine_options `{Imports} (environ : gmap string string)
    dialect host port db username password login_db query url :
  get_db_url dialect host port db username password login_db query = Returns url ->
  let postgresql :=
    if truthy_text host && contains "://" (default EmptyString host)
    then contains "postgresql" (default EmptyString host)
    else String.eqb dialect "postgresql" in
  let search_path :=
    match environ !! POSTGRESQL_SCHEMA with
    | Some name =>
        if String.eqb name EmptyString then []
        else [("connect_args", JObj [("options", JStr ("-csearch_path=" +:+ name))])]
    | None => []
    end in
  create_engine_kwargs environ url
  = if postgresql
    then match environ_int environ POSTGRESQL_POOL_SIZE 50 with
         | Returns pool_size =>
             match environ_int environ POSTGRESQL_MAX_OVERFLOW 100 with
             | Returns max_overflow =>
                 Returns (search_path ++ [("pool_size", JNum pool_size);
                                          ("max_overflow", JNum max_overflow)])
             | Raises e => Raises e
             end
         | Raises e => Raises e
         end
    else Returns [].
Proof.
  intros Hurl postgresql search_path. subst postgresql.
  rewrite <- (get_db_url_postgresql _ _ _ _ _ _ _ _ _ Hurl).
  unfold create_engine_kwargs.
  destruct (is_postgresql_url url); cbn [negb]; [|done].
  change POSTGRESQL_DEFAULT_POOL_SIZE with 50%Z.
  change POSTGRESQL_DEFAULT_MAX_OVERFLOW with 100%Z.
  destruct (environ_int environ POSTGRESQL_POOL_SIZE 50) as [size|e]; [|done].
  destruct (environ_int environ POSTGRESQL_MAX_OVERFLOW 100) as [overflow|e]; [|done].
  subst search_path. destruct (environ !! POSTGRESQL_SCHEMA) as [name|]; [|done].
  cbn [truthy_text]. by destruct (String.eqb name EmptyString).
Qed.

Lemma engine_options_witness :
  let _ := plain_imports in
  create_engine_kwargs {["POSTGRESQL_SCHEMA" := "bot"; "SQL_POOL_SIZE" := "8"]}
    (UrlText "db+postgresql://host/rasa")
  = Returns [("connect_args", JObj [("options", JStr "-csearch_path=bot")]);
             ("pool_size", JNum 8); ("max_overflow", JNum 100)] /\
  create_engine_kwargs {["SQL_POOL_SIZE" := "many"]}
    (UrlObject (URL.mk "postgresql+psycopg2" None None (Some "host") (Some 5432%Z)
                  (Some "rasa") None))
  = Returns [].
Proof.
  intros I. split.
  - exact (engine_options (H:=I)
             {["POSTGRESQL_SCHEMA" := "bot"; "SQL_POOL_SIZE" := "8"]}
             "sqlite" (Some "db+postgresql://host/rasa") None "rasa.db" None None
             None None _ eq_refl).
  - exact (engine_options (H:=I) {["SQL_POOL_SIZE" := "many"]}
             "postgresql+psycopg2" (Some "host:5432") None "rasa" None None
             None None _ eq_refl).
Defined.

(** X16: [get_db_url] hands back a host that is a URL as it is, whatever
    the other arguments are.  Otherwise it builds a [URL] object of the
    dialect, the credentials and the query given, for the database
    [login_db] if that is set and not empty and else [db]; without a host,
    host and port are as given, and with a host that is not empty, a port
    found in the host, if not zero, goes before the port given.  It raises only what reading
    the port of the host raises. *)
Theorem get_db_url_spec `{Imports} dialect host port db username password
    login_db query :
  let result := get_db_url dialect host port db username password login_db query in
  (forall h, host = Some h -> contains "://" h = true -> result = Returns (UrlText h)) /\
  (forall u,
      result = Returns (UrlObject u) ->
      URL.drivername u = dialect /\ URL.username u = username /\
      URL.password u = password /\ URL.query u = query /\
      URL.database u = (if truthy_text login_db then login_db else Some db) /\
      (truthy_text host = false -> URL.host u = host /\ URL.port u = port) /\
      (forall h p,
          host = Some h -> h <> EmptyString ->
          urlsplit_port ("scheme://" +:+ h) = Returns (Some p) -> p <> 0%Z ->
          URL.port u = Some p)) /\
  (forall e,
      result = Raises e ->
      exists h, host = Some h /\ urlsplit_port ("scheme://" +:+ h) = Raises e).
Proof.
  intros result. subst result. unfold get_db_url. split; [|split].
  - intros h -> Hc. assert (truthy_text (Some h) = true) as ->.
    { destruct h; [done|done]. }
    by rewrite Hc.
  - intros u. destruct host as [h|].
    + destruct (truthy_text (Some h)) eqn:Ht; cbn [andb].
      * destruct (contains "://" h); [done|].
        set (parsed_url := "scheme://" +:+ h).
        destruct (urlsplit_port parsed_url) as [parsed|e] eqn:Hp; [|done].
        intros [= <-]. cbn -[parsed_url]. repeat split; try done.
        intros h' p [= <-] _. fold parsed_url. rewrite Hp. intros [= ->] Hne.
        by destruct (Z.eqb_spec p 0).
      * intros [= <-]. cbn. repeat split; try done.
        intros h' p [= <-] Hh. by destruct h.
    + intros [= <-]. cbn. repeat split; try done.
  - intros e. destruct host as [h|]; [|done].
    destruct (truthy_text (Some h)) eqn:Ht; cbn [andb]; [|done].
    destruct (contains "://" h); [done|].
    destruct (urlsplit_port ("scheme://" +:+ h)) as [parsed|e'] eqn:Hp; [done|].
    intros [= <-]. by exists h.
Qed.

Lemma get_db_url_spec_witness :
  let _ := plain_imports in
  get_db_url "sqlite" (Some "postgresql://bot:secret@db/rasa") (Some 1%Z) "rasa.db"
    None None (Some "postgres") None
  = Returns (UrlText "postgresql://bot:secret@db/rasa") /\
  (exists u,
      get_db_url "postgresql" (Some "DB:5432") (Some 1%Z) "rasa" None None (Some EmptyString) None
      = Returns (UrlObject u) /\
      URL.database u = Some "rasa" /\ URL.port u = Some 5432%Z) /\
  exists e,
    get_db_url "postgresql" (Some "db:http") None "rasa" None None None None = Raises e.
Proof.
  intros I. split; [|split].
  - exact (proj1 (get_db_url_spec (H:=I) "sqlite"
                    (Some "postgresql://bot:secret@db/rasa") (Some 1%Z) "rasa.db"
                    None None (Some "postgres") None) _ eq_refl eq_refl).
  - eexists. split; [reflexivity|].
    destruct (proj1 (proj2 (get_db_url_spec (H:=I) "postgresql" (Some "DB:5432")
                              (Some 1%Z) "rasa" None None (Some EmptyString) None))
                _ eq_refl) as (_ & _ & _ & _ & Hdb & _ & Hport).
    split; [exact Hdb|].
    apply (Hport "DB:5432" 5432%Z); [reflexivity|discriminate|reflexivity|lia].
  - eexists. reflexivity.
Defined.

(** ** Sessions *)



(** X18: when the schema that the environment asks for is there, or none
    is asked for, the operations of the SQL store in their session scopes
    end as the operations on the table alone end, with the same store and
    the same world: a session is made and closed for each retrieval, for
    [keys] and for [save], and one more for a [save] that streams to a
    broker, which retrieves first. *)
Theorem scoped_store_is_store `{Imports} (self : Scoped.t) (w : World) :
  let b := Scoped.backend self in
  let s := Scoped.store self in
  Scoped.ensure_schema_exists b = Returns tt ->
  (forall sid, retrieve sid self w = in_sessions 1 b (SQLTrackerStore.retrieve sid s w)) /\
  (forall sid,
      retrieve_full_tracker sid self w
      = in_sessions 1 b (SQLTrackerStore.retrieve_full_tracker sid s w)) /\
  keys self w = in_sessions 1 b (SQLTrackerStore.keys s w) /\
  (forall tr,
      save tr self w
      = in_sessions (if event_broker (SQLTrackerStore.attrs s) is Some _ then 2 else 1)
          b (SQLTrackerStore.save tr s w)).
Proof.
  intros b s Hok. subst b s. split; [|split; [|split]].
  - intros sid. change (retrieve sid self w) with (Scoped.retrieve sid self w).
    by rewrite scoped_retrieve_ok, retrieve_read.
  - intros sid.
    change (retrieve_full_tracker sid self w)
      with (Scoped.retrieve_full_tracker sid self w).
    unfold Scoped.retrieve_full_tracker, Scoped._retrieve.
    rewrite retrieve_full_read. by apply session_scope_returns, _retrieve_read.
  - change (keys self w) with (Scoped.keys self w).
    by apply session_scope_returns.
  - intros tr. change (save tr self w) with (Scoped.save tr self w).
    rewrite save_spec. unfold Scoped.save. unfold bind at 1. unfold get_self.
    unfold after_streaming, in_sessions. cbn [fst snd].
    change (get_event_broker self)
      with (event_broker (SQLTrackerStore.attrs (Scoped.store self))).
    destruct (event_broker (SQLTrackerStore.attrs (Scoped.store self)))
      as [broker|] eqn:Hb.
    + erewrite bind_returns.
      2:{ eapply stream_events_spec; [by apply scoped_retrieve_ok|exact Hb]. }
      cbn beta iota.
      erewrite session_scope_returns; [| |apply save_body_spec].
      2:{ exact Hok. }
      cbn [Scoped.store Scoped.backend]. rewrite after_sessions_1_1.
      unfold streamed.
      set (evs := drop _ (DialogueStateTracker.events tr)).
      destruct (publish_all_frame broker (DialogueStateTracker.sender_id tr) evs w)
        as (_ & _ & _ & -> & ->).
      done.
    + unfold bind at 1. unfold ret at 1.
      by erewrite session_scope_returns; [| |apply save_body_spec].
Qed.

Lemma scoped_store_is_store_witness :
  let _ := plain_imports in
  let tr := DialogueStateTracker.mk "u1" None None
              [ActionExecuted ACTION_LISTEN_NAME 1] in
  let b := postgresql_backend {["POSTGRESQL_SCHEMA" := "bot"]} ["public"; "bot"] in
  let s := empty_sql_store merge_sort_engine (Some "pika") in
  let w := quiet_world steady_clock in
  save tr (Scoped.mk s b) w = in_sessions 2 b (SQLTrackerStore.save tr s w) /\
  keys (Scoped.mk s b) w = (Returns [], Scoped.mk s (after_sessions 1 [] b), w).
Proof.
  intros I tr b s w.
  destruct (scoped_store_is_store (H:=I) (Scoped.mk s b) w eq_refl)
    as (_ & _ & Hk & Hs).
  split; [exact (Hs tr)|exact Hk].
Defined.

(** X19: a schema that the environment asks for and that a PostgreSQL
    database does not have ends every operation of the SQL store in the
    exit of the interpreter, with the message that names the schema: the
    retrievals, [keys], [save], [exists] and [get_or_create_tracker].  The
    table is not touched, nothing is published, the clock is not read, and
    the one session made is closed.  A fail-safe wrapper around the store
    does not take this for a failure of the store: the exit passes through
    it, no callback is invoked and the fallback store is not made. *)
Theorem missing_schema_exits `{Imports} {F : Type} `{TrackerStore F}
    (fs : FailSafeTrackerStore.t Scoped.t F) (w : World) (name : string) :
  let self := FailSafeTrackerStore._tracker_store fs in
  let b := Scoped.backend self in
  environ b !! POSTGRESQL_SCHEMA = Some name ->
  name <> EmptyString ->
  is_postgresql_url (bind_url b) = true ->
  name ∉ schemata b ->
  let gone :=
    Scoped.mk (Scoped.store self)
      (after_sessions 1 [Scoped.schema_not_found (ValueError name)] b) in
  (forall sid, retrieve sid self w = (Raises SystemExit, gone, w)) /\
  (forall sid, retrieve_full_tracker sid self w = (Raises SystemExit, gone, w)) /\
  keys self w = (Raises SystemExit, gone, w) /\
  (forall tr, save tr self w = (Raises SystemExit, gone, w)) /\
  (forall sid, exists_ sid self w = (Raises SystemExit, gone, w)) /\
  (forall sid meh flag,
      get_or_create_tracker sid meh flag self w
      = (Raises SystemExit, set_max_event_history meh gone, w)) /\
  (forall sid,
      FailSafeTrackerStore.retrieve sid fs w
      = (Raises SystemExit, with_primary gone fs, w)) /\
  FailSafeTrackerStore.keys fs w = (Raises SystemExit, with_primary gone fs, w) /\
  (forall tr,
      FailSafeTrackerStore.save tr fs w
      = (Raises SystemExit, with_primary gone fs, w)).
Proof.
  intros self b E Hne Hp Hno gone.
  pose proof (ensure_schema_exists_missing b name E Hne Hp Hno) as Hmiss.
  assert (forall sid, Scoped.retrieve sid self w = (Raises SystemExit, gone, w))
    as Hretrieve.
  { intros sid. unfold Scoped.retrieve, Scoped.retrieve_full_tracker, Scoped._retrieve.
    unfold bind, get_self. destruct (truthy _); by apply session_scope_exits. }
  assert (Scoped.keys self w = (Raises SystemExit, gone, w)) as Hkeys
    by by apply session_scope_exits.
  assert (forall tr, Scoped.save tr self w = (Raises SystemExit, gone, w)) as Hsave.
  { intros tr. unfold Scoped.save. unfold bind at 1. unfold get_self.
    destruct (get_event_broker self) as [broker|].
    - unfold stream_events, number_of_existing_events.
      unfold bind. by rewrite Hretrieve.
    - unfold bind at 1. unfold ret at 1. by apply session_scope_exits. }
  split; [exact Hretrieve|]. split.
  { intros sid. by apply session_scope_exits. }
  split; [exact Hkeys|]. split; [exact Hsave|]. split.
  { intros sid. unfold exists_. by erewrite bind_raises by apply Hretrieve. }
  split.
  { intros sid meh flag. unfold get_or_create_tracker. unfold bind at 1.
    unfold modify.
    assert (Scoped.ensure_schema_exists
              (Scoped.backend (set_max_event_history meh self))
            = Raises (ValueError name)) as Hmiss' by exact Hmiss.
    erewrite bind_raises; [reflexivity|].
    change (retrieve sid) with (Scoped.retrieve sid).
    unfold Scoped.retrieve, Scoped.retrieve_full_tracker, Scoped._retrieve.
    unfold bind, get_self. destruct (truthy _); by apply session_scope_exits. }
  split.
  { intros sid. by apply failsafe_not_caught; [apply Hretrieve|]. }
  split.
  { by apply failsafe_not_caught; [apply Hkeys|]. }
  intros tr. by apply failsafe_not_caught; [apply Hsave|].
Qed.

Lemma missing_schema_exits_witness :
  let _ := plain_imports in
  let tr := DialogueStateTracker.mk "u1" None None
              [ActionExecuted ACTION_LISTEN_NAME 1] in
  let b := postgresql_backend {["POSTGRESQL_SCHEMA" := "bot"]} ["public"] in
  let self := Scoped.mk (empty_sql_store merge_sort_engine (Some "pika")) b in
  let fs : FailSafeTrackerStore.t Scoped.t InMemoryTrackerStore.t :=
    FailSafeTrackerStore.mk (mkAttrs None (Some "pika") None None) self None
      (Some "alert") in
  let w := quiet_world steady_clock in
  let gone :=
    Scoped.mk (Scoped.store self)
      (after_sessions 1 [Scoped.schema_not_found (ValueError "bot")] b) in
  save tr self w = (Raises SystemExit, gone, w) /\
  FailSafeTrackerStore.save tr fs w = (Raises SystemExit, with_primary gone fs, w).
Proof.
  intros I tr b self fs w gone.
  assert ("bot" ∉ schemata b) as Hno.
  { apply (bool_decide_unpack _). by vm_compute. }
  destruct (missing_schema_exits (H:=I) fs w "bot" eq_refl ltac:(discriminate)
              eq_refl Hno) as (_ & _ & _ & Hs & _ & _ & _ & _ & Hfs).
  split; [exact (Hs tr)|exact (Hfs tr)].
Defined.

(** ** The factory *)

(** X20: what [create] makes without a constructor of another class.  A
    store is handed back as it is, domain and broker given with it being
    ignored.  Without a configuration, or with one that names no type, the
    result is an empty in-memory store with the domain given, or the empty
    domain, and the event broker given.  A type that is not [sql] and for
    which no class is found, or whose class raises an [AttributeError] or
    [ImportError] when called, gives an empty in-memory store as well,
    after one warning, but one without the event broker. *)
Theorem create_store_kinds `{Imports} {Sql Custom : Type} `{Constructors Sql Custom}
    (domain : option Domain) (event_broker : option EventBroker) (w : World) :
  let memory broker :=
    @MemoryStore Sql Custom
      (InMemoryTrackerStore.mk
         (mkAttrs (Some (default Domain_empty domain)) broker None None) ∅) in
  (forall s, create (AStore s) domain event_broker w = (inr s, w)) /\
  create ANone domain event_broker w = (inr (memory event_broker), w) /\
  (forall c,
      EndpointConfig.type c = None ->
      create (AConfig c) domain event_broker w = (inr (memory event_broker), w)) /\
  (forall c type e,
      EndpointConfig.type c = Some type ->
      lower type <> "sql" ->
      class_from_module_path (Sql:=Sql) (Custom:=Custom) type = inl e ->
      is_not_found e = true ->
      create (AConfig c) domain event_broker w
      = (inr (memory None), warn (not_found_warning type) w)) /\
  (forall c type class e w',
      EndpointConfig.type c = Some type ->
      lower type <> "sql" ->
      class_from_module_path (Sql:=Sql) (Custom:=Custom) type = inr class ->
      class (EndpointConfig.url c) (default Domain_empty domain) event_broker
        (EndpointConfig.kwargs c) w = (inl e, w') ->
      is_not_found e = true ->
      create (AConfig c) domain event_broker w
      = (inr (memory None), warn (not_found_warning type) w')).
Proof.
  intros memory. split; [done|]. split; [done|]. split.
  { intros c Ht. unfold create, _create_from_endpoint_config. by rewrite Ht. }
  split.
  - intros c type e Ht Hl Hc He.
    unfold create, _create_from_endpoint_config. rewrite Ht.
    destruct (String.eqb_spec (lower type) "sql"); [done|].
    unfold _load_from_module_name_in_endpoint_config. by rewrite Hc, He.
  - intros c type class e w' Ht Hl Hc Hcall He.
    unfold create, _create_from_endpoint_config. rewrite Ht.
    destruct (String.eqb_spec (lower type) "sql"); [done|].
    unfold _load_from_module_name_in_endpoint_config. by rewrite Hc, Hcall, He.
Qed.

Lemma create_store_kinds_witness :
  let _ := plain_imports in
  let _ := sample_constructors in
  let w := quiet_world steady_clock in
  create (AConfig (EndpointConfig.mk (Some "redis") (Some "localhost") []))
    (Some some_domain) (Some "pika") w
  = (inr (MemoryStore (empty_memory_store (Some some_domain) None)),
     warn (not_found_warning "redis") w) /\
  create (AConfig (EndpointConfig.mk None (Some "localhost") []))
    None (Some "pika") w
  = (inr (MemoryStore (empty_memory_store (Some (mkDomain [])) (Some "pika"))), w).
Proof.
  intros I K w.
  destruct (create_store_kinds (H:=I) (H0:=K) (Some some_domain) (Some "pika") w)
    as (_ & _ & _ & Hnot & _).
  destruct (create_store_kinds (H:=I) (H0:=K) None (Some "pika") w)
    as (_ & _ & Hnone & _).
  split.
  - apply (Hnot _ "redis" (ImportError "Cannot retrieve class from path redis"));
      [reflexivity|discriminate|reflexivity|reflexivity].
  - apply Hnone. reflexivity.
Defined.

(** X21: what [create] raises.  It raises only when the constructor of the
    SQL store, the search for the class of a custom type or the call of
    that class raises, and it raises that exception, but for two cases: an
    [AttributeError] or [ImportError] of a custom type is not raised, and a
    [BotoCoreError], an [OperationalError] of the database or a
    [ConnectionError] is raised as a [ConnectionException] whose message
    ends in the text of the error.  So none of these three ever leaves
    [create]. *)
Theorem create_raises `{Imports} {Sql Custom : Type} `{Constructors Sql Custom}
    (obj : Obj Sql Custom) (domain : option Domain)
    (event_broker : option EventBroker) (w w' : World) (e : CreationError) :
  create obj domain event_broker w = (inl e, w') ->
  connection_error e = None /\
  exists c type e0,
    obj = AConfig c /\ EndpointConfig.type c = Some type /\
    e = match connection_error e0 with
        | Some text =>
            Builtin (ConnectionException ("Cannot connect to tracker store." +:+ text))
        | None => e0
        end /\
    if String.eqb (lower type) "sql"
    then new_SQLTrackerStore (Custom:=Custom) (default Domain_empty domain)
           (EndpointConfig.url c) event_broker (EndpointConfig.kwargs c) w
         = (inl e0, w')
    else is_not_found e0 = false /\
         ((class_from_module_path (Sql:=Sql) (Custom:=Custom) type = inl e0 /\ w' = w) \/
          exists class,
            class_from_module_path (Sql:=Sql) (Custom:=Custom) type = inr class /\
            class (EndpointConfig.url c) (default Domain_empty domain) event_broker
              (EndpointConfig.kwargs c) w = (inl e0, w')).
Proof.
  assert (forall e0 : CreationError,
             connection_error
               match connection_error e0 with
               | Some text =>
                   Builtin (ConnectionException
                              ("Cannot connect to tracker store." +:+ text))
               | None => e0
               end = None) as Hnone.
  { intros e0. by destruct e0. }
  assert (forall e0 (w0 : World),
             match connection_error e0 with
             | Some text =>
                 (@inl CreationError (AnyStore Sql Custom)
                    (Builtin (ConnectionException
                                ("Cannot connect to tracker store." +:+ text))), w0)
             | None => (inl e0, w0)
             end
             = (inl match connection_error e0 with
                    | Some text =>
                        Builtin (ConnectionException
                                   ("Cannot connect to tracker store." +:+ text))
                    | None => e0
                    end, w0)) as Hpair.
  { intros e0 w0. by destruct (connection_error e0). }
  unfold create. destruct obj as [s|c|]; [done| |done].
  unfold _create_from_endpoint_config.
  destruct (EndpointConfig.type c) as [type|] eqn:Ht; [|done].
  destruct (String.eqb (lower type) "sql") eqn:Hsql.
  - destruct (new_SQLTrackerStore _ _ _ _ w) as [[e0|s] w0] eqn:Hnew; [|done].
    rewrite Hpair. intros [= <- <-]. split; [apply Hnone|].
    exists c, type, e0. by rewrite Hsql.
  - unfold _load_from_module_name_in_endpoint_config.
    destruct (class_from_module_path type) as [e0|class] eqn:Hc.
    + destruct (is_not_found e0) eqn:He0; [done|].
      rewrite Hpair. intros [= <- <-]. split; [apply Hnone|].
      exists c, type, e0. rewrite Hsql. do 4 (split; [done|]). by left.
    + destruct (class _ _ _ _ w) as [[e0|s] w0] eqn:Hcall; [|done].
      destruct (is_not_found e0) eqn:He0; [done|].
      rewrite Hpair. intros [= <- <-]. split; [apply Hnone|].
      exists c, type, e0. rewrite Hsql. do 4 (split; [done|]).
      right. by exists class.
Qed.

Lemma create_raises_witness :
  let _ := plain_imports in
  let _ := sample_constructors in
  let c := EndpointConfig.mk (Some "SQL") (Some "db.example.com") [] in
  let w := quiet_world steady_clock in
  create (AConfig c) None None w
  = (inl (Builtin (ConnectionException
                     "Cannot connect to tracker store.could not connect to server")),
     w) /\
  connection_error
    (Builtin (ConnectionException
                "Cannot connect to tracker store.could not connect to server")) = None.
Proof.
  intros I K c w. split; [reflexivity|].
  exact (proj1 (create_raises (H:=I) (H0:=K) (AConfig c) None None w w _ eq_refl)).
Defined.

(** ** The constructor of the SQL store *)

Lemma connect_more_fuel `{Imports} server fuel n k login_db db engine_url self w r :
  connect server fuel k login_db db engine_url self w = Some r ->
  connect server (fuel + n) k login_db db engine_url self w = Some r.
Proof.
  revert k self w. induction fuel as [|fuel IH]; intros k self w; [done|].
  cbn [connect Nat.add].
  destruct (attempt server k login_db db engine_url self w) as [[[e|] self'] w'];
    [|done].
  destruct (caught_connecting e); [apply IH|done].
Qed.

Lemma connect_not_caught `{Imports} server fuel k login_db db engine_url self w
    e self' w' :
  connect server fuel k login_db db engine_url self w = Some (Some e, self', w') ->
  caught_connecting e = false.
Proof.
  revert k self w. induction fuel as [|fuel IH]; intros k self w; [done|].
  cbn [connect].
  destruct (attempt server k login_db db engine_url self w) as [[[e0|] self0] w0];
    [|done].
  destruct (caught_connecting e0) eqn:He0; [apply IH|].
  by intros [= <- _ _].
Qed.

Lemma init_more_fuel `{Imports} server fuel n environ domain dialect host port db
    username password event_broker login_db query kwarg w r :
  __init__ server fuel environ domain dialect host port db username password
    event_broker login_db query kwarg w = Some r ->
  __init__ server (fuel + n) environ domain dialect host port db username password
    event_broker login_db query kwarg w = Some r.
Proof.
  unfold __init__.
  destruct (get_db_url _ _ _ _ _ _ _ _) as [engine_url|e]; [|done].
  destruct (create_engine_kwargs _ _) as [kwargs|e]; [|done].
  destruct (create_engine _ _ _); [done|].
  destruct (connect server fuel _ _ _ _ _ _) as [r0|] eqn:E; [|done].
  by rewrite (connect_more_fuel _ _ n _ _ _ _ _ _ _ E).
Qed.

(** X22: the constructor of the SQL store never raises an
    [OperationalError] or an [IntegrityError] out of its loop: these are
    what the loop waits on.  The bound on the turns of the loop plays no
    part in a result: what the constructor ends in within some number of
    turns, it ends in within any greater number. *)
Theorem init_raises `{Imports} server fuel environ domain dialect host port db
    username password event_broker login_db query kwarg w e self w' :
  __init__ server fuel environ domain dialect host port db username password
    event_broker login_db query kwarg w = Some (inl e, Some self, w') ->
  caught_connecting e = false /\
  forall n,
    __init__ server (fuel + n) environ domain dialect host port db username password
      event_broker login_db query kwarg w = Some (inl e, Some self, w').
Proof.
  intros Hinit. split; [|intros n; by apply init_more_fuel].
  revert Hinit. unfold __init__.
  destruct (get_db_url _ _ _ _ _ _ _ _) as [engine_url|e0]; [|done].
  destruct (create_engine_kwargs _ _) as [kwargs|e0]; [|done].
  destruct (create_engine _ _ _); [done|].
  destruct (connect server fuel _ _ _ _ _ _) as [[[[e0|] self0] w0]|] eqn:E;
    [| |done].
  - intros [= <- _ _]. by eapply connect_not_caught.
  - by destruct (TrackerStore_init _ _ _ _).
Qed.

Lemma init_raises_witness :
  let _ := plain_imports in
  let w := quiet_world steady_clock in
  let e := Builtin (AttributeError "'str' object has no attribute 'drivername'") in
  caught_connecting e = false /\
  forall n,
    exists self w',
      __init__ (late_server 0) (1 + n) ∅ (Some some_domain) "postgresql"
        (Some "postgresql://bot@db/postgres") None "rasa" None None None
        (Some "postgres") None None w
      = Some (inl e, Some self, w').
Proof.
  intros I w e.
  assert (__init__ (late_server 0) 1 ∅ (Some some_domain) "postgresql"
            (Some "postgresql://bot@db/postgres") None "rasa" None None None
            (Some "postgres") None None w
          = Some (inl e,
                  Some (mkBoot (UrlText "postgresql://bot@db/postgres",
                                [("pool_size", JNum 50); ("max_overflow", JNum 100)])
                          0 []), w)) as Hinit by reflexivity.
  destruct (init_raises (H:=I) (late_server 0) 1 ∅ (Some some_domain) "postgresql"
              (Some "postgresql://bot@db/postgres") None "rasa" None None None
              (Some "postgres") None None w e _ _ Hinit) as [He Hn].
  split; [exact He|]. intros n. do 2 eexists. apply Hn.
Defined.

(** X23: without [login_db], the constructor of the SQL store does not
    wait for the database.  When the creation of the tables raises an
    [OperationalError] or a [ProgrammingError], as it does when the
    database cannot be reached, the constructor logs one error and the store
    is made all the same, at the first turn of the loop, without sleeping;
    the engine is that of the URL of [get_db_url] with the options of
    [create_engine_kwargs]. *)
Theorem init_without_login_db `{Imports} server fuel environ domain dialect host
    port db username password event_broker login_db query kwarg w engine_url kwargs :
  truthy_text login_db = false ->
  get_db_url dialect host port db username password login_db query
  = Returns engine_url ->
  create_engine_kwargs environ engine_url = Returns kwargs ->
  create_engine server engine_url kwargs = None ->
  from_option caught_creating_tables true (create_all server 0) = true ->
  let w1 :=
    match create_all server 0 with
    | Some e => log_error ("Could not create tables: " +:+ error_text e) w
    | None => w
    end in
  __init__ server (S fuel) environ domain dialect host port db username password
    event_broker login_db query kwarg w
  = Some (inr (TrackerStore_init domain event_broker kwarg w1).1,
          Some (mkBoot (engine_url, kwargs) 0 []),
          (TrackerStore_init domain event_broker kwarg w1).2).
Proof.
  intros Hl Hurl Hk He Hall w1. unfold __init__. rewrite Hurl, Hk, He.
  cbn [connect]. unfold attempt. rewrite Hl. subst w1.
  destruct (create_all server 0) as [e|]; cbn [from_option] in Hall.
  - rewrite Hall. by destruct (TrackerStore_init _ _ _ _).
  - by destruct (TrackerStore_init _ _ _ _).
Qed.

Lemma init_without_login_db_witness :
  let _ := plain_imports in
  let w := quiet_world steady_clock in
  __init__ (late_server 3) 1 ∅ (Some some_domain) "postgresql" (Some "db") None
    "rasa" None None (Some "pika") None None None w
  = Some (inr (mkAttrs (Some some_domain) (Some "pika") None None),
          Some (mkBoot (UrlObject (URL.mk "postgresql" None None (Some "db") None
                                     (Some "rasa") None),
                        [("pool_size", JNum 50); ("max_overflow", JNum 100)]) 0 []),
          log_error "Could not create tables: connection refused" w).
Proof.
  intros I w.
  exact (init_without_login_db (H:=I) (late_server 3) 0 ∅ (Some some_domain)
           "postgresql" (Some "db") None "rasa" None None (Some "pika") None None
           None w _ _ eq_refl eq_refl eq_refl eq_refl eq_refl).
Defined.

Lemma attempt_refused `{Imports} server k login_db db engine_url self w e :
  truthy_text login_db = true ->
  dialect_name server (engine_of self).1 = "postgresql" ->
  matching_rows server k db = inl e ->
  attempt server k login_db db engine_url self w = (Some e, self, w).
Proof.
  intros Hl Hd Hm. unfold attempt, _create_database_and_update_engine, _create_database.
  by rewrite Hl, Hd, Hm.
Qed.

Lemma connect_waits `{Imports} server k login_db db engine_url :
  truthy_text login_db = true ->
  forall fuel j self w,
    dialect_name server (engine_of self).1 = "postgresql" ->
    (forall i, (j <= i < j + k)%nat ->
               exists e, matching_rows server i db = inl e /\
                         caught_connecting e = true) ->
    exists warnings,
      length warnings = k /\
      connect server fuel j login_db db engine_url self w
      = if bool_decide (fuel <= k)%nat then None
        else connect server (fuel - k) (j + k) login_db db engine_url
               (mkBoot (engine_of self) (slept self + 5 * Z.of_nat k)
                  (warning_log self ++ warnings)) w.
Proof.
  intros Hl. induction k as [|k IH]; intros fuel j self w Hd Hfail.
  - exists []. split; [done|].
    rewrite Nat.sub_0_r, Nat.add_0_r, app_nil_r, Z.add_0_r.
    destruct self as [eng secs warned]. cbn [engine_of slept warning_log].
    case_bool_decide; [|done]. by replace fuel with 0%nat by lia.
  - destruct fuel as [|fuel].
    + exists (replicate (S k) (ImportError EmptyString)).
      split; [by rewrite length_replicate|]. by rewrite bool_decide_true by lia.
    + destruct (Hfail j) as (e & Hm & He); [lia|].
      cbn [connect]. rewrite (attempt_refused _ _ _ _ _ _ _ e Hl Hd Hm), He.
      destruct (IH fuel (S j)
                  (mkBoot (engine_of self) (slept self + 5) (warning_log self ++ [e]))
                  w Hd) as (warnings & Hlen & ->).
      { intros i Hi. apply Hfail. lia. }
      exists (e :: warnings). split; [cbn; by rewrite Hlen|].
      cbn [engine_of slept warning_log].
      replace (S fuel - S k)%nat with (fuel - k)%nat by lia.
      replace (S j + k)%nat with (j + S k)%nat by lia.
      replace (slept self + 5 + 5 * Z.of_nat k)%Z
        with (slept self + 5 * Z.of_nat (S k))%Z by lia.
      rewrite <- app_assoc. cbn [app].
      case_bool_decide; case_bool_decide; try lia; done.
Qed.

(** X24: with [login_db], the constructor of the SQL store waits for a
    PostgreSQL database: as long as connecting raises an
    [OperationalError] or an [IntegrityError], it logs the error as a
    warning, sleeps five seconds and tries again.  When the [k] first
    attempts fail so and at the next one the database is found, or made,
    and the tables are made, the store is made after [k] warnings and
    [5 k] seconds, whatever [k] is; in [k] turns of the loop or fewer the
    constructor does not end.  The engine of the store is then that of the
    URL with [db] for its database, made without any options. *)
Theorem init_waits_for_database `{Imports} server (k fuel : nat) environ domain
    dialect host port db username password event_broker login_db query kwarg w
    u kwargs :
  truthy_text login_db = true ->
  get_db_url dialect host port db username password login_db query
  = Returns (UrlObject u) ->
  create_engine_kwargs environ (UrlObject u) = Returns kwargs ->
  create_engine server (UrlObject u) kwargs = None ->
  dialect_name server (UrlObject u) = "postgresql" ->
  (forall i, (i < k)%nat ->
             exists e, matching_rows server i db = inl e /\
                       caught_connecting e = true) ->
  (exists rows, matching_rows server k db = inr rows /\
                (rows <> 0%Z \/ create_database server k db = None)) ->
  let url :=
    UrlObject (URL.mk (URL.drivername u) (URL.username u) (URL.password u)
                 (URL.host u) (URL.port u) (Some db) (URL.query u)) in
  create_engine server url [] = None ->
  create_all server k = None ->
  exists warnings,
    length warnings = k /\
    __init__ server fuel environ domain dialect host port db username password
      event_broker login_db query kwarg w
    = if bool_decide (fuel <= k)%nat then None
      else Some (inr (TrackerStore_init domain event_broker kwarg w).1,
                 Some (mkBoot (url, []) (5 * Z.of_nat k) warnings),
                 (TrackerStore_init domain event_broker kwarg w).2).
Proof.
  intros Hl Hurl Hk He Hd Hfail (rows & Hrows & Hdb) url He' Hall.
  unfold __init__. rewrite Hurl, Hk, He.
  destruct (connect_waits server k login_db db (UrlObject u) Hl fuel 0
              (mkBoot (UrlObject u, kwargs) 0 []) w Hd)
    as (warnings & Hlen & ->).
  { intros i Hi. apply Hfail. lia. }
  exists warnings. split; [done|].
  case_bool_decide as Hfuel; [done|].
  destruct (fuel - k)%nat as [|rest] eqn:Hrest; [lia|].
  cbn [connect engine_of slept warning_log Nat.add app].
  assert (attempt server k login_db db (UrlObject u)
            (mkBoot (UrlObject u, kwargs) (0 + 5 * Z.of_nat k) warnings) w
          = (None, mkBoot (url, []) (0 + 5 * Z.of_nat k) warnings, w)) as ->.
  { unfold attempt, _create_database_and_update_engine, _create_database.
    rewrite Hl. cbn [engine_of fst]. rewrite Hd, Hrows. cbn [String.eqb negb].
    fold url.
    assert ((if (rows =? 0)%Z
             then match create_database server k db with
                  | Some e =>
                      if caught_creating_database e
                      then (None,
                            log_error ("Could not create database '" +:+ db
                                       +:+ "': " +:+ error_text e) w)
                      else (Some e, w)
                  | None => (None, w)
                  end
             else (None, w)) = (None, w)) as ->.
    { destruct Hdb as [Hne| ->]; [|by destruct (rows =? 0)%Z].
      by destruct (Z.eqb_spec rows 0). }
    by rewrite He', Hall. }
  rewrite Z.add_0_l. by destruct (TrackerStore_init _ _ _ _).
Qed.

Lemma init_waits_for_database_witness :
  let _ := plain_imports in
  let w := quiet_world steady_clock in
  exists warnings,
    length warnings = 2%nat /\
    __init__ (late_server 2) 3 ∅ (Some some_domain) "postgresql" (Some "db") None
      "rasa" None None None (Some "postgres") None None w
    = Some (inr (mkAttrs (Some some_domain) None None None),
            Some (mkBoot (UrlObject (URL.mk "postgresql" None None (Some "db") None
                                       (Some "rasa") None), []) 10 warnings),
            w).
Proof.
  intros I w.
  apply (init_waits_for_database (H:=I) (late_server 2) 2 3 ∅ (Some some_domain)
           "postgresql" (Some "db") None "rasa" None None None (Some "postgres")
           None None w
           (URL.mk "postgresql" None None (Some "db") None (Some "postgres") None)
           [("pool_size", JNum 50); ("max_overflow", JNum 100)]);
    try reflexivity.
  - intros i Hi. exists (OperationalError "connection refused").
    split; [|reflexivity]. cbn. by rewrite bool_decide_true by lia.
  - exists 0%Z. split; [reflexivity|]. by right.
Defined.

Lemma get_db_url_verbatim `{Imports} dialect h port db username password login_db
    query :
  contains "://" h = true ->
  get_db_url dialect (Some h) port db username password login_db query
  = Returns (UrlText h).
Proof.
  intros Hc. unfold get_db_url. assert (truthy_text (Some h) = true) as ->
    by by destruct h.
  by rewrite Hc.
Qed.

(** X25: a host that is a URL and [login_db] do not go together.  On a
    PostgreSQL engine, once the database to work on is found, or made, the
    constructor of the SQL store asks the text of the URL for its driver
    name and raises an [AttributeError], at the first turn of its loop in
    which the server answers; no store is made. *)
Theorem init_text_url_with_login_db `{Imports} server fuel environ domain dialect
    h port db username password event_broker login_db query kwarg w kwargs :
  contains "://" h = true ->
  truthy_text login_db = true ->
  create_engine_kwargs environ (UrlText h) = Returns kwargs ->
  create_engine server (UrlText h) kwargs = None ->
  dialect_name server (UrlText h) = "postgresql" ->
  (exists rows,
      matching_rows server 0 db = inr rows /\
      (rows <> 0%Z \/
       from_option caught_creating_database true (create_database server 0 db)
       = true)) ->
  exists w',
    __init__ server (S fuel) environ domain dialect (Some h) port db username
      password event_broker login_db query kwarg w
    = Some (inl (Builtin (AttributeError "'str' object has no attribute 'drivername'")),
            Some (mkBoot (UrlText h, kwargs) 0 []), w') /\
    published w' = published w /\ warnings w' = warnings w.
Proof.
  intros Hc Hl Hk He Hd (rows & Hrows & Hdb).
  unfold __init__. rewrite (get_db_url_verbatim _ _ _ _ _ _ _ _ Hc), Hk, He.
  cbn [connect]. unfold attempt, _create_database_and_update_engine, _create_database.
  rewrite Hl. cbn [engine_of fst]. rewrite Hd, Hrows. cbn [String.eqb negb].
  destruct (rows =? 0)%Z eqn:Hz.
  - destruct Hdb as [Hne|Hdb]; [by apply Z.eqb_eq in Hz|].
    destruct (create_database server 0 db) as [e|]; cbn [from_option] in Hdb.
    + rewrite Hdb. cbn [caught_connecting]. by eexists.
    + cbn [caught_connecting]. by eexists.
  - cbn [caught_connecting]. by eexists.
Qed.

Lemma init_text_url_with_login_db_witness :
  let _ := plain_imports in
  let w := quiet_world steady_clock in
  exists w',
    __init__ (late_server 0) 1 ∅ (Some some_domain) "postgresql"
      (Some "postgresql://bot@db/postgres") None "rasa" None None None
      (Some "postgres") None None w
    = Some (inl (Builtin (AttributeError "'str' object has no attribute 'drivername'")),
            Some (mkBoot (UrlText "postgresql://bot@db/postgres",
                          [("pool_size", JNum 50); ("max_overflow", JNum 100)]) 0 []),
            w') /\
    published w' = published w /\ warnings w' = warnings w.
Proof.
  intros I w.
  apply (init_text_url_with_login_db (H:=I) (late_server 0) 0 ∅ (Some some_domain)
           "postgresql" "postgresql://bot@db/postgres" None "rasa" None None None
           (Some "postgres") None None w
           [("pool_size", JNum 50); ("max_overflow", JNum 100)]);
    try reflexivity.
  exists 0%Z. split; [reflexivity|]. by right.
Defined.

(** ** Saving a conversation as it grows *)

Lemma visible_whole (self : SQLTrackerStore.t) evs :
  legacy self = true \/
  Forall (fun e => is_session_start e = false) (tail evs) ->
  visible self evs = evs.
Proof.
  unfold visible. intros [->|Hno]; [done|].
  destruct (legacy self); [done|]. by apply active_session_whole.
Qed.

Lemma tail_app_Forall {A} (P : A -> Prop) (l l1 : list A) :
  Forall P (tail (l ++ l1)) -> Forall P (tail l).
Proof.
  destruct l as [|x l]; cbn [tail app]; [done|].
  by intros [? _]%Forall_app.
Qed.

Lemma sql_saves_hold (batches : list (list Event)) :
  forall (tr : Tracker) (self : SQLTrackerStore.t) (w : World),
    implements_order_by (SQLTrackerStore.engine self) ->
    increasing (wall_clock w) ->
    holds self (DialogueStateTracker.sender_id tr) (DialogueStateTracker.events tr) ->
    clock_ahead self w (DialogueStateTracker.sender_id tr) ->
    legacy self = true \/
    Forall (fun e => is_session_start e = false)
           (tail (DialogueStateTracker.events tr ++ concat batches)) ->
    exists self' w',
      for_each (grown tr batches) SQLTrackerStore.save self w = (Returns tt, self', w') /\
      holds self' (DialogueStateTracker.sender_id tr)
        (DialogueStateTracker.events tr ++ concat batches) /\
      SQLTrackerStore.attrs self' = SQLTrackerStore.attrs self /\
      SQLTrackerStore.engine self' = SQLTrackerStore.engine self.
Proof.
  induction batches as [|batch rest IH]; intros tr self w He Hinc Hh Ha Hone.
  - exists self, w. cbn. by rewrite app_nil_r.
  - cbn [grown for_each concat].
    set (tr1 := append_events batch tr).
    assert (DialogueStateTracker.sender_id tr1 = DialogueStateTracker.sender_id tr)
      as Hsid by apply append_events_sender_id.
    assert (DialogueStateTracker.events tr1 = DialogueStateTracker.events tr ++ batch)
      as Hev by apply append_events_events.
    destruct (SQLTrackerStore.save tr1 self w) as [[r self1] w1] eqn:Hsave.
    pose proof Hsave as Hspec. rewrite save_spec in Hspec.
    injection Hspec as <- _ _.
    rewrite <- Hsid in Hh, Ha.
    destruct (save_holds tr1 self self1 w w1 _ He Hinc Hh Ha Hsave)
      as (Hh1 & Ha1 & Hattrs & Heng & Hclock).
    assert (visible self (DialogueStateTracker.events tr)
            = DialogueStateTracker.events tr) as Hv.
    { apply visible_whole. destruct Hone as [Hl|Hno]; [by left|right].
      by apply tail_app_Forall in Hno. }
    rewrite Hv, Hev, drop_app_length, <- Hev in Hh1.
    destruct (IH tr1 self1 w1) as (self' & w' & Hrun & Hh' & Hattrs' & Heng').
    + by rewrite Heng.
    + by rewrite Hclock.
    + exact Hh1.
    + exact Ha1.
    + destruct Hone as [Hl|Hno].
      * left. unfold legacy in *. by rewrite Hattrs.
      * right. by rewrite Hev, <- app_assoc.
    + exists self', w'. erewrite bind_returns by exact Hsave.
      split; [exact Hrun|]. rewrite Hsid, Hev, <- app_assoc in Hh'.
      split; [exact Hh'|]. split; congruence.
Qed.

(** X26: a conversation saved as it grows is stored whole.  When the
    rows of the conversation hold the events of a tracker in the order of
    their timestamps, the clock that stamps the rows grows strictly from
    beyond them, and no session starts after the first event of all (or the
    store reads all sessions), then saving the tracker after each of any number
    of batches of events appended to it leaves rows that hold all the
    events, old and new, in order, each once: both retrievals replay
    them. *)
Theorem sql_saves_accumulate (tr : Tracker) (batches : list (list Event))
    (self : SQLTrackerStore.t) (w : World) :
  let sid := DialogueStateTracker.sender_id tr in
  let log := DialogueStateTracker.events tr ++ concat batches in
  implements_order_by (SQLTrackerStore.engine self) ->
  increasing (wall_clock w) ->
  is_Some (domain (SQLTrackerStore.attrs self)) ->
  holds self sid (DialogueStateTracker.events tr) ->
  clock_ahead self w sid ->
  legacy self = true \/
  Forall (fun e => is_session_start e = false) (tail log) ->
  exists self' w' r,
    for_each (grown tr batches) save self w = (Returns tt, self', w') /\
    holds self' sid log /\
    retrieve sid self' w' = (Returns r, self', w') /\
    retrieve_full_tracker sid self' w' = (Returns r, self', w') /\
    from_option DialogueStateTracker.events [] r = log.
Proof.
  intros sid log He Hinc [d Hd] Hh Ha Hone. subst sid log.
  destruct (sql_saves_hold batches tr self w He Hinc Hh Ha Hone)
    as (self' & w' & Hrun & Hh' & Hattrs & Heng).
  exists self', w'. eexists. split; [exact Hrun|]. split; [exact Hh'|].
  change (retrieve ?s) with (SQLTrackerStore.retrieve s).
  change (retrieve_full_tracker ?s) with (SQLTrackerStore.retrieve_full_tracker s).
  rewrite retrieve_read, retrieve_full_read.
  rewrite <- Heng in He.
  rewrite (read_visible self' _ _ He Hh'), (read_full self' _ _ He Hh').
  assert (visible self' (DialogueStateTracker.events tr ++ concat batches)
          = DialogueStateTracker.events tr ++ concat batches) as ->.
  { apply visible_whole. destruct Hone as [Hl|Hno].
    - left. unfold legacy in *. by rewrite Hattrs.
    - by right. }
  split; [reflexivity|]. split; [reflexivity|].
  rewrite Hattrs, Hd. unfold replayed.
  by destruct (DialogueStateTracker.events tr ++ concat batches).
Qed.

Lemma sql_saves_accumulate_witness :
  let greet := ActionExecuted "utter_greet" 2 in
  let ask := UserUttered (Some "ask_weather") 3 in
  let tell := ActionExecuted "utter_weather" 4 in
  let tr := DialogueStateTracker.mk "u1" None None [] in
  let self := empty_sql_store merge_sort_engine None in
  let w := quiet_world steady_clock in
  exists self' w' r,
    for_each (grown tr [[SessionStarted.new 1; greet]; []; [ask; tell]]) save self w
    = (Returns tt, self', w') /\
    holds self' "u1" [SessionStarted.new 1; greet; ask; tell] /\
    retrieve "u1" self' w' = (Returns r, self', w') /\
    retrieve_full_tracker "u1" self' w' = (Returns r, self', w') /\
    from_option DialogueStateTracker.events [] r
    = [SessionStarted.new 1; greet; ask; tell].
Proof.
  intros greet ask tell tr self w.
  destruct (holds_fresh self w "u1" eq_refl) as [Hh Ha].
  apply (sql_saves_accumulate tr [[SessionStarted.new 1; greet]; []; [ask; tell]]
           self w merge_sort_engine_ok steady_clock_increasing).
  - by eexists.
  - exact Hh.
  - exact Ha.
  - right. cbn. repeat constructor.
Defined.

(** ** What depends on the engine *)

Lemma read_count (self : SQLTrackerStore.t) sid all_sessions :
  from_option (fun o => length (DialogueStateTracker.events o)) 0%nat
    (read self sid all_sessions)
  = if domain (SQLTrackerStore.attrs self) is Some _
    then length (omap Event.from_parameters
                   ((fun r => json_value (SQLEvent.data r))
                      <$> SQLTrackerStore._event_query self sid all_sessions))
    else 0%nat.
Proof.
  unfold read. destruct (domain (SQLTrackerStore.attrs self)) as [d|]; [|done].
  case_bool_decide as Hlen; [done|]. cbn [from_option].
  destruct (SQLTrackerStore._event_query self sid all_sessions); [done|].
  cbn in Hlen. lia.
Qed.

Lemma query_engines (a : Attrs) (e1 e2 : Engine) rows sid all_sessions :
  implements_order_by e1 -> implements_order_by e2 ->
  SQLTrackerStore._event_query (SQLTrackerStore.mk a e1 rows) sid all_sessions
  ≡ₚ SQLTrackerStore._event_query (SQLTrackerStore.mk a e2 rows) sid all_sessions.
Proof.
  intros H1 H2.
  rewrite (query_rows (SQLTrackerStore.mk a e1 rows) sid all_sessions H1).
  by rewrite (query_rows (SQLTrackerStore.mk a e2 rows) sid all_sessions H2).
Qed.

(** X27: what [save] of the SQL store writes and publishes does not depend
    on the order in which the engine returns rows of equal timestamps: with
    any two engines that implement ORDER BY, on the same table and in the
    same world, [save] appends the same rows and leaves the same world.
    Only the order of the events of a retrieved tracker depends on the
    engine. *)
Theorem save_engine_independent (tr : Tracker) (a : Attrs) (e1 e2 : Engine)
    (rows : list SQLEvent) (w : World) :
  implements_order_by e1 -> implements_order_by e2 ->
  exists new w',
    save tr (SQLTrackerStore.mk a e1 rows) w
    = (Returns tt, SQLTrackerStore.mk a e1 (rows ++ new), w') /\
    save tr (SQLTrackerStore.mk a e2 rows) w
    = (Returns tt, SQLTrackerStore.mk a e2 (rows ++ new), w').
Proof.
  intros H1 H2. change (save tr) with (SQLTrackerStore.save tr).
  rewrite !save_spec. cbn [SQLTrackerStore.attrs SQLTrackerStore.engine
                           SQLTrackerStore.table].
  set (s1 := SQLTrackerStore.mk a e1 rows). set (s2 := SQLTrackerStore.mk a e2 rows).
  assert (delta s2 tr = delta s1 tr) as ->.
  { unfold delta. f_equal. apply Permutation_length. symmetry.
    by apply query_engines. }
  assert (after_streaming s2 tr w = after_streaming s1 tr w) as ->.
  { unfold after_streaming, streamed. cbn [SQLTrackerStore.attrs s1 s2].
    destruct (event_broker a); [|done]. f_equal. f_equal.
    rewrite !read_count. cbn [SQLTrackerStore.attrs s1 s2].
    destruct (domain a); [|done]. apply Permutation_length.
    apply omap_Permutation, fmap_Permutation. symmetry.
    by apply query_engines. }
  by do 2 eexists.
Qed.

Lemma save_engine_independent_witness :
  let tr := DialogueStateTracker.mk "u1" None None
              [ActionExecuted "utter_greet" 7; ActionExecuted "utter_bye" 8] in
  let a := mkAttrs (Some some_domain) (Some "pika") None None in
  let w := quiet_world coarse_clock in
  exists new w',
    save tr (SQLTrackerStore.mk a merge_sort_engine []) w
    = (Returns tt, SQLTrackerStore.mk a merge_sort_engine new, w') /\
    save tr (SQLTrackerStore.mk a backward_scan_engine []) w
    = (Returns tt, SQLTrackerStore.mk a backward_scan_engine new, w').
Proof.
  intros tr a w.
  exact (save_engine_independent tr a merge_sort_engine backward_scan_engine [] w
           merge_sort_engine_ok backward_scan_engine_ok).
Defined.
